(** * MMS backend: authentication routes and dashboard aggregation

    A shallow embedding of
      - [models/User.js]      (the User schema, its hooks, statics and methods),
      - [routes/auth.js]      (register, login, logout, logout-all, change-password),
      - [routes/dashboard.js] (GET /api/dashboard),
    followed by the properties of the specification that concern them.

    Conventions of the embedding.
      - A JavaScript value that may be [undefined] is an [option]; a string
        is truthy when it is present and not empty.
      - Quantities are integers, as the data model of the specification
        declares them, held in Numbers: a sum is the Number nearest to the
        exact sum ([number_add]).  Timestamps are milliseconds ([Z]).
      - A collection is the list of its documents; a query filters it.
      - A plain object used as a dictionary is a finite map over its own
        keys ([gmap string _]); the keys it inherits from [Object.prototype]
        are listed apart ([inherited]).
      - An [await] that may reject returns a [Result]; [try]/[catch] is a
        match on it.
      - The libraries the code calls (bcryptjs, jsonwebtoken, the clock, the
        Date parser, the outcome of an ActivityLog write) are the fields of
        an environment [Env]. *)

From stdpp Require Import base strings list gmap sorting.
From Stdlib Require Import ZArith.

(** ** JavaScript values and exceptions *)

Module JS.

(** [if (s)] on a string that may be undefined. *)
Definition truthy (v : option string) : bool :=
  match v with
  | Some s => negb (bool_decide (s = ""))
  | None => false
  end.

(** The string behind a value known to be a truthy string. *)
Definition str (v : option string) : string := default "" v.

(** Thrown values.  [Error] is [new Error(message)]; the others are the
    rejections of the object-document mapper: a date that is not a date
    in a filter, a failed validation, a violated unique index. *)
Inductive Exn :=
| Error (message : string)
| CastError
| ValidationError
| DuplicateKey.

Inductive Result (A : Type) :=
| Ok (a : A)
| Throw (e : Exn).
Arguments Ok {A} a.
Arguments Throw {A} e.

(** [await] inside a [try]: a rejection skips the rest of the block. *)
#[global] Instance Result_bind : MBind Result := λ A B k r,
  match r with
  | Ok a => k a
  | Throw e => Throw e
  end.

#[global] Instance Exn_eq_dec : EqDecision Exn.
Proof. solve_decision. Defined.

(** *** Numbers

    A Number is a double: it holds every integer of magnitude up to 2^53
    and, beyond, only the multiples of the power of two that leaves 53
    significant bits.  [round_double z] is the Number nearest to the
    integer [z], the one with the even significand when [z] lies half way
    between two.  The model has no Infinity: a sum of magnitude 2^1024 or
    more is rounded like any other. *)
Definition round_double (z : Z) : Z :=
  if (Z.abs z <=? 2 ^ 53)%Z then z
  else
    let e := (Z.log2 (Z.abs z) - 52)%Z in
    let q := (Z.abs z / 2 ^ e)%Z in
    let r := (Z.abs z mod 2 ^ e)%Z in
    let half := (2 ^ (e - 1))%Z in
    let q' :=
      if (r <? half)%Z then q
      else if (half <? r)%Z then (q + 1)%Z
      else if Z.even q then q else (q + 1)%Z in
    (Z.sgn z * (q' * 2 ^ e))%Z.

(** [x + y] on Numbers with integer values, and so [x += y] and [x++]. *)
Definition number_add (x y : Z) : Z := round_double (x + y).

(** *** Objects

    The own properties of [Object.prototype], which every object written
    [{}] inherits: [o[k]] is defined for each of these keys [k], and is a
    function or an object, whatever the own properties of [o]. *)
Definition Object_prototype : list string :=
  [ "constructor"; "__defineGetter__"; "__defineSetter__"; "hasOwnProperty";
    "__lookupGetter__"; "__lookupSetter__"; "isPrototypeOf";
    "propertyIsEnumerable"; "toString"; "valueOf"; "__proto__";
    "toLocaleString" ].

Definition inherited (k : string) : bool := bool_decide (k ∈ Object_prototype).

End JS.

Arguments JS.round_double : simpl never.
Arguments JS.number_add : simpl never.
Arguments JS.inherited : simpl never.

Import JS.

(** ** The environment of a request *)

Module ActivityLog.

(** The [details] objects the routes write. *)
Inductive Details :=
| CreatedUser (createdUser : string) (role : string) (assignedBase : option string)
| RoleBase (role : string) (assignedBase : option string)
| AllDevices (role : string) (assignedBase : option string)
| FailedLogin (error : Exn) (ipAddress : string)
| PasswordChanged.

Record t := {
  user : option string;
  username : option string;
  action : string;
  resourceType : string;
  resourceId : option string;
  details : Details;
  ipAddress : string;
  userAgent : option string
}.

End ActivityLog.

Record Env := {
  (** [bcrypt.compare(password, hash)]; [None] when it rejects. *)
  bcrypt_compare : string → string → option bool;
  (** [bcrypt.hash(password, 10)] *)
  bcrypt_hash : string → string;
  (** [jwt.sign({ _id }, process.env.JWT_SECRET, { expiresIn: '24h' })] *)
  jwt_sign : string → string;
  (** the clock used by the [timestamps] option *)
  Date_now : Z;
  (** [new Date(s)]; [None] is an Invalid Date *)
  Date_new : string → option Z;
  (** the identifier given to a new document *)
  new_ObjectId : string;
  (** [new ActivityLog(entry).save()]; [Some e] when the write rejects with [e] *)
  ActivityLog_save : ActivityLog.t → option Exn
}.

(** The part of an HTTP request the audit entries copy. *)
Record Client := {
  ip : string;
  user_agent : option string
}.

(** ** models/User.js *)

Module User.

Inductive Role := Admin | BaseCommander | LogisticsOfficer.

#[global] Instance Role_eq_dec : EqDecision Role.
Proof. solve_decision. Defined.

Definition Role_to_string (r : Role) : string :=
  match r with
  | Admin => "Admin"
  | BaseCommander => "BaseCommander"
  | LogisticsOfficer => "LogisticsOfficer"
  end.

Definition Role_of_string (s : string) : option Role :=
  if bool_decide (s = "Admin") then Some Admin
  else if bool_decide (s = "BaseCommander") then Some BaseCommander
  else if bool_decide (s = "LogisticsOfficer") then Some LogisticsOfficer
  else None.

(** An element of the [tokens] array. *)
Record Token := { token : string }.

#[global] Instance Token_eq_dec : EqDecision Token.
Proof. solve_decision. Defined.

(** UserSchema, with the identifier and the version key [__v] that every
    stored document carries. *)
Record t := {
  _id : string;
  username : string;
  password : string;
  email : string;
  fullName : string;
  role : Role;
  assignedBase : option string;
  active : bool;
  tokens : list Token;
  lastLogin : option Z;
  createdAt : Z;
  updatedAt : Z;
  __v : Z
}.

#[global] Instance t_eq_dec : EqDecision t.
Proof. solve_decision. Defined.

Definition set_tokens (u : t) (ts : list Token) : t :=
  {| _id := _id u; username := username u; password := password u;
     email := email u; fullName := fullName u; role := role u;
     assignedBase := assignedBase u; active := active u; tokens := ts;
     lastLogin := lastLogin u; createdAt := createdAt u;
     updatedAt := updatedAt u; __v := __v u |}.

Definition set_password (u : t) (p : string) : t :=
  {| _id := _id u; username := username u; password := p;
     email := email u; fullName := fullName u; role := role u;
     assignedBase := assignedBase u; active := active u; tokens := tokens u;
     lastLogin := lastLogin u; createdAt := createdAt u;
     updatedAt := updatedAt u; __v := __v u |}.

Definition set_updatedAt (u : t) (d : Z) : t :=
  {| _id := _id u; username := username u; password := password u;
     email := email u; fullName := fullName u; role := role u;
     assignedBase := assignedBase u; active := active u; tokens := tokens u;
     lastLogin := lastLogin u; createdAt := createdAt u;
     updatedAt := d; __v := __v u |}.

Definition set_version (u : t) (v : Z) : t :=
  {| _id := _id u; username := username u; password := password u;
     email := email u; fullName := fullName u; role := role u;
     assignedBase := assignedBase u; active := active u; tokens := tokens u;
     lastLogin := lastLogin u; createdAt := createdAt u;
     updatedAt := updatedAt u; __v := v |}.

(** [User.findOne({ username })] *)
Definition findOne (name : string) (users : list t) : option t :=
  List.find (λ u, bool_decide (username u = name)) users.

(** What [save] writes for a document that is already stored, given the
    stored version [old] and the in-memory version [new]:
    the [pre('save')] hook hashes the password when the path was
    modified, the version key is incremented when the [tokens] array was
    replaced, and the [timestamps] option refreshes [updatedAt] when
    any path was modified. *)
Definition persist (env : Env) (old new : t) : t :=
  let hashed :=
    if bool_decide (password new = password old) then new
    else set_password new (bcrypt_hash env (password new)) in
  let versioned :=
    if bool_decide (tokens new = tokens old) then hashed
    else set_version hashed (__v hashed + 1) in
  if bool_decide (new = old) then versioned
  else set_updatedAt versioned (Date_now env).

(** [user.save()] for a stored document: the document with this [_id] is
    replaced.  Returns the document as it is after the save, and the
    collection. *)
Definition save (env : Env) (u : t) (users : list t) : t * list t :=
  match List.find (λ v, bool_decide (_id v = _id u)) users with
  | Some old =>
      let u' := persist env old u in
      (u', (λ v, if bool_decide (_id v = _id u) then u' else v) <$> users)
  | None => (u, users)
  end.

(** UserSchema.methods.generateAuthToken *)
Definition generateAuthToken (env : Env) (user : t) (users : list t)
  : string * t * list t :=
  let token := jwt_sign env (_id user) in
  let user := set_tokens user (tokens user ++ [ {| token := token |} ]) in
  let '(user, users) := save env user users in
  (token, user, users).

(** UserSchema.statics.findByCredentials *)
Definition findByCredentials (env : Env) (username password : string)
    (users : list t) : Result t :=
  match findOne username users with
  | None => Throw (Error "Invalid username or password")
  | Some user =>
      if negb (active user) then Throw (Error "User account is inactive")
      else
        let isMatch :=
          match bcrypt_compare env password (User.password user) with
          | Some b => b
          | None => bool_decide (password = User.password user)
          end in
        if negb isMatch then Throw (Error "Invalid username or password")
        else Ok user
  end.

(** The body of a registration request, read by [new User(req.body)] for
    every path of the schema: the declared ones, [_id], and the
    [createdAt] of the [timestamps] option.  Each field is the value the
    schema casts the body's value to, or [None] when the body has none.
    [updatedAt] and the version key are not listed: saving a new document
    overwrites both. *)
Record Fields := {
  new__id : option string;
  new_username : option string;
  new_password : option string;
  new_email : option string;
  new_fullName : option string;
  new_role : option string;
  new_assignedBase : option string;
  new_active : option bool;
  new_tokens : option (list Token);
  new_lastLogin : option Z;
  new_createdAt : option Z
}.

(** [new User(fields).save()]: the document takes the paths present in
    the body and the defaults of the others (a fresh [_id], [active] true,
    no tokens, [createdAt] now); the schema validates the required paths
    and the [enum] of [role], the unique indexes reject a second [_id],
    [username] or [email], the [pre('save')] hook hashes the password, the
    [timestamps] option gives a new document the [updatedAt] of its
    [createdAt], and the document is inserted at version 0. *)
Definition create (env : Env) (f : Fields) (users : list t)
  : Result (t * list t) :=
  match new_username f, new_password f, new_email f, new_fullName f,
        new_role f ≫= Role_of_string with
  | Some un, Some pw, Some em, Some fn, Some r =>
      if bool_decide (un = "") || bool_decide (pw = "")
         || bool_decide (em = "") || bool_decide (fn = "")
      then Throw ValidationError
      else
      let id := default (new_ObjectId env) (new__id f) in
      if bool_decide (Exists (λ v, _id v = id ∨ username v = un ∨ email v = em) users)
      then Throw DuplicateKey
      else
        let user :=
          {| _id := id; username := un;
             password := bcrypt_hash env pw; email := em; fullName := fn;
             role := r; assignedBase := new_assignedBase f;
             active := default true (new_active f);
             tokens := default [] (new_tokens f);
             lastLogin := new_lastLogin f;
             createdAt := default (Date_now env) (new_createdAt f);
             updatedAt := default (Date_now env) (new_createdAt f);
             __v := 0 |} in
        Ok (user, users ++ [user])
  | _, _, _, _, _ => Throw ValidationError
  end.

(** UserSchema.methods.toJSON: the object without [password] and [tokens]. *)
Record JSON := {
  json_id : string;
  json_username : string;
  json_email : string;
  json_fullName : string;
  json_role : Role;
  json_assignedBase : option string;
  json_active : bool;
  json_lastLogin : option Z;
  json_createdAt : Z;
  json_updatedAt : Z;
  json_v : Z
}.

Definition toJSON (u : t) : JSON :=
  {| json_id := _id u; json_username := username u; json_email := email u;
     json_fullName := fullName u; json_role := role u;
     json_assignedBase := assignedBase u; json_active := active u;
     json_lastLogin := lastLogin u; json_createdAt := createdAt u;
     json_updatedAt := updatedAt u; json_v := __v u |}.

End User.

(** ** The stored state the authentication routes act on *)

Record Store := {
  users : list User.t;
  activityLogs : list ActivityLog.t
}.

(** [await new ActivityLog(entry).save()] *)
Definition ActivityLog_write (env : Env) (entry : ActivityLog.t)
    (logs : list ActivityLog.t) : Result (list ActivityLog.t) :=
  match ActivityLog_save env entry with
  | Some e => Throw e
  | None => Ok (logs ++ [entry])
  end.

(** ** HTTP responses *)

Inductive Body :=
| SendUser (user : User.JSON)
| SendLogin (user : User.JSON) (token : string) (message : string)
| SendMessage (message : string)
| SendError (error : string) (message : string)
| SendErrorOf (error : Exn)
| SendErrorMessageOf (error : string) (message : Exn).

Record Response := {
  status : Z;
  body : Body
}.

(** [res.send(b)] and [res.status(n).send(b)] *)
Definition send (b : Body) : Response := {| status := 200; body := b |}.
Definition status_send (n : Z) (b : Body) : Response := {| status := n; body := b |}.

(** ** middleware/auth.js and middleware/baseAccess.js *)

Module Middleware.

(** Modelled from the spec: [middleware/auth.js] is not among the sources.
    Section 4.1, [resolveSession(token)]: given a bearer token, finds the
    user whose live token set contains it; fails with Unauthenticated if
    none match. *)
Definition resolveSession (token : string) (users : list User.t)
  : option User.t :=
  List.find (λ u, bool_decide (User.Build_Token token ∈ User.tokens u)) users.

(** Modelled from the spec: [middleware/baseAccess.js] is not among the
    sources.  Section 4.2, [scopeToBase(user, requestedBase)]: if the role
    is BaseCommander, the effective base is forced to the assigned base
    regardless of any requested base; attempting to access a different
    base fails with Forbidden.  Admin and LogisticsOfficer are
    unrestricted by base.  [None] is Forbidden; otherwise the effective
    base, if any. *)
Definition scopeToBase (user : User.t) (requestedBase : option string)
  : option (option (option string)) :=
  match User.role user with
  | User.BaseCommander =>
      match requestedBase with
      | Some X =>
          if bool_decide (Some X = User.assignedBase user)
          then Some (Some (User.assignedBase user))
          else None
      | None => Some (Some (User.assignedBase user))
      end
  | _ => Some (Some <$> requestedBase)
  end.

End Middleware.

(** ** routes/auth.js *)

Module Auth.

Record Credentials := {
  username : option string;
  password : option string
}.

(** POST /api/auth/login *)
Definition login (env : Env) (req : Client) (body : Credentials)
    (st : Store) : Response * Store :=
  let username := Auth.username body in
  let password := Auth.password body in
  if negb (truthy username) || negb (truthy password) then
    (status_send 400 (SendError "Login failed" "Username and password are required"), st)
  else
    let attempt : Result (Response * Store) :=
      userCheck ← match User.findOne (str username) (users st) with
                  | None => Throw (Error "Invalid username or password")
                  | Some u => Ok u
                  end;
      user ← User.findByCredentials env (str username) (str password) (users st);
      let '(token, user, users') := User.generateAuthToken env user (users st) in
      let entry :=
        {| ActivityLog.user := Some (User._id user);
           ActivityLog.username := Some (User.username user);
           ActivityLog.action := "Login";
           ActivityLog.resourceType := "User";
           ActivityLog.resourceId := Some (User._id user);
           ActivityLog.details :=
             ActivityLog.RoleBase (User.Role_to_string (User.role user))
                                  (User.assignedBase user);
           ActivityLog.ipAddress := ip req;
           ActivityLog.userAgent := user_agent req |} in
      let logs' :=
        match ActivityLog_write env entry (activityLogs st) with
        | Ok logs' => logs'
        | Throw logError => activityLogs st
        end in
      Ok (send (SendLogin (User.toJSON user) token "Login successful"),
          {| users := users'; activityLogs := logs' |})
    in
    match attempt with
    | Ok r => r
    | Throw error =>
        let logs' :=
          if truthy username then
            let entry :=
              {| ActivityLog.user := None;
                 ActivityLog.username := username;
                 ActivityLog.action := "Failed Login";
                 ActivityLog.resourceType := "User";
                 ActivityLog.resourceId := None;
                 ActivityLog.details := ActivityLog.FailedLogin error (ip req);
                 ActivityLog.ipAddress := ip req;
                 ActivityLog.userAgent := user_agent req |} in
            match ActivityLog_write env entry (activityLogs st) with
            | Ok logs' => logs'
            | Throw logError => activityLogs st
            end
          else activityLogs st in
        (status_send 401 (SendError "Authentication failed" "Invalid username or password"),
         {| users := users st; activityLogs := logs' |})
    end.

(** POST /api/auth/logout, after [auth()] has set [req.user] and [req.token] *)
Definition logout (env : Env) (req : Client) (user : User.t) (token : string)
    (st : Store) : Response * Store :=
  let user :=
    User.set_tokens user (filter (λ t, User.token t ≠ token) (User.tokens user)) in
  let '(user, users') := User.save env user (users st) in
  let entry :=
    {| ActivityLog.user := Some (User._id user);
       ActivityLog.username := Some (User.username user);
       ActivityLog.action := "Logout";
       ActivityLog.resourceType := "User";
       ActivityLog.resourceId := Some (User._id user);
       ActivityLog.details :=
         ActivityLog.RoleBase (User.Role_to_string (User.role user))
                              (User.assignedBase user);
       ActivityLog.ipAddress := ip req;
       ActivityLog.userAgent := user_agent req |} in
  match ActivityLog_write env entry (activityLogs st) with
  | Ok logs' =>
      (send (SendMessage "Logged out successfully"),
       {| users := users'; activityLogs := logs' |})
  | Throw error =>
      (status_send 500 (SendErrorOf error),
       {| users := users'; activityLogs := activityLogs st |})
  end.

(** POST /api/auth/logout-all, after [auth()] *)
Definition logoutAll (env : Env) (req : Client) (user : User.t) (token : string)
    (st : Store) : Response * Store :=
  let user := User.set_tokens user [] in
  let '(user, users') := User.save env user (users st) in
  let entry :=
    {| ActivityLog.user := Some (User._id user);
       ActivityLog.username := Some (User.username user);
       ActivityLog.action := "Logout";
       ActivityLog.resourceType := "User";
       ActivityLog.resourceId := Some (User._id user);
       ActivityLog.details :=
         ActivityLog.AllDevices (User.Role_to_string (User.role user))
                                (User.assignedBase user);
       ActivityLog.ipAddress := ip req;
       ActivityLog.userAgent := user_agent req |} in
  match ActivityLog_write env entry (activityLogs st) with
  | Ok logs' =>
      (send (SendMessage "Logged out from all devices successfully"),
       {| users := users'; activityLogs := logs' |})
  | Throw error =>
      (status_send 500 (SendErrorOf error),
       {| users := users'; activityLogs := activityLogs st |})
  end.

(** POST /api/auth/register, after [auth(['Admin'])] *)
Definition register (env : Env) (req : Client) (reqUser : User.t)
    (body : User.Fields) (st : Store) : Response * Store :=
  match User.create env body (users st) with
  | Throw error => (status_send 400 (SendErrorOf error), st)
  | Ok (user, users') =>
      let entry :=
        {| ActivityLog.user := Some (User._id reqUser);
           ActivityLog.username := Some (User.username reqUser);
           ActivityLog.action := "Create";
           ActivityLog.resourceType := "User";
           ActivityLog.resourceId := Some (User._id user);
           ActivityLog.details :=
             ActivityLog.CreatedUser (User.username user)
               (User.Role_to_string (User.role user)) (User.assignedBase user);
           ActivityLog.ipAddress := ip req;
           ActivityLog.userAgent := user_agent req |} in
      match ActivityLog_write env entry (activityLogs st) with
      | Ok logs' =>
          (status_send 201 (SendUser (User.toJSON user)),
           {| users := users'; activityLogs := logs' |})
      | Throw error =>
          (status_send 400 (SendErrorOf error),
           {| users := users'; activityLogs := activityLogs st |})
      end
  end.

(** The body of a change-password request; both fields are strings. *)
Record PasswordChange := {
  currentPassword : string;
  newPassword : string
}.

(** PUT /api/auth/change-password, after [auth()] *)
Definition changePassword (env : Env) (req : Client) (reqUser : User.t)
    (body : PasswordChange) (st : Store) : Response * Store :=
  match User.findByCredentials env (User.username reqUser)
                               (currentPassword body) (users st) with
  | Throw error =>
      (status_send 400 (SendErrorMessageOf "Password change failed" error), st)
  | Ok user =>
      let user := User.set_password user (newPassword body) in
      if bool_decide (User.password user = "") then
        (* the required path is empty: the save is rejected *)
        (status_send 400 (SendErrorMessageOf "Password change failed" ValidationError), st)
      else
        let '(user, users') := User.save env user (users st) in
        let entry :=
          {| ActivityLog.user := Some (User._id user);
             ActivityLog.username := Some (User.username user);
             ActivityLog.action := "Update";
             ActivityLog.resourceType := "User";
             ActivityLog.resourceId := Some (User._id user);
             ActivityLog.details := ActivityLog.PasswordChanged;
             ActivityLog.ipAddress := ip req;
             ActivityLog.userAgent := user_agent req |} in
        match ActivityLog_write env entry (activityLogs st) with
        | Ok logs' =>
            (send (SendMessage "Password changed successfully"),
             {| users := users'; activityLogs := logs' |})
        | Throw error =>
            (status_send 400 (SendErrorMessageOf "Password change failed" error),
             {| users := users'; activityLogs := activityLogs st |})
        end
  end.

(** GET /api/auth/me, after [auth()]: [res.send(req.user)] *)
Definition me (user : User.t) : Response := send (SendUser (User.toJSON user)).

End Auth.

(** ** The domain records read by the dashboard

    Each record lists the paths the dashboard route filters, sorts or
    selects on.  A [base] that is null or missing is [None].  The schemas
    of these models are not among the sources; the quantities are the
    integers of the data model of the specification ("all non-negative
    integers" for the balances of an asset), stored as Numbers. *)

Module Asset.
Record t := {
  name : string;
  type : string;
  base : option string;
  openingBalance : Z;
  closingBalance : Z;
  purchases : Z;
  transferIn : Z;
  transferOut : Z;
  assigned : Z;
  expended : Z;
  available : Z;
  createdAt : Z
}.
End Asset.

Module Transfer.
Record t := {
  assetName : string;
  fromBase : option string;
  toBase : option string;
  quantity : Z;
  status : string;
  createdAt : Z
}.
End Transfer.

Module Purchase.
Record t := {
  assetName : string;
  assetType : string;
  base : option string;
  quantity : Z;
  status : string;
  purchaseDate : Z;
  createdAt : Z
}.
End Purchase.

Module Assignment.
Record t := {
  assetName : string;
  assetType : string;
  base : option string;
  quantity : Z;
  assignedTo : string;
  status : string;
  startDate : Z;
  createdAt : Z
}.
End Assignment.

Module Expenditure.
Record t := {
  assetName : string;
  assetType : string;
  base : option string;
  quantity : Z;
  reason : string;
  expenditureDate : Z;
  createdAt : Z
}.
End Expenditure.

Record Collections := {
  assets : list Asset.t;
  transfers : list Transfer.t;
  purchases : list Purchase.t;
  assignments : list Assignment.t;
  expenditures : list Expenditure.t
}.

(** ** Query filters *)

Module Filter.

(** [{ $gte: d1, $lte: d2 }], each bound optional; a bound is a Date
    object, [None] when it is an Invalid Date. *)
Record Range := {
  gte : option (option Z);
  lte : option (option Z)
}.

(** [dateMatch]: [{}] or [{ createdAt: range }] *)
Definition Dates := option Range.

(** A filter is cast before it is sent: a bound that is an Invalid Date
    makes the query reject. *)
Definition castable (d : Dates) : bool :=
  match d with
  | None => true
  | Some r =>
      negb (bool_decide (gte r = Some None)) && negb (bool_decide (lte r = Some None))
  end.

Definition in_range (d : Dates) (createdAt : Z) : bool :=
  match d with
  | None => true
  | Some r =>
      match gte r with Some (Some lo) => (lo <=? createdAt)%Z | _ => true end
      && match lte r with Some (Some hi) => (createdAt <=? hi)%Z | _ => true end
  end.

(** [{ path: v }] when the key is present: equality with the stored
    value; [v] undefined is sent as null and matches a null or missing
    path. *)
Definition eq_opt {A} `{EqDecision A} (cond : option A) (stored : A) : bool :=
  match cond with
  | None => true
  | Some v => bool_decide (stored = v)
  end.

(** [match] of the asset query: [{ base?, type? }] *)
Record AssetMatch := {
  a_base : option (option string);
  a_type : option string
}.

(** [transferMatch]: [{ ...dateMatch, $or?: [{ fromBase: b }, { toBase: b }] }] *)
Record TransferMatch := {
  t_dates : Dates;
  t_or : option (option string)
}.

(** [purchaseMatch], [assignmentMatch], [expenditureMatch]:
    [{ ...dateMatch, base?, assetType? }] *)
Record BaseTypeMatch := {
  b_dates : Dates;
  b_base : option (option string);
  b_assetType : option string
}.

Definition asset_matches (m : AssetMatch) (a : Asset.t) : bool :=
  eq_opt (a_base m) (Asset.base a) && eq_opt (a_type m) (Asset.type a).

Definition transfer_matches (m : TransferMatch) (t : Transfer.t) : bool :=
  in_range (t_dates m) (Transfer.createdAt t)
  && match t_or m with
     | None => true
     | Some b => bool_decide (Transfer.fromBase t = b) || bool_decide (Transfer.toBase t = b)
     end.

Definition matches (m : BaseTypeMatch) (createdAt : Z) (base : option string)
    (assetType : string) : bool :=
  in_range (b_dates m) createdAt
  && eq_opt (b_base m) base && eq_opt (b_assetType m) assetType.

End Filter.

(** [docs.filter(p)] with a boolean predicate *)
Definition select {A} (p : A → bool) (docs : list A) : list A :=
  List.filter p docs.

(** The order of [{ key: -1 }]: [x] comes before [y] when its key is at
    least that of [y]. *)
Definition desc {A} (key : A → Z) : relation A := λ x y, (key y ≤ key x)%Z.

#[global] Instance desc_dec {A} (key : A → Z) : RelDecision (desc key).
Proof. intros x y. unfold desc. apply _. Defined.

(** [.sort({ key: -1 })]: descending by [key] *)
Definition sort_desc {A} (key : A → Z) (docs : list A) : list A :=
  merge_sort (desc key) docs.

(** [.limit(n)] *)
Definition limit {A} (n : nat) (docs : list A) : list A := take n docs.

(** ** routes/dashboard.js *)

Module Summary.
Record t := {
  totalAssets : Z;
  totalOpeningBalance : Z;
  totalClosingBalance : Z;
  totalPurchases : Z;
  totalTransferIn : Z;
  totalTransferOut : Z;
  totalAssigned : Z;
  totalExpended : Z;
  totalAvailable : Z
}.

#[global] Instance t_eq_dec : EqDecision t.
Proof. solve_decision. Defined.
End Summary.

Module Group.
Record t := {
  type : string;
  count : Z;
  openingBalance : Z;
  closingBalance : Z;
  assigned : Z;
  available : Z
}.

#[global] Instance t_eq_dec : EqDecision t.
Proof. solve_decision. Defined.
End Group.

Module Dashboard.

(** [req.query] *)
Record Query := {
  base : option string;
  assetType : option string;
  startDate : option string;
  endDate : option string
}.

(** The object sent on success. *)
Record Data := {
  summary : Summary.t;
  assetsByType : list Group.t;
  recentTransfers : list Transfer.t;
  recentPurchases : list Purchase.t;
  recentAssignments : list Assignment.t;
  recentExpenditures : list Expenditure.t
}.

Inductive Reply :=
| Send (data : Data)
| StatusSend (status : Z) (error : Exn).

(** [match], after the filters and the BaseCommander restriction *)
Definition assetMatch (user : User.t) (query : Query) : Filter.AssetMatch :=
  let match_base := if truthy (base query) then Some (base query) else None in
  let match_type := if truthy (assetType query) then assetType query else None in
  let match_base :=
    if bool_decide (User.role user = User.BaseCommander)
    then Some (User.assignedBase user) else match_base in
  {| Filter.a_base := match_base; Filter.a_type := match_type |}.

(** [dateMatch] *)
Definition dateMatch (env : Env) (query : Query) : Filter.Dates :=
  if truthy (startDate query) || truthy (endDate query) then
    Some {| Filter.gte :=
              if truthy (startDate query)
              then Some (Date_new env (str (startDate query))) else None;
            Filter.lte :=
              if truthy (endDate query)
              then Some (Date_new env (str (endDate query))) else None |}
  else None.

(** The base the four recent lists are restricted to: the requested base
    when there is one, otherwise the assigned base of a BaseCommander. *)
Definition recentBase (user : User.t) (query : Query) : option (option string) :=
  if truthy (base query) then Some (base query)
  else if bool_decide (User.role user = User.BaseCommander)
  then Some (User.assignedBase user)
  else None.

Definition transferMatch (env : Env) (user : User.t) (query : Query)
  : Filter.TransferMatch :=
  {| Filter.t_dates := dateMatch env query;
     Filter.t_or := recentBase user query |}.

(** [purchaseMatch], [assignmentMatch] and [expenditureMatch] are built
    by the same statements. *)
Definition baseTypeMatch (env : Env) (user : User.t) (query : Query)
  : Filter.BaseTypeMatch :=
  {| Filter.b_dates := dateMatch env query;
     Filter.b_base := recentBase user query;
     Filter.b_assetType :=
       if truthy (assetType query) then assetType query else None |}.

(** The initial [summary] *)
Definition summary0 (n : nat) : Summary.t :=
  {| Summary.totalAssets := Z.of_nat n;
     Summary.totalOpeningBalance := 0;
     Summary.totalClosingBalance := 0;
     Summary.totalPurchases := 0;
     Summary.totalTransferIn := 0;
     Summary.totalTransferOut := 0;
     Summary.totalAssigned := 0;
     Summary.totalExpended := 0;
     Summary.totalAvailable := 0 |}.

(** The body of [assets.forEach]: the summary metrics, each [+=] an
    addition of Numbers *)
Definition addToSummary (summary : Summary.t) (asset : Asset.t) : Summary.t :=
  {| Summary.totalAssets := Summary.totalAssets summary;
     Summary.totalOpeningBalance :=
       number_add (Summary.totalOpeningBalance summary) (Asset.openingBalance asset);
     Summary.totalClosingBalance :=
       number_add (Summary.totalClosingBalance summary) (Asset.closingBalance asset);
     Summary.totalPurchases :=
       number_add (Summary.totalPurchases summary) (Asset.purchases asset);
     Summary.totalTransferIn :=
       number_add (Summary.totalTransferIn summary) (Asset.transferIn asset);
     Summary.totalTransferOut :=
       number_add (Summary.totalTransferOut summary) (Asset.transferOut asset);
     Summary.totalAssigned :=
       number_add (Summary.totalAssigned summary) (Asset.assigned asset);
     Summary.totalExpended :=
       number_add (Summary.totalExpended summary) (Asset.expended asset);
     Summary.totalAvailable :=
       number_add (Summary.totalAvailable summary) (Asset.available asset) |}.

Definition newGroup (type : string) : Group.t :=
  {| Group.type := type; Group.count := 0; Group.openingBalance := 0;
     Group.closingBalance := 0; Group.assigned := 0; Group.available := 0 |}.

(** [g.count++] and the four [g.path += asset.path] on a group [g] *)
Definition addToGroup (asset : Asset.t) (g : Group.t) : Group.t :=
  {| Group.type := Group.type g;
     Group.count := number_add (Group.count g) 1;
     Group.openingBalance :=
       number_add (Group.openingBalance g) (Asset.openingBalance asset);
     Group.closingBalance :=
       number_add (Group.closingBalance g) (Asset.closingBalance asset);
     Group.assigned := number_add (Group.assigned g) (Asset.assigned asset);
     Group.available := number_add (Group.available g) (Asset.available asset) |}.

(** The body of [assets.forEach]: the group of the asset's type.
    [assetsByType] is the map of the own properties of the object, which
    starts as [{}].  For a type that names an inherited property,
    [assetsByType[asset.type]] is the inherited function or object, which is
    truthy: no group is created, the five updates that follow are made to
    properties of that inherited value, and the own properties stay as
    they are.  For any other type the test sees the own property, if there
    is one, and a group is an object and so truthy. *)
Definition addToGroups (assetsByType : gmap string Group.t) (asset : Asset.t)
  : gmap string Group.t :=
  if inherited (Asset.type asset) then assetsByType
  else
    let assetsByType :=
      match assetsByType !! Asset.type asset with
      | None => <[Asset.type asset := newGroup (Asset.type asset)]> assetsByType
      | Some _ => assetsByType
      end in
    alter (addToGroup asset) (Asset.type asset) assetsByType.

(** [assets.forEach(asset => { ... })] from the initial summary and the
    empty object *)
Definition summarise (assets : list Asset.t) : Summary.t :=
  fold_left addToSummary assets (summary0 (length assets)).

Definition groupByType (assets : list Asset.t) : gmap string Group.t :=
  fold_left addToGroups assets ∅.

(** [Object.values(o)]: the values of the own properties *)
Definition Object_values {A} (o : gmap string A) : list A :=
  (map_to_list o).*2.

(** [await Model.find(filter).sort({ key: -1 }).limit(5)]: rejects when
    the filter cannot be cast *)
Definition recent {A} (key : A → Z) (dates : Filter.Dates) (p : A → bool)
    (docs : list A) : Result (list A) :=
  if Filter.castable dates
  then Ok (limit 5 (sort_desc key (select p docs)))
  else Throw CastError.

(** The assets the query matches: [await Asset.find(match)] *)
Definition matchedAssets (user : User.t) (query : Query) (db : Collections)
  : list Asset.t :=
  select (Filter.asset_matches (assetMatch user query)) (assets db).

(** GET /api/dashboard, after [auth] and [baseAccess].  The [select] of
    each query only restricts the paths that are serialised. *)
Definition dashboard (env : Env) (user : User.t) (query : Query)
    (db : Collections) : Reply :=
  let assets := matchedAssets user query db in
  let summary := summarise assets in
  let assetsByType := groupByType assets in
  let tm := transferMatch env user query in
  let bm := baseTypeMatch env user query in
  let attempt : Result Data :=
    recentTransfers ←
      recent Transfer.createdAt (Filter.t_dates tm)
             (Filter.transfer_matches tm) (transfers db);
    recentPurchases ←
      recent Purchase.purchaseDate (Filter.b_dates bm)
             (λ d, Filter.matches bm (Purchase.createdAt d) (Purchase.base d)
                                  (Purchase.assetType d))
             (purchases db);
    recentAssignments ←
      recent Assignment.startDate (Filter.b_dates bm)
             (λ d, Filter.matches bm (Assignment.createdAt d) (Assignment.base d)
                                  (Assignment.assetType d))
             (assignments db);
    recentExpenditures ←
      recent Expenditure.expenditureDate (Filter.b_dates bm)
             (λ d, Filter.matches bm (Expenditure.createdAt d) (Expenditure.base d)
                                  (Expenditure.assetType d))
             (expenditures db);
    Ok {| summary := summary;
          assetsByType := Object_values assetsByType;
          recentTransfers := recentTransfers;
          recentPurchases := recentPurchases;
          recentAssignments := recentAssignments;
          recentExpenditures := recentExpenditures |}
  in
  match attempt with
  | Ok data => Send data
  | Throw error => StatusSend 500 error
  end.

(** The route with the base check in front of the handler: a request the
    check refuses is answered 403. *)
Definition guarded (env : Env) (user : User.t) (query : Query)
    (db : Collections) : Reply :=
  match Middleware.scopeToBase user (base query) with
  | None => StatusSend 403 (Error "Forbidden")
  | Some _ => dashboard env user query db
  end.

(** What GET /api/dashboard/base/:base sends: the data of the main route
    with the base in front, or a status with an error. *)
Inductive BaseReply :=
| SendBase (base : string) (data : Data)
| BaseStatusSend (status : Z) (error : Exn).

(** GET /api/dashboard/base/:base, after [auth] and [baseAccess]; [base] is
    [req.params.base].  The [select] of each query only restricts the
    paths that are serialised. *)
Definition dashboardBase (user : User.t) (base : string) (db : Collections)
  : BaseReply :=
  if bool_decide (User.role user = User.BaseCommander)
     && negb (bool_decide (User.assignedBase user = Some base))
  then BaseStatusSend 403 (Error "Not authorized to access this base")
  else
    let assets := select (λ a, bool_decide (Asset.base a = Some base)) (assets db) in
    SendBase base
      {| summary := summarise assets;
         assetsByType := Object_values (groupByType assets);
         recentTransfers :=
           limit 5 (sort_desc Transfer.createdAt
                      (select (λ d, bool_decide (Transfer.fromBase d = Some base)
                                    || bool_decide (Transfer.toBase d = Some base))
                              (transfers db)));
         recentPurchases :=
           limit 5 (sort_desc Purchase.purchaseDate
                      (select (λ d, bool_decide (Purchase.base d = Some base))
                              (purchases db)));
         recentAssignments :=
           limit 5 (sort_desc Assignment.startDate
                      (select (λ d, bool_decide (Assignment.base d = Some base))
                              (assignments db)));
         recentExpenditures :=
           limit 5 (sort_desc Expenditure.expenditureDate
                      (select (λ d, bool_decide (Expenditure.base d = Some base))
                              (expenditures db))) |}.

End Dashboard.

(** ** routes/dashboard.js: the detail of one asset *)

Module Detail.

(** A stored record together with the [_id] of the asset its [asset] path
    references. *)
Record Of (A : Type) := {
  asset : string;
  doc : A
}.
Arguments asset {A} _.
Arguments doc {A} _.

(** The collections with the assets keyed by their [_id]. *)
Record Collections := {
  assets : gmap string Asset.t;
  transfers : list (Of Transfer.t);
  purchases : list (Of Purchase.t);
  assignments : list (Of Assignment.t);
  expenditures : list (Of Expenditure.t)
}.

(** The object sent on success. *)
Record Data := {
  the_asset : Asset.t;
  its_transfers : list (Of Transfer.t);
  its_purchases : list (Of Purchase.t);
  its_assignments : list (Of Assignment.t);
  its_expenditures : list (Of Expenditure.t)
}.

Inductive Reply :=
| Send (data : Data)
| StatusSend (status : Z) (error : Exn).

(** [await Model.find({ asset: id }).sort({ key: -1 }).limit(10)] *)
Definition last10 {A} (key : A → Z) (id : string) (docs : list (Of A))
  : list (Of A) :=
  limit 10 (sort_desc (key ∘ doc) (select (λ r, bool_decide (asset r = id)) docs)).

(** GET /api/dashboard/asset/:id, after [auth] and [baseAccess]; [id] is
    [req.params.id], and [isObjectId] tells whether it can be cast to an
    identifier ([findById] rejects otherwise).  The [populate] calls only
    fill in the names of the referenced users in what is serialised. *)
Definition dashboardAsset (isObjectId : string → bool) (user : User.t)
    (id : string) (db : Collections) : Reply :=
  if negb (isObjectId id) then StatusSend 500 CastError
  else
    match assets db !! id with
    | None => StatusSend 404 (Error "Asset not found")
    | Some asset =>
        if bool_decide (User.role user = User.BaseCommander)
           && negb (bool_decide (User.assignedBase user = Asset.base asset))
        then StatusSend 403 (Error "Not authorized to access this asset")
        else
          Send {| the_asset := asset;
                  its_transfers := last10 Transfer.createdAt id (transfers db);
                  its_purchases := last10 Purchase.purchaseDate id (purchases db);
                  its_assignments := last10 Assignment.startDate id (assignments db);
                  its_expenditures :=
                    last10 Expenditure.expenditureDate id (expenditures db) |}
    end.

End Detail.

(** ** components/layout/Sidebar.tsx *)

Module Sidebar.

Record Item := {
  name : string;
  href : string;
  icon : string;
  roles : list string
}.

#[global] Instance Item_eq_dec : EqDecision Item.
Proof. solve_decision. Defined.

(** [navigation] *)
Definition navigation : list Item :=
  [ {| name := "Dashboard"; href := "/dashboard"; icon := "HomeIcon";
       roles := ["Admin"] |};
    {| name := "Assets"; href := "/assets"; icon := "CubeIcon";
       roles := ["Admin"; "BaseCommander"; "LogisticsOfficer"] |};
    {| name := "Transfers"; href := "/transfers"; icon := "TruckIcon";
       roles := ["Admin"; "BaseCommander"; "LogisticsOfficer"] |};
    {| name := "Purchases"; href := "/purchases"; icon := "ShoppingCartIcon";
       roles := ["Admin"; "BaseCommander"; "LogisticsOfficer"] |};
    {| name := "Assignments"; href := "/assignments"; icon := "UserGroupIcon";
       roles := ["Admin"; "BaseCommander"] |};
    {| name := "Expenditures"; href := "/expenditures"; icon := "ArchiveBoxIcon";
       roles := ["Admin"; "BaseCommander"] |};
    {| name := "Users"; href := "/users"; icon := "UsersIcon";
       roles := ["Admin"] |};
    {| name := "Settings"; href := "/settings"; icon := "Cog6ToothIcon";
       roles := ["Admin"] |} ].

(** [filteredNavigation]; [role] is [user?.role], undefined when there is
    no user or the user has no role. *)
Definition filteredNavigation (role : option string) : list Item :=
  List.filter (λ item, truthy role && bool_decide (str role ∈ roles item))
              navigation.

(** [classNames(...classes)]: [classes.filter(Boolean).join(' ')] *)
Definition classNames (classes : list string) : string :=
  String.concat " " (List.filter (λ c, negb (bool_decide (c = ""))) classes).

(** The [className] of the link of an item in the desktop sidebar. *)
Definition linkClass (pathname : string) (item : Item) : string :=
  classNames
    [ if bool_decide (pathname = href item)
      then "bg-military-navy-light text-white"
      else "text-gray-300 hover:bg-military-navy-light hover:text-white";
      "group flex items-center px-2 py-2 text-sm font-medium rounded-md" ].

End Sidebar.

(** * Definitions used to state the properties *)

(** [t] is a live session token of the user with identifier [id]: it is in
    the token set of a stored record of that user. *)
Definition live_token (t : string) (id : string) (users : list User.t) : Prop :=
  ∃ v, v ∈ users ∧ User._id v = id ∧ User.Build_Token t ∈ User.tokens v.

(** What logout stores for the user: the tokens other than the presented
    one, the version key incremented, and a fresh [updatedAt]. *)
Definition logged_out (env : Env) (u : User.t) (t : string) : User.t :=
  User.set_updatedAt
    (User.set_version
       (User.set_tokens u (filter (λ x, User.token x ≠ t) (User.tokens u)))
       (User.__v u + 1))
    (Date_now env).

(** The sum over a list of documents of one of their quantities. *)
Definition total {A} (f : A → Z) (l : list A) : Z :=
  foldr (λ a acc, (f a + acc)%Z) 0%Z l.

(** The sum over a list of documents of the magnitudes of one of their
    quantities. *)
Definition magnitude {A} (f : A → Z) (l : list A) : Z :=
  total (λ a, Z.abs (f a)) l.

(** The group the specification describes for a type [t]: none when no
    asset has the type, otherwise the count and the sums over the assets
    of that type. *)
Definition groupOf (t : string) (S : list Asset.t) : option Group.t :=
  let St := filter (λ a, Asset.type a = t) S in
  match St with
  | [] => None
  | _ =>
      Some {| Group.type := t;
              Group.count := Z.of_nat (length St);
              Group.openingBalance := total Asset.openingBalance St;
              Group.closingBalance := total Asset.closingBalance St;
              Group.assigned := total Asset.assigned St;
              Group.available := total Asset.available St |}
  end.

(** The assets the full filter of a request would match if the date range
    were applied to the asset query as well. *)
Definition matchedInRange (env : Env) (user : User.t) (query : Dashboard.Query)
    (db : Collections) : list Asset.t :=
  select (λ a, Filter.asset_matches (Dashboard.assetMatch user query) a
               && Filter.in_range (Dashboard.dateMatch env query) (Asset.createdAt a))
         (assets db).

(** The declared invariant of an asset: available = closingBalance - assigned. *)
Definition available_invariant (a : Asset.t) : Prop :=
  Asset.available a = (Asset.closingBalance a - Asset.assigned a)%Z.

(** A reply is scoped to the base [B] when its summary and groups are
    computed from stored assets of [B] only, every recent transfer leaves
    from or arrives at [B], and every other recent record is of [B]. *)
Definition scoped_to (B : option string) (db : Collections)
    (data : Dashboard.Data) : Prop :=
  (∃ S, S ⊆ assets db
        ∧ Forall (λ a, Asset.base a = B) S
        ∧ Dashboard.summary data = Dashboard.summarise S
        ∧ Dashboard.assetsByType data
          = Dashboard.Object_values (Dashboard.groupByType S))
  ∧ Forall (λ d, Transfer.fromBase d = B ∨ Transfer.toBase d = B)
           (Dashboard.recentTransfers data)
  ∧ Forall (λ d, Purchase.base d = B) (Dashboard.recentPurchases data)
  ∧ Forall (λ d, Assignment.base d = B) (Dashboard.recentAssignments data)
  ∧ Forall (λ d, Expenditure.base d = B) (Dashboard.recentExpenditures data).

(** The assets that can have a group: those whose type does not name an
    inherited property; and the others. *)
Definition listed (S : list Asset.t) : list Asset.t :=
  filter (λ a, inherited (Asset.type a) = false) S.

Definition unlisted (S : list Asset.t) : list Asset.t :=
  filter (λ a, inherited (Asset.type a) = true) S.

(** The counts and the sums over [S] stay within the integers that every
    Number holds: the number of assets and, for each quantity a group
    records, the sum of its magnitudes are at most 2^53. *)
Definition exact_sums (S : list Asset.t) : Prop :=
  (Z.of_nat (length S) ≤ 2 ^ 53)%Z
  ∧ (magnitude Asset.openingBalance S ≤ 2 ^ 53)%Z
  ∧ (magnitude Asset.closingBalance S ≤ 2 ^ 53)%Z
  ∧ (magnitude Asset.assigned S ≤ 2 ^ 53)%Z
  ∧ (magnitude Asset.available S ≤ 2 ^ 53)%Z.

(** What a successful login stores for the user: the signed token after
    the tokens already there, the version key incremented, and a fresh
    [updatedAt]. *)
Definition logged_in (env : Env) (u : User.t) : User.t :=
  User.set_updatedAt
    (User.set_version
       (User.set_tokens u
          (User.tokens u ++ [User.Build_Token (jwt_sign env (User._id u))]))
       (User.__v u + 1))
    (Date_now env).

(** What a change of password stores for the user: the hash of the new
    password, and a fresh [updatedAt]. *)
Definition password_changed (env : Env) (u : User.t) (p : string) : User.t :=
  User.set_updatedAt (User.set_password u (bcrypt_hash env p)) (Date_now env).

(** The collection with the records of the identifier of [u] replaced by [u']. *)
Definition replaced (u u' : User.t) (users : list User.t) : list User.t :=
  (λ v, if bool_decide (User._id v = User._id u) then u' else v) <$> users.

(** The audit entry of a failed login. *)
Definition failed_login_entry (req : Client) (username : option string) (e : Exn)
  : ActivityLog.t :=
  {| ActivityLog.user := None;
     ActivityLog.username := username;
     ActivityLog.action := "Failed Login";
     ActivityLog.resourceType := "User";
     ActivityLog.resourceId := None;
     ActivityLog.details := ActivityLog.FailedLogin e (ip req);
     ActivityLog.ipAddress := ip req;
     ActivityLog.userAgent := user_agent req |}.

(** The query [?base=B] without any other filter. *)
Definition only_base (B : string) : Dashboard.Query :=
  {| Dashboard.base := Some B; Dashboard.assetType := None;
     Dashboard.startDate := None; Dashboard.endDate := None |}.

(** The environment [env] with another outcome of the ActivityLog writes. *)
Definition with_ActivityLog_save (env : Env) (save : ActivityLog.t → option Exn)
  : Env :=
  {| bcrypt_compare := bcrypt_compare env;
     bcrypt_hash := bcrypt_hash env;
     jwt_sign := jwt_sign env;
     Date_now := Date_now env;
     Date_new := Date_new env;
     new_ObjectId := new_ObjectId env;
     ActivityLog_save := save |}.

(** [kept] holds the [n] most recent of the records [matched]: as many as
    there are, up to [n], and no record left out is more recent than one
    that is kept. *)
Definition most_recent {A} (key : A → Z) (n : nat) (kept matched : list A) : Prop :=
  length kept = min n (length matched)
  ∧ ∃ rest, matched ≡ₚ kept ++ rest
            ∧ ∀ x y, x ∈ kept → y ∈ rest → (key y ≤ key x)%Z.

(** * Concrete data used to run the model *)

Module Sample.

(** A toy password hash: the hash of [p] is [p] behind a marker; the
    comparison rejects a stored value that does not carry the marker. *)
Definition hash (p : string) : string := "$2a$" +:+ p.

Definition compare (p h : string) : option bool :=
  if String.prefix "$2a$" h then Some (bool_decide (h = hash p)) else None.

Definition parse (s : string) : option Z :=
  if bool_decide (s = "2024-01-01") then Some 100%Z
  else if bool_decide (s = "2024-12-31") then Some 200%Z
  else None.

Definition env : Env :=
  {| bcrypt_compare := compare;
     bcrypt_hash := hash;
     jwt_sign := λ id, "jwt." +:+ id;
     Date_now := 1000;
     Date_new := parse;
     new_ObjectId := "u9";
     ActivityLog_save := λ _, None |}.

(** The same environment with the ActivityLog collection refusing writes. *)
Definition env_log_down : Env :=
  {| bcrypt_compare := compare;
     bcrypt_hash := hash;
     jwt_sign := λ id, "jwt." +:+ id;
     Date_now := 1000;
     Date_new := parse;
     new_ObjectId := "u9";
     ActivityLog_save := λ _, Some (Error "ActivityLog is not writable") |}.

Definition client : Client := {| ip := "10.0.0.7"; user_agent := Some "curl" |}.

Definition alice : User.t :=
  {| User._id := "u1"; User.username := "alice";
     User.password := hash "s3cret"; User.email := "alice@mms.mil";
     User.fullName := "Alice A"; User.role := User.BaseCommander;
     User.assignedBase := Some "Base-A"; User.active := true;
     User.tokens := [User.Build_Token "t1"; User.Build_Token "t2"];
     User.lastLogin := None; User.createdAt := 0; User.updatedAt := 0;
     User.__v := 0 |}.

(** A user whose stored password was never hashed. *)
Definition bob : User.t :=
  {| User._id := "u2"; User.username := "bob";
     User.password := "plain"; User.email := "bob@mms.mil";
     User.fullName := "Bob B"; User.role := User.Admin;
     User.assignedBase := None; User.active := true;
     User.tokens := [User.Build_Token "t3"];
     User.lastLogin := None; User.createdAt := 0; User.updatedAt := 0;
     User.__v := 0 |}.

Definition store : Store := {| users := [alice; bob]; activityLogs := [] |}.

Definition creds (u p : string) : Auth.Credentials :=
  {| Auth.username := Some u; Auth.password := Some p |}.

Definition asset (t : string) (b : string) (opening closing assigned available created : Z)
  : Asset.t :=
  {| Asset.name := t; Asset.type := t; Asset.base := Some b;
     Asset.openingBalance := opening; Asset.closingBalance := closing;
     Asset.purchases := 0; Asset.transferIn := 0; Asset.transferOut := 0;
     Asset.assigned := assigned; Asset.expended := 0;
     Asset.available := available; Asset.createdAt := created |}.

Definition vehicle : Asset.t := asset "Vehicle" "Base-A" 10 12 3 9 50.
Definition weapon : Asset.t := asset "Weapon" "Base-A" 5 5 2 3 150.

(** An asset of [n] items, none of them assigned. *)
Definition stock (n : Z) : Asset.t := asset "Vehicle" "Base-A" n n 0 n 50.

(** An asset whose type is the name of an inherited property. *)
Definition oddity : Asset.t := asset "constructor" "Base-A" 1 1 0 1 60.

Definition transfer (from to : string) (created : Z) : Transfer.t :=
  {| Transfer.assetName := "Truck"; Transfer.fromBase := Some from;
     Transfer.toBase := Some to; Transfer.quantity := 1;
     Transfer.status := "Completed"; Transfer.createdAt := created |}.

Definition purchase (b : string) (bought : Z) : Purchase.t :=
  {| Purchase.assetName := "Truck"; Purchase.assetType := "Vehicle";
     Purchase.base := Some b; Purchase.quantity := 2;
     Purchase.status := "Delivered"; Purchase.purchaseDate := bought;
     Purchase.createdAt := bought |}.

Definition db : Collections :=
  {| assets := [vehicle; weapon];
     transfers :=
       [transfer "Base-A" "Base-B" 10; transfer "Base-B" "Base-C" 20;
        transfer "Base-C" "Base-A" 30; transfer "Base-A" "Base-C" 40;
        transfer "Base-B" "Base-A" 50; transfer "Base-A" "Base-B" 60;
        transfer "Base-C" "Base-A" 70];
     purchases := [purchase "Base-A" 120; purchase "Base-B" 130];
     assignments := [];
     expenditures := [] |}.

Definition no_filter : Dashboard.Query :=
  {| Dashboard.base := None; Dashboard.assetType := None;
     Dashboard.startDate := None; Dashboard.endDate := None |}.

Definition for_base (b : string) : Dashboard.Query :=
  {| Dashboard.base := Some b; Dashboard.assetType := None;
     Dashboard.startDate := None; Dashboard.endDate := None |}.

(** Only what was created from 2024-01-01 (time 100) on. *)
Definition since_2024 : Dashboard.Query :=
  {| Dashboard.base := None; Dashboard.assetType := None;
     Dashboard.startDate := Some "2024-01-01"; Dashboard.endDate := None |}.

End Sample.

Module SampleDetail.

Definition linked {A} (id : string) (d : A) : Detail.Of A :=
  {| Detail.asset := id; Detail.doc := d |}.

Definition db : Detail.Collections :=
  {| Detail.assets := {[ "a1" := Sample.vehicle; "a2" := Sample.weapon ]};
     Detail.transfers :=
       [linked "a1" (Sample.transfer "Base-A" "Base-B" 10);
        linked "a2" (Sample.transfer "Base-A" "Base-C" 20);
        linked "a1" (Sample.transfer "Base-C" "Base-A" 30)];
     Detail.purchases := [linked "a1" (Sample.purchase "Base-A" 120)];
     Detail.assignments := [];
     Detail.expenditures := [] |}.

(** Identifiers that can be cast: those that start with the letter a. *)
Definition isObjectId (id : string) : bool := String.prefix "a" id.

(** A BaseCommander of another base. *)
Definition carol : User.t :=
  {| User._id := "u3"; User.username := "carol";
     User.password := Sample.hash "pw"; User.email := "carol@mms.mil";
     User.fullName := "Carol C"; User.role := User.BaseCommander;
     User.assignedBase := Some "Base-B"; User.active := true;
     User.tokens := []; User.lastLogin := None;
     User.createdAt := 0; User.updatedAt := 0; User.__v := 0 |}.

(** The body of a registration request. *)
Definition dave : User.Fields :=
  {| User.new__id := None;
     User.new_username := Some "dave"; User.new_password := Some "pa55";
     User.new_email := Some "dave@mms.mil"; User.new_fullName := Some "Dave D";
     User.new_role := Some "LogisticsOfficer"; User.new_assignedBase := None;
     User.new_active := None; User.new_tokens := None;
     User.new_lastLogin := None; User.new_createdAt := None |}.

(** A body that also carries an identifier, a token, a last login and a
    creation date. *)
Definition erin : User.Fields :=
  {| User.new__id := Some "u7";
     User.new_username := Some "erin"; User.new_password := Some "pa55";
     User.new_email := Some "erin@mms.mil"; User.new_fullName := Some "Erin E";
     User.new_role := Some "Admin"; User.new_assignedBase := None;
     User.new_active := None; User.new_tokens := Some [User.Build_Token "t9"];
     User.new_lastLogin := Some 5%Z; User.new_createdAt := Some 7%Z |}.

Definition erin_stored : User.t :=
  {| User._id := "u7"; User.username := "erin";
     User.password := Sample.hash "pa55"; User.email := "erin@mms.mil";
     User.fullName := "Erin E"; User.role := User.Admin;
     User.assignedBase := None; User.active := true;
     User.tokens := [User.Build_Token "t9"]; User.lastLogin := Some 5%Z;
     User.createdAt := 7; User.updatedAt := 7; User.__v := 0 |}.

Definition dave_stored : User.t :=
  {| User._id := "u9"; User.username := "dave";
     User.password := Sample.hash "pa55"; User.email := "dave@mms.mil";
     User.fullName := "Dave D"; User.role := User.LogisticsOfficer;
     User.assignedBase := None; User.active := true;
     User.tokens := []; User.lastLogin := None;
     User.createdAt := 1000; User.updatedAt := 1000; User.__v := 0 |}.

End SampleDetail.

(** * Properties *)

(** ** Running the routes on the sample store *)

Example login_alice_ok :
  (Auth.login Sample.env Sample.client (Sample.creds "alice" "s3cret") Sample.store).1
  = send (SendLogin (User.toJSON (logged_in Sample.env Sample.alice))
                    "jwt.u1" "Login successful").
Proof. reflexivity. Qed.

Example login_alice_wrong :
  (Auth.login Sample.env Sample.client (Sample.creds "alice" "guess") Sample.store).1
  = status_send 401 (SendError "Authentication failed" "Invalid username or password").
Proof. reflexivity. Qed.

Example login_empty_password :
  (Auth.login Sample.env Sample.client (Sample.creds "alice" "") Sample.store).1
  = status_send 400 (SendError "Login failed" "Username and password are required").
Proof. reflexivity. Qed.

Example login_bob_plain :
  status (Auth.login Sample.env Sample.client (Sample.creds "bob" "plain") Sample.store).1
  = 200%Z.
Proof. reflexivity. Qed.

(** ** Login *)

Section Login.

Context (env : Env) (req : Client).

Lemma truthy_Some (s : string) : s ≠ "" → truthy (Some s) = true.
Proof. intros Hs. unfold truthy. by rewrite bool_decide_eq_false_2. Qed.

(** The outcome of [findByCredentials] once the user is found and active
    is that of the comparison. *)
Lemma findByCredentials_found (name pw : string) (db : list User.t) (u : User.t) :
  User.findOne name db = Some u →
  User.active u = true →
  User.findByCredentials env name pw db =
    match bcrypt_compare env pw (User.password u) with
    | Some true => Ok u
    | Some false => Throw (Error "Invalid username or password")
    | None =>
        if bool_decide (pw = User.password u) then Ok u
        else Throw (Error "Invalid username or password")
    end.
Proof.
  intros Hfind Hact. unfold User.findByCredentials.
  rewrite Hfind, Hact. simpl.
  destruct (bcrypt_compare env pw (User.password u)) as [[]|]; try done.
  by destruct (bool_decide (pw = User.password u)).
Qed.

(** When [findByCredentials] throws, the route answers 401 and leaves
    the users as they were. *)
Lemma login_rejected (creds : Auth.Credentials) (st : Store) (name pw : string)
    (e : Exn) :
  Auth.username creds = Some name → Auth.password creds = Some pw →
  name ≠ "" → pw ≠ "" →
  is_Some (User.findOne name (users st)) →
  User.findByCredentials env name pw (users st) = Throw e →
  (Auth.login env req creds st).1 =
    status_send 401 (SendError "Authentication failed" "Invalid username or password")
  ∧ users (Auth.login env req creds st).2 = users st.
Proof.
  intros Hn Hp Hne Hpe [u Hu] Hthrow. unfold Auth.login.
  rewrite Hn, Hp, !truthy_Some by done. simpl.
  rewrite Hu, Hthrow. simpl. done.
Qed.

(** When [findByCredentials] returns the user, the route signs a token,
    appends it to the user's tokens and answers 200 with it. *)
Lemma login_accepted (creds : Auth.Credentials) (st : Store) (name pw : string)
    (u : User.t) :
  Auth.username creds = Some name → Auth.password creds = Some pw →
  name ≠ "" → pw ≠ "" →
  User.findOne name (users st) = Some u →
  User.findByCredentials env name pw (users st) = Ok u →
  let out := User.generateAuthToken env u (users st) in
  (Auth.login env req creds st).1 =
    send (SendLogin (User.toJSON out.1.2) (jwt_sign env (User._id u)) "Login successful")
  ∧ users (Auth.login env req creds st).2 = out.2.
Proof.
  intros Hn Hp Hne Hpe Hu Hok. unfold Auth.login.
  rewrite Hn, Hp, !truthy_Some by done. simpl.
  rewrite Hu, Hok. simpl.
  unfold User.generateAuthToken.
  destruct (User.save env _ (users st)) as [u' users'] eqn:Hsave. simpl.
  done.
Qed.

End Login.

(** C2. A login request that carries a username and a password (both
    present and not empty, so that the route reaches the credential
    check), where the username is that of a stored, active user and the
    hash comparison answers false, is answered 401 with the message
    'Invalid username or password'; the reply carries no token and the
    stored users, hence every token set, are unchanged. *)
Theorem login_wrong_password_rejected
    (env : Env) (req : Client) (creds : Auth.Credentials) (st : Store)
    (name pw : string) (u : User.t) :
  Auth.username creds = Some name →
  Auth.password creds = Some pw →
  name ≠ "" → pw ≠ "" →
  User.findOne name (users st) = Some u →
  User.active u = true →
  bcrypt_compare env pw (User.password u) = Some false →
  status (Auth.login env req creds st).1 = 401%Z
  ∧ body (Auth.login env req creds st).1
    = SendError "Authentication failed" "Invalid username or password"
  ∧ users (Auth.login env req creds st).2 = users st
  ∧ User.findOne name (users (Auth.login env req creds st).2) = Some u.
Proof.
  intros Hn Hp Hne Hpe Hu Hact Hcmp.
  destruct (login_rejected env req creds st name pw
              (Error "Invalid username or password")) as [Hres Hst]; try done.
  { by rewrite (findByCredentials_found env name pw _ u), Hcmp. }
  rewrite Hres, Hst. done.
Qed.

Lemma login_wrong_password_rejected_witness :
  status (Auth.login Sample.env Sample.client (Sample.creds "alice" "guess") Sample.store).1
    = 401%Z
  ∧ body (Auth.login Sample.env Sample.client (Sample.creds "alice" "guess") Sample.store).1
    = SendError "Authentication failed" "Invalid username or password"
  ∧ users (Auth.login Sample.env Sample.client (Sample.creds "alice" "guess") Sample.store).2
    = users Sample.store
  ∧ User.findOne "alice"
      (users (Auth.login Sample.env Sample.client (Sample.creds "alice" "guess") Sample.store).2)
    = Some Sample.alice.
Proof.
  apply (login_wrong_password_rejected Sample.env Sample.client
           (Sample.creds "alice" "guess") Sample.store "alice" "guess" Sample.alice);
    try reflexivity; discriminate.
Defined.

(** C10. When the hash comparison throws, [findByCredentials] compares the
    supplied password with the stored one for equality as strings, and the
    login is accepted (200, with a new token appended to the user's
    tokens) exactly when the two are equal; otherwise it is answered 401. *)
Theorem login_compare_throws_falls_back
    (env : Env) (req : Client) (creds : Auth.Credentials) (st : Store)
    (name pw : string) (u : User.t) :
  Auth.username creds = Some name →
  Auth.password creds = Some pw →
  name ≠ "" → pw ≠ "" →
  User.findOne name (users st) = Some u →
  User.active u = true →
  bcrypt_compare env pw (User.password u) = None →
  (User.findByCredentials env name pw (users st) = Ok u ↔ pw = User.password u)
  ∧ (status (Auth.login env req creds st).1 = 200%Z ↔ pw = User.password u)
  ∧ (pw = User.password u →
       ∃ user', (Auth.login env req creds st).1
                = send (SendLogin user' (jwt_sign env (User._id u)) "Login successful"))
  ∧ (pw ≠ User.password u →
       (Auth.login env req creds st).1
       = status_send 401 (SendError "Authentication failed" "Invalid username or password")
       ∧ users (Auth.login env req creds st).2 = users st).
Proof.
  intros Hn Hp Hne Hpe Hu Hact Hcmp.
  pose proof (findByCredentials_found env name pw _ u Hu Hact) as Hf.
  rewrite Hcmp in Hf.
  destruct (decide (pw = User.password u)) as [Heq|Hneq].
  - rewrite bool_decide_eq_true_2 in Hf by done.
    destruct (login_accepted env req creds st name pw u) as [Hres _]; try done.
    rewrite Hres. repeat split; try done. eauto.
  - rewrite bool_decide_eq_false_2 in Hf by done.
    destruct (login_rejected env req creds st name pw
                (Error "Invalid username or password")) as [Hres Hst]; try done.
    rewrite Hres, Hf. repeat split; try done.
Qed.

Lemma login_compare_throws_falls_back_witness :
  (User.findByCredentials Sample.env "bob" "plain" (users Sample.store) = Ok Sample.bob
     ↔ "plain" = User.password Sample.bob)
  ∧ (status (Auth.login Sample.env Sample.client (Sample.creds "bob" "plain") Sample.store).1
       = 200%Z ↔ "plain" = User.password Sample.bob).
Proof.
  pose proof (login_compare_throws_falls_back Sample.env Sample.client
                (Sample.creds "bob" "plain") Sample.store "bob" "plain" Sample.bob) as H.
  destruct H as (H1 & H2 & _); try reflexivity; try discriminate.
  exact (conj H1 H2).
Defined.

(** ** Saving a stored user *)

Section Save.

Context (env : Env).

Lemma find_elem_of {A} (p : A → bool) (l : list A) (x : A) :
  List.find p l = Some x → x ∈ l ∧ p x = true.
Proof.
  intros H. apply List.find_some in H as [Hin Hp].
  split; [by apply list_elem_of_In | done].
Qed.

Lemma find_is_Some {A} (p : A → bool) (l : list A) (x : A) :
  x ∈ l → p x = true → is_Some (List.find p l).
Proof.
  intros Hin Hp. destruct (List.find p l) eqn:Hf; [eauto |].
  apply list_elem_of_In in Hin.
  pose proof (List.find_none _ _ Hf _ Hin). congruence.
Qed.

(** With distinct identifiers, looking a stored document up by its
    identifier returns that document. *)
Lemma find_by_id (db : list User.t) (u : User.t) :
  NoDup (User._id <$> db) → u ∈ db →
  List.find (λ v, bool_decide (User._id v = User._id u)) db = Some u.
Proof.
  induction db as [|w db IH]; intros Hnd Hin; [by apply elem_of_nil in Hin |].
  rewrite fmap_cons in Hnd. apply NoDup_cons in Hnd as [Hw Hnd].
  simpl. case_bool_decide as Hid.
  - apply elem_of_cons in Hin as [->|Hin]; [done |].
    exfalso. apply Hw. rewrite Hid. by apply list_elem_of_fmap_2.
  - apply elem_of_cons in Hin as [->|Hin]; [done |]. by apply IH.
Qed.

(** [persist] only ever touches [password] and [updatedAt]. *)
Lemma persist_frame (old new : User.t) :
  let u := User.persist env old new in
  User._id u = User._id new ∧ User.username u = User.username new
  ∧ User.email u = User.email new ∧ User.fullName u = User.fullName new
  ∧ User.role u = User.role new ∧ User.assignedBase u = User.assignedBase new
  ∧ User.active u = User.active new ∧ User.tokens u = User.tokens new
  ∧ User.lastLogin u = User.lastLogin new ∧ User.createdAt u = User.createdAt new.
Proof.
  unfold User.persist.
  repeat case_bool_decide; simpl; done.
Qed.

(** When only the tokens of the stored document were replaced, the
    password is not hashed again and [updatedAt] is refreshed exactly
    when the tokens changed. *)
Lemma persist_set_tokens (u : User.t) (ts : list User.Token) :
  User.persist env u (User.set_tokens u ts) =
    if bool_decide (ts = User.tokens u) then u
    else User.set_updatedAt
           (User.set_version (User.set_tokens u ts) (User.__v u + 1))
           (Date_now env).
Proof.
  unfold User.persist. simpl.
  rewrite (bool_decide_eq_true_2 (User.password u = User.password u)) by done.
  destruct u as [i n p e f r b a t l c d v]; simpl.
  unfold User.set_tokens, User.set_updatedAt, User.set_version; simpl.
  repeat case_bool_decide; simplify_eq; done.
Qed.

Lemma save_stored (u : User.t) (db : list User.t) (old : User.t) :
  List.find (λ v, bool_decide (User._id v = User._id u)) db = Some old →
  User.save env u db =
    (User.persist env old u,
     (λ v, if bool_decide (User._id v = User._id u)
           then User.persist env old u else v) <$> db).
Proof. intros H. unfold User.save. by rewrite H. Qed.

End Save.

(** ** Activity-log failures *)

Section LogFailure.

Context (env : Env) (req : Client) (e : Exn).
Hypothesis log_down : ∀ entry, ActivityLog_save env entry = Some e.

Lemma write_fails (entry : ActivityLog.t) (logs : list ActivityLog.t) :
  ActivityLog_write env entry logs = Throw e.
Proof. unfold ActivityLog_write. by rewrite log_down. Qed.

(** POST /logout answers 500 with the log error, although the token has
    been removed and the user saved. *)
Lemma logout_reports_log_failure (user : User.t) (token : string) (st : Store) :
  (Auth.logout env req user token st).1 = status_send 500 (SendErrorOf e)
  ∧ users (Auth.logout env req user token st).2
    = (User.save env
         (User.set_tokens user
            (filter (λ t, User.token t ≠ token) (User.tokens user)))
         (users st)).2.
Proof.
  unfold Auth.logout.
  destruct (User.save env _ (users st)) as [u' users'].
  by rewrite write_fails.
Qed.

Lemma logoutAll_reports_log_failure (user : User.t) (token : string) (st : Store) :
  (Auth.logoutAll env req user token st).1 = status_send 500 (SendErrorOf e).
Proof.
  unfold Auth.logoutAll.
  destruct (User.save env _ (users st)) as [u' users'].
  by rewrite write_fails.
Qed.

(** POST /register answers 400 with the log error, although the user
    has been created. *)
Lemma register_reports_log_failure (reqUser : User.t) (fields : User.Fields)
    (st : Store) (user : User.t) (users' : list User.t) :
  User.create env fields (users st) = Ok (user, users') →
  Auth.register env req reqUser fields st
  = (status_send 400 (SendErrorOf e),
     {| users := users'; activityLogs := activityLogs st |}).
Proof. intros H. unfold Auth.register. by rewrite H, write_fails. Qed.

(** PUT /change-password answers 400 with the log error, although the
    new password has been saved. *)
Lemma changePassword_reports_log_failure (reqUser : User.t)
    (change : Auth.PasswordChange) (st : Store) (user : User.t) :
  User.findByCredentials env (User.username reqUser)
    (Auth.currentPassword change) (users st) = Ok user →
  Auth.newPassword change ≠ "" →
  (Auth.changePassword env req reqUser change st).1
  = status_send 400 (SendErrorMessageOf "Password change failed" e).
Proof.
  intros H Hne. unfold Auth.changePassword. rewrite H. simpl.
  rewrite bool_decide_eq_false_2 by done.
  destruct (User.save env _ (users st)) as [u' users'].
  by rewrite write_fails.
Qed.

(** POST /login catches the failure of the write: the reply is the one
    the route gives when the write succeeds. *)
Lemma login_swallows_log_failure (creds : Auth.Credentials) (st : Store)
    (name pw : string) (u : User.t) :
  Auth.username creds = Some name → Auth.password creds = Some pw →
  name ≠ "" → pw ≠ "" →
  User.findOne name (users st) = Some u →
  User.findByCredentials env name pw (users st) = Ok u →
  status (Auth.login env req creds st).1 = 200%Z.
Proof.
  intros Hn Hp Hne Hpe Hu Hok.
  destruct (login_accepted env req creds st name pw u) as [Hres _]; try done.
  by rewrite Hres.
Qed.

End LogFailure.

(** C3. The activity-log write is caught in the login route only.  In the
    logout route a failing write reaches the handler's [catch]: the reply
    is 500 with the error of the write, after the presented token has
    been removed from the stored user. *)
Theorem logout_fails_when_log_write_fails
    (env : Env) (req : Client) (e : Exn) (user : User.t) (token : string)
    (st : Store) :
  (∀ entry, ActivityLog_save env entry = Some e) →
  status (Auth.logout env req user token st).1 = 500%Z
  ∧ body (Auth.logout env req user token st).1 = SendErrorOf e.
Proof.
  intros Hdown.
  destruct (logout_reports_log_failure env req e Hdown user token st) as [-> _].
  done.
Qed.

Lemma logout_fails_when_log_write_fails_witness :
  status (Auth.logout Sample.env_log_down Sample.client Sample.alice "t1" Sample.store).1
    = 500%Z
  ∧ body (Auth.logout Sample.env_log_down Sample.client Sample.alice "t1" Sample.store).1
    = SendErrorOf (Error "ActivityLog is not writable").
Proof.
  apply (logout_fails_when_log_write_fails Sample.env_log_down Sample.client
           (Error "ActivityLog is not writable") Sample.alice "t1" Sample.store).
  intros entry. reflexivity.
Defined.

Example logout_log_down_token_removed :
  User.tokens <$>
    users (Auth.logout Sample.env_log_down Sample.client Sample.alice "t1" Sample.store).2
  = [[User.Build_Token "t2"]; [User.Build_Token "t3"]].
Proof. reflexivity. Qed.

Example logout_log_up :
  (Auth.logout Sample.env Sample.client Sample.alice "t1" Sample.store).1
  = send (SendMessage "Logged out successfully").
Proof. reflexivity. Qed.

(** ** Logout and logout-all *)

Section Sessions.

Context (env : Env) (req : Client).

Lemma resolveSession_Some (t : string) (db : list User.t) (u : User.t) :
  Middleware.resolveSession t db = Some u →
  u ∈ db ∧ User.Build_Token t ∈ User.tokens u.
Proof.
  intros H. apply find_elem_of in H as [Hin Ht].
  split; [done |]. by apply bool_decide_eq_true in Ht.
Qed.

Lemma resolveSession_is_Some (t : string) (db : list User.t) (u : User.t) :
  u ∈ db → User.Build_Token t ∈ User.tokens u →
  is_Some (Middleware.resolveSession t db).
Proof.
  intros Hin Ht. apply (find_is_Some _ _ u); [done |].
  by apply bool_decide_eq_true.
Qed.

(** The users after a save: the documents with the identifier of [u]
    hold what was persisted, the others are untouched. *)
Lemma save_users (u w : User.t) (db : list User.t) :
  w ∈ db → User._id w = User._id u →
  ∃ old, old ∈ db ∧
    (User.save env u db).2 =
      (λ v, if bool_decide (User._id v = User._id u)
            then User.persist env old u else v) <$> db.
Proof.
  intros Hin Hid.
  destruct (find_is_Some (λ v, bool_decide (User._id v = User._id u)) db w)
    as [old Hold]; [done | by apply bool_decide_eq_true |].
  exists old. split; [by apply find_elem_of in Hold as [? _] |].
  by rewrite (save_stored env u db old Hold).
Qed.

Lemma logoutAll_users (user : User.t) (token : string) (st : Store) :
  users (Auth.logoutAll env req user token st).2
  = (User.save env (User.set_tokens user []) (users st)).2.
Proof.
  unfold Auth.logoutAll.
  destruct (User.save env _ (users st)) as [u' users'].
  by destruct (ActivityLog_write env _ (activityLogs st)).
Qed.

Lemma logout_users (user : User.t) (token : string) (st : Store) :
  users (Auth.logout env req user token st).2
  = (User.save env
       (User.set_tokens user
          (filter (λ t, User.token t ≠ token) (User.tokens user)))
       (users st)).2.
Proof.
  unfold Auth.logout.
  destruct (User.save env _ (users st)) as [u' users'].
  by destruct (ActivityLog_write env _ (activityLogs st)).
Qed.

(** What logout-all leaves in the store, whether or not the audit entry
    could be written: the documents of the user hold a record without
    tokens, the others are untouched. *)
Lemma logoutAll_store (u : User.t) (t : string) (st : Store) :
  u ∈ users st →
  ∃ u', User._id u' = User._id u ∧ User.tokens u' = []
        ∧ users (Auth.logoutAll env req u t st).2
          = (λ v, if bool_decide (User._id v = User._id u) then u' else v)
              <$> users st.
Proof.
  intros Hin. rewrite logoutAll_users.
  destruct (save_users (User.set_tokens u []) u (users st)) as (old & _ & ->);
    [done | done |].
  change (User._id (User.set_tokens u [])) with (User._id u).
  pose proof (persist_frame env old (User.set_tokens u [])) as Hframe.
  cbv zeta in Hframe. destruct Hframe as (Hid &_&_&_&_&_&_& Htok &_).
  simpl in Hid, Htok. eauto.
Qed.

(** What logout leaves in the store when the presented token is one of
    the user's: the record [logged_out env u t] for the user, the others
    untouched. *)
Lemma logout_store (u : User.t) (t : string) (st : Store) :
  NoDup (User._id <$> users st) →
  u ∈ users st →
  User.Build_Token t ∈ User.tokens u →
  users (Auth.logout env req u t st).2
  = (λ v, if bool_decide (User._id v = User._id u) then logged_out env u t else v)
      <$> users st.
Proof.
  intros Hnd Hin Ht. rewrite logout_users.
  set (T' := filter (λ x, User.token x ≠ t) (User.tokens u)).
  assert (Hfind : List.find
            (λ v, bool_decide (User._id v = User._id (User.set_tokens u T')))
            (users st) = Some u).
  { change (User._id (User.set_tokens u T')) with (User._id u).
    by apply find_by_id. }
  rewrite (save_stored env _ _ u Hfind). simpl.
  rewrite persist_set_tokens.
  assert (HT' : T' ≠ User.tokens u).
  { intros Heq.
    pose proof (length_filter_lt (λ x, User.token x ≠ t) (User.tokens u)
                  (User.Build_Token t) Ht) as Hlt.
    fold T' in Hlt. rewrite Heq in Hlt. simpl in Hlt.
    assert (length (User.tokens u) < length (User.tokens u)) by (apply Hlt; tauto).
    lia. }
  by rewrite bool_decide_eq_false_2.
Qed.

(** With session resolution as the specification describes it: after
    logout-all no token resolves to the user, and a token that no other
    user holds resolves to nobody. *)
Lemma logoutAll_unresolvable (u : User.t) (t : string) (st : Store) :
  u ∈ users st →
  let st' := (Auth.logoutAll env req u t st).2 in
  (∀ t' v, Middleware.resolveSession t' (users st') = Some v →
           User._id v ≠ User._id u)
  ∧ (∀ t', (∀ w, w ∈ users st → User._id w ≠ User._id u →
               User.Build_Token t' ∉ User.tokens w) →
         Middleware.resolveSession t' (users st') = None).
Proof.
  intros Hin st'. subst st'.
  destruct (logoutAll_store u t st Hin) as (u' & Hid & Htok & ->).
  split.
  - intros t' v Hv Hidv. apply resolveSession_Some in Hv as [Hv Ht'].
    apply list_elem_of_fmap in Hv as (w & -> & Hw).
    case_bool_decide; [| congruence].
    rewrite Htok in Ht'. by apply elem_of_nil in Ht'.
  - intros t' Hother.
    destruct (Middleware.resolveSession t' _) as [v|] eqn:Hv; [| done].
    exfalso. apply resolveSession_Some in Hv as [Hv Ht'].
    apply list_elem_of_fmap in Hv as (w & -> & Hw).
    case_bool_decide as Hidw.
    + rewrite Htok in Ht'. by apply elem_of_nil in Ht'.
    + by apply (Hother w).
Qed.

(** With session resolution as the specification describes it: after
    logout every other token of the user still resolves to a session. *)
Lemma logout_others_resolvable (u : User.t) (t t' : string) (st : Store) :
  NoDup (User._id <$> users st) →
  Middleware.resolveSession t (users st) = Some u →
  t' ≠ t → User.Build_Token t' ∈ User.tokens u →
  is_Some (Middleware.resolveSession t' (users (Auth.logout env req u t st).2)).
Proof.
  intros Hnd Hres Hne Ht'.
  apply resolveSession_Some in Hres as [Hin Ht].
  rewrite (logout_store u t st Hnd Hin Ht).
  apply (resolveSession_is_Some t' _ (logged_out env u t)).
  - apply list_elem_of_fmap. exists u. split; [| done].
    by rewrite bool_decide_eq_true_2.
  - simpl. apply list_elem_of_filter. simpl. split; [congruence | done].
Qed.

End Sessions.

(** C8. For a stored user who calls logout-all, whether or not the audit
    entry could be written: afterwards the user is still stored, every
    stored record of the user has an empty token set, so that no token,
    in particular none that was valid before the call, is a live session
    token of the user; the other users are untouched. *)
Theorem logoutAll_empties_token_set
    (env : Env) (req : Client) (st : Store) (t : string) (u : User.t) :
  u ∈ users st →
  let st' := (Auth.logoutAll env req u t st).2 in
  (∃ v, v ∈ users st' ∧ User._id v = User._id u)
  ∧ (∀ v, v ∈ users st' → User._id v = User._id u → User.tokens v = [])
  ∧ (∀ t', ¬ live_token t' (User._id u) (users st'))
  ∧ (∀ w, w ∈ users st → User._id w ≠ User._id u → w ∈ users st').
Proof.
  intros Hin st'. subst st'.
  destruct (logoutAll_store env req u t st Hin) as (u' & Hid & Htok & ->).
  assert (Hempty : ∀ v,
    v ∈ (λ v, if bool_decide (User._id v = User._id u) then u' else v) <$> users st →
    User._id v = User._id u → User.tokens v = []).
  { intros v Hv Hidv. apply list_elem_of_fmap in Hv as (w & -> & Hw).
    case_bool_decide; [done | congruence]. }
  split; [| split; [done | split]].
  - exists u'. split; [| done].
    apply list_elem_of_fmap. exists u. split; [| done].
    by rewrite bool_decide_eq_true_2.
  - intros t' (v & Hv & Hidv & Ht').
    rewrite (Hempty v Hv Hidv) in Ht'. by apply elem_of_nil in Ht'.
  - intros w Hw Hidw. apply list_elem_of_fmap. exists w. split; [| done].
    by rewrite bool_decide_eq_false_2.
Qed.

Lemma logoutAll_empties_token_set_witness :
  let st' := (Auth.logoutAll Sample.env Sample.client Sample.alice "t1" Sample.store).2 in
  (∀ v, v ∈ users st' → User._id v = "u1" → User.tokens v = [])
  ∧ ¬ live_token "t2" "u1" (users st').
Proof.
  assert (Hin : Sample.alice ∈ users Sample.store) by (apply elem_of_cons; by left).
  pose proof (logoutAll_empties_token_set Sample.env Sample.client Sample.store
                "t1" Sample.alice Hin) as (_ & H2 & H3 & _).
  split; [exact H2 | exact (H3 "t2")].
Defined.

Example logoutAll_alice :
  User.tokens <$>
    users (Auth.logoutAll Sample.env Sample.client Sample.alice "t1" Sample.store).2
  = [[]; [User.Build_Token "t3"]].
Proof. reflexivity. Qed.

Example logoutAll_alice_unresolvable :
  Middleware.resolveSession "t2"
    (users (Auth.logoutAll Sample.env Sample.client Sample.alice "t1" Sample.store).2)
  = None.
Proof. reflexivity. Qed.

(** C9, as stated, at a concrete store: logout with token t1 leaves alice
    with the token set [t2], but the saved record is not the former one
    with only its tokens replaced, because [updatedAt] has moved from 0
    to the time of the save and the version key from 0 to 1. *)
Lemma logout_changes_updatedAt :
  let st' := (Auth.logout Sample.env Sample.client Sample.alice "t1" Sample.store).2 in
  Sample.alice ∈ users Sample.store
  ∧ User.Build_Token "t1" ∈ User.tokens Sample.alice
  ∧ User.findOne "alice" (users st')
    = Some (User.set_updatedAt
              (User.set_version
                 (User.set_tokens Sample.alice [User.Build_Token "t2"]) 1)
              1000)
  ∧ User.findOne "alice" (users st')
    ≠ Some (User.set_tokens Sample.alice [User.Build_Token "t2"])
  ∧ (User.updatedAt <$> User.findOne "alice" (users st'))
    ≠ Some (User.updatedAt Sample.alice)
  ∧ (User.__v <$> User.findOne "alice" (users st'))
    ≠ Some (User.__v Sample.alice).
Proof.
  split; [apply elem_of_cons; by left |].
  split; [apply elem_of_cons; by left |].
  vm_compute. repeat split; discriminate.
Qed.

(** C9, amended. For a stored user [u] presenting one of its tokens [t],
    in a store with distinct identifiers, logout stores for [u] the record
    [logged_out env u t]: its tokens are those of [u] other than [t], its
    [updatedAt] is the time of the save, its version key [__v] is that of
    [u] plus one, and every other field is that of [u]; the other users
    are untouched.  Every other token of [u] is still a live session token
    of [u]; [t] is not. *)
Theorem logout_removes_presented_token
    (env : Env) (req : Client) (st : Store) (t : string) (u : User.t) :
  NoDup (User._id <$> users st) →
  u ∈ users st →
  User.Build_Token t ∈ User.tokens u →
  let st' := (Auth.logout env req u t st).2 in
  let u' := logged_out env u t in
  users st' = (λ v, if bool_decide (User._id v = User._id u) then u' else v) <$> users st
  ∧ u' ∈ users st'
  ∧ User.tokens u' = filter (λ x, User.token x ≠ t) (User.tokens u)
  ∧ User.updatedAt u' = Date_now env
  ∧ User.__v u' = (User.__v u + 1)%Z
  ∧ User.set_version
      (User.set_updatedAt (User.set_tokens u' (User.tokens u)) (User.updatedAt u))
      (User.__v u) = u
  ∧ ¬ live_token t (User._id u) (users st')
  ∧ (∀ t', t' ≠ t → User.Build_Token t' ∈ User.tokens u →
           live_token t' (User._id u) (users st')).
Proof.
  intros Hnd Hin Ht st' u'. subst st'.
  rewrite (logout_store env req u t st Hnd Hin Ht). fold u'.
  assert (Hin' : u' ∈ (λ v, if bool_decide (User._id v = User._id u) then u' else v)
                         <$> users st).
  { apply list_elem_of_fmap. exists u. split; [| done].
    by rewrite bool_decide_eq_true_2. }
  split; [done | split; [done | split; [done | split; [done | split; [done |]]]]].
  split; [by destruct u | split].
  - intros (v & Hv & Hidv & Htv).
    apply list_elem_of_fmap in Hv as (w & -> & Hw).
    case_bool_decide; [| done].
    simpl in Htv. apply list_elem_of_filter in Htv as [Hne _]. by apply Hne.
  - intros t' Hne Ht'. exists u'. split; [done |]. split; [done |].
    simpl. apply list_elem_of_filter. simpl. split; [congruence | done].
Qed.

Lemma logout_removes_presented_token_witness :
  let st' := (Auth.logout Sample.env Sample.client Sample.alice "t1" Sample.store).2 in
  users st' = [logged_out Sample.env Sample.alice "t1"; Sample.bob]
  ∧ User.tokens (logged_out Sample.env Sample.alice "t1") = [User.Build_Token "t2"]
  ∧ ¬ live_token "t1" "u1" (users st').
Proof.
  assert (Hnd : NoDup (User._id <$> users Sample.store)).
  { vm_compute. apply NoDup_cons. split.
    - intros H. apply list_elem_of_singleton in H. discriminate.
    - apply NoDup_singleton. }
  assert (Hin : Sample.alice ∈ users Sample.store) by (apply elem_of_cons; by left).
  assert (Ht : User.Build_Token "t1" ∈ User.tokens Sample.alice)
    by (apply elem_of_cons; by left).
  pose proof (logout_removes_presented_token Sample.env Sample.client Sample.store
                "t1" Sample.alice Hnd Hin Ht) as (H1 & _ & H3 & _ & _ & _ & H6 & _).
  split; [exact H1 | split; [exact H3 | exact H6]].
Defined.

Example logout_alice_other_token_resolves :
  Middleware.resolveSession "t2"
    (users (Auth.logout Sample.env Sample.client Sample.alice "t1" Sample.store).2)
  = Some (logged_out Sample.env Sample.alice "t1").
Proof. reflexivity. Qed.

(** ** The dashboard aggregation *)

Section Aggregation.

Import Dashboard.

Lemma total_cons {A} (f : A → Z) (a : A) (l : list A) :
  total f (a :: l) = (f a + total f l)%Z.
Proof. reflexivity. Qed.

Lemma total_perm {A} (f : A → Z) (l1 l2 : list A) :
  l1 ≡ₚ l2 → total f l1 = total f l2.
Proof.
  induction 1 as [|x l1 l2 _ IH|x y l|l1 l2 l3 _ IH1 _ IH2];
    rewrite ?total_cons; [done | by rewrite IH | lia | congruence].
Qed.

Lemma total_sub {A} (f g h : A → Z) (l : list A) :
  Forall (λ a, h a = (f a - g a)%Z) l →
  total h l = (total f l - total g l)%Z.
Proof.
  induction 1 as [|a l Ha _ IH]; [done |].
  rewrite !total_cons, IH, Ha. lia.
Qed.

Lemma total_ones {A} (l : list A) : total (λ _, 1%Z) l = Z.of_nat (length l).
Proof. induction l as [|a l IH]; [done |]. rewrite total_cons, IH. simpl length. lia. Qed.

Lemma magnitude_cons {A} (f : A → Z) (a : A) (l : list A) :
  magnitude f (a :: l) = (Z.abs (f a) + magnitude f l)%Z.
Proof. reflexivity. Qed.

Lemma magnitude_nonneg {A} (f : A → Z) (l : list A) : (0 ≤ magnitude f l)%Z.
Proof. induction l as [|a l IH]; [done |]. rewrite magnitude_cons. lia. Qed.

Lemma magnitude_perm {A} (f : A → Z) (l1 l2 : list A) :
  l1 ≡ₚ l2 → magnitude f l1 = magnitude f l2.
Proof. apply total_perm. Qed.

(** Splitting a list by a test splits its sums. *)
Lemma total_filter {A} (f : A → Z) (p : A → bool) (l : list A) :
  total f l
  = (total f (filter (λ a, p a = false) l) + total f (filter (λ a, p a = true) l))%Z.
Proof.
  induction l as [|a l IH]; [done |].
  rewrite !filter_cons, total_cons, IH.
  destruct (p a); simpl; rewrite ?total_cons; lia.
Qed.

Lemma magnitude_filter {A} (f : A → Z) (P : A → Prop) `{∀ a, Decision (P a)}
    (l : list A) :
  (magnitude f (filter P l) ≤ magnitude f l)%Z.
Proof.
  induction l as [|a l IH]; [done |].
  rewrite filter_cons, magnitude_cons.
  destruct (decide (P a)); rewrite ?magnitude_cons; lia.
Qed.

(** Up to 2^53 a sum of Numbers is the exact sum. *)
Lemma round_double_exact (z : Z) : (Z.abs z ≤ 2 ^ 53)%Z → round_double z = z.
Proof.
  intros H. unfold round_double.
  destruct (Z.leb_spec (Z.abs z) (2 ^ 53)); [done | lia].
Qed.

Lemma number_add_exact (x y : Z) :
  (Z.abs x + Z.abs y ≤ 2 ^ 53)%Z → number_add x y = (x + y)%Z.
Proof. intros H. apply round_double_exact. lia. Qed.

(** A quantity added asset after asset to a running total [s]. *)
Lemma fold_number_add {A} (f : A → Z) (l : list A) (s : Z) :
  (Z.abs s + magnitude f l ≤ 2 ^ 53)%Z →
  fold_left (λ acc a, number_add acc (f a)) l s = (s + total f l)%Z.
Proof.
  revert s. induction l as [|a l IH]; intros s H; simpl fold_left.
  - simpl. lia.
  - rewrite magnitude_cons in H. pose proof (magnitude_nonneg f l) as Hnn.
    rewrite number_add_exact by lia.
    rewrite IH by lia. rewrite total_cons. lia.
Qed.

(** The pass over the assets adds each quantity to its running total. *)
Lemma fold_addToSummary (l : list Asset.t) (s : Summary.t) :
  fold_left addToSummary l s =
    {| Summary.totalAssets := Summary.totalAssets s;
       Summary.totalOpeningBalance :=
         fold_left (λ acc a, number_add acc (Asset.openingBalance a)) l
                   (Summary.totalOpeningBalance s);
       Summary.totalClosingBalance :=
         fold_left (λ acc a, number_add acc (Asset.closingBalance a)) l
                   (Summary.totalClosingBalance s);
       Summary.totalPurchases :=
         fold_left (λ acc a, number_add acc (Asset.purchases a)) l
                   (Summary.totalPurchases s);
       Summary.totalTransferIn :=
         fold_left (λ acc a, number_add acc (Asset.transferIn a)) l
                   (Summary.totalTransferIn s);
       Summary.totalTransferOut :=
         fold_left (λ acc a, number_add acc (Asset.transferOut a)) l
                   (Summary.totalTransferOut s);
       Summary.totalAssigned :=
         fold_left (λ acc a, number_add acc (Asset.assigned a)) l
                   (Summary.totalAssigned s);
       Summary.totalExpended :=
         fold_left (λ acc a, number_add acc (Asset.expended a)) l
                   (Summary.totalExpended s);
       Summary.totalAvailable :=
         fold_left (λ acc a, number_add acc (Asset.available a)) l
                   (Summary.totalAvailable s) |}.
Proof.
  revert s. induction l as [|a l IH]; intros s.
  - by destruct s.
  - simpl fold_left. by rewrite IH.
Qed.

(** The totals of the summary whose quantities stay within 2^53. *)
Lemma summarise_totals (S : list Asset.t) :
  Summary.totalAssets (summarise S) = Z.of_nat (length S)
  ∧ ((magnitude Asset.openingBalance S ≤ 2 ^ 53)%Z →
     Summary.totalOpeningBalance (summarise S) = total Asset.openingBalance S)
  ∧ ((magnitude Asset.closingBalance S ≤ 2 ^ 53)%Z →
     Summary.totalClosingBalance (summarise S) = total Asset.closingBalance S)
  ∧ ((magnitude Asset.assigned S ≤ 2 ^ 53)%Z →
     Summary.totalAssigned (summarise S) = total Asset.assigned S)
  ∧ ((magnitude Asset.available S ≤ 2 ^ 53)%Z →
     Summary.totalAvailable (summarise S) = total Asset.available S).
Proof.
  unfold summarise. rewrite fold_addToSummary. simpl.
  split; [done |].
  repeat split; intros H; rewrite fold_number_add; simpl; lia.
Qed.

(** What the handler sends is determined by the queries it builds; it
    answers 500 exactly when a date of the request is not a date. *)
Lemma dashboard_cases (env : Env) (user : User.t) (query : Query)
    (db : Collections) :
  let bm := baseTypeMatch env user query in
  let tm := transferMatch env user query in
  dashboard env user query db =
    if Filter.castable (dateMatch env query) then
      Send
        {| summary := summarise (matchedAssets user query db);
           assetsByType := Object_values (groupByType (matchedAssets user query db));
           recentTransfers :=
             limit 5 (sort_desc Transfer.createdAt
                        (select (Filter.transfer_matches tm) (transfers db)));
           recentPurchases :=
             limit 5 (sort_desc Purchase.purchaseDate
                        (select (λ d, Filter.matches bm (Purchase.createdAt d)
                                        (Purchase.base d) (Purchase.assetType d))
                                (purchases db)));
           recentAssignments :=
             limit 5 (sort_desc Assignment.startDate
                        (select (λ d, Filter.matches bm (Assignment.createdAt d)
                                        (Assignment.base d) (Assignment.assetType d))
                                (assignments db)));
           recentExpenditures :=
             limit 5 (sort_desc Expenditure.expenditureDate
                        (select (λ d, Filter.matches bm (Expenditure.createdAt d)
                                        (Expenditure.base d) (Expenditure.assetType d))
                                (expenditures db))) |}
    else StatusSend 500 CastError.
Proof.
  intros bm tm. unfold dashboard, recent. simpl.
  by destruct (Filter.castable (dateMatch env query)).
Qed.

End Aggregation.

(** ** Running the dashboard on the sample collections *)

Example dashboard_sample_summary :
  ∃ data, Dashboard.dashboard Sample.env Sample.bob Sample.no_filter Sample.db
          = Dashboard.Send data
    ∧ Summary.totalAssets (Dashboard.summary data) = 2%Z
    ∧ Summary.totalAssigned (Dashboard.summary data) = 5%Z
    ∧ Summary.totalAvailable (Dashboard.summary data) = 12%Z
    ∧ Group.count <$> Dashboard.assetsByType data = [1%Z; 1%Z]
    ∧ Transfer.createdAt <$> Dashboard.recentTransfers data = [70; 60; 50; 40; 30]%Z.
Proof. eexists. split; [vm_compute; reflexivity |]. vm_compute. done. Qed.

Example dashboard_sample_base_B :
  ∃ data, Dashboard.dashboard Sample.env Sample.bob (Sample.for_base "Base-B") Sample.db
          = Dashboard.Send data
    ∧ Transfer.createdAt <$> Dashboard.recentTransfers data = [60; 50; 20; 10]%Z
    ∧ Purchase.purchaseDate <$> Dashboard.recentPurchases data = [130%Z].
Proof. eexists. split; [vm_compute; reflexivity |]. vm_compute. done. Qed.

(** ** The summary *)

Section SummaryFacts.

Import Dashboard.

Lemma dashboard_Send (env : Env) (user : User.t) (query : Query)
    (db : Collections) (data : Data) :
  dashboard env user query db = Send data →
  Filter.castable (dateMatch env query) = true
  ∧ summary data = summarise (matchedAssets user query db)
  ∧ assetsByType data = Object_values (groupByType (matchedAssets user query db)).
Proof.
  rewrite dashboard_cases.
  destruct (Filter.castable (dateMatch env query)); [| done].
  intros [= <-]. done.
Qed.

Lemma dashboard_Send_recent (env : Env) (user : User.t) (query : Query)
    (db : Collections) (data : Data) :
  dashboard env user query db = Send data →
  let bm := baseTypeMatch env user query in
  let tm := transferMatch env user query in
  recentTransfers data
  = limit 5 (sort_desc Transfer.createdAt
               (select (Filter.transfer_matches tm) (transfers db)))
  ∧ recentPurchases data
    = limit 5 (sort_desc Purchase.purchaseDate
                 (select (λ d, Filter.matches bm (Purchase.createdAt d)
                                 (Purchase.base d) (Purchase.assetType d))
                         (purchases db)))
  ∧ recentAssignments data
    = limit 5 (sort_desc Assignment.startDate
                 (select (λ d, Filter.matches bm (Assignment.createdAt d)
                                 (Assignment.base d) (Assignment.assetType d))
                         (assignments db)))
  ∧ recentExpenditures data
    = limit 5 (sort_desc Expenditure.expenditureDate
                 (select (λ d, Filter.matches bm (Expenditure.createdAt d)
                                 (Expenditure.base d) (Expenditure.assetType d))
                         (expenditures db))).
Proof.
  rewrite dashboard_cases.
  destruct (Filter.castable (dateMatch env query)); [| done].
  intros [= <-]. done.
Qed.

(** The asset query does not depend on the dates of the request. *)
Lemma assetMatch_dates (user : User.t) (q q' : Query) :
  base q = base q' → assetType q = assetType q' →
  assetMatch user q = assetMatch user q'.
Proof. intros Hb Ht. unfold assetMatch. by rewrite Hb, Ht. Qed.

End SummaryFacts.

(** C5, as stated, at three assets of 2^53, 1 and 1 available items, each
    with available = closingBalance - assigned: their available items sum
    to 2^53 + 2, and so does closingBalance minus assigned, but the pass
    leaves 2^53 in totalAvailable, because 2^53 + 1 is not a Number and
    each addition of 1 is rounded back to 2^53. *)
Lemma summary_totalAvailable_rounded :
  let S := [Sample.stock (2 ^ 53); Sample.stock 1; Sample.stock 1] in
  Forall available_invariant S
  ∧ total Asset.available S = (2 ^ 53 + 2)%Z
  ∧ (total Asset.closingBalance S - total Asset.assigned S)%Z = (2 ^ 53 + 2)%Z
  ∧ Summary.totalAvailable (Dashboard.summarise S) = (2 ^ 53)%Z
  ∧ Summary.totalAvailable (Dashboard.summarise S) ≠ total Asset.available S
  ∧ Summary.totalAvailable (Dashboard.summarise S)
    ≠ (total Asset.closingBalance S - total Asset.assigned S)%Z.
Proof.
  split; [repeat constructor |].
  vm_compute. repeat split; discriminate.
Qed.

(** C5, amended. For every list S of matched assets whose available
    quantities have magnitudes that sum to at most 2^53, the pass of the
    dashboard over S leaves in totalAvailable the sum over S of
    [available]; when every asset of S satisfies
    available = closingBalance - assigned, that total is also the sum of
    closingBalance minus the sum of assigned; and when the closing balances
    and the assigned quantities stay within 2^53 as well, these two sums
    are the totals the summary reports as totalClosingBalance and
    totalAssigned. *)
Theorem summary_totalAvailable (S : list Asset.t) :
  (magnitude Asset.available S ≤ 2 ^ 53)%Z →
  Summary.totalAvailable (Dashboard.summarise S) = total Asset.available S
  ∧ (Forall available_invariant S →
     Summary.totalAvailable (Dashboard.summarise S)
     = (total Asset.closingBalance S - total Asset.assigned S)%Z
     ∧ ((magnitude Asset.closingBalance S ≤ 2 ^ 53)%Z →
        (magnitude Asset.assigned S ≤ 2 ^ 53)%Z →
        Summary.totalAvailable (Dashboard.summarise S)
        = (Summary.totalClosingBalance (Dashboard.summarise S)
           - Summary.totalAssigned (Dashboard.summarise S))%Z)).
Proof.
  intros Hav.
  destruct (summarise_totals S) as (_ & _ & Hc & Has & Ha).
  rewrite (Ha Hav). split; [done |].
  intros Hinv. split; [by apply total_sub |].
  intros Hcl Hasg. rewrite (Hc Hcl), (Has Hasg). by apply total_sub.
Qed.

Lemma summary_totalAvailable_witness :
  Summary.totalAvailable (Dashboard.summarise [Sample.vehicle; Sample.weapon]) = 12%Z
  ∧ Summary.totalAvailable (Dashboard.summarise [Sample.vehicle; Sample.weapon])
    = (total Asset.closingBalance [Sample.vehicle; Sample.weapon]
       - total Asset.assigned [Sample.vehicle; Sample.weapon])%Z
  ∧ Summary.totalAvailable (Dashboard.summarise [Sample.vehicle; Sample.weapon])
    = (Summary.totalClosingBalance (Dashboard.summarise [Sample.vehicle; Sample.weapon])
       - Summary.totalAssigned (Dashboard.summarise [Sample.vehicle; Sample.weapon]))%Z.
Proof.
  destruct (summary_totalAvailable [Sample.vehicle; Sample.weapon]) as [H1 H2].
  { vm_compute. discriminate. }
  split; [exact H1 |].
  destruct H2 as [H2 H3]; [repeat constructor |].
  split; [exact H2 |].
  apply H3; vm_compute; discriminate.
Defined.

(** The summary sent by the route is the pass over the matched assets. *)
Lemma dashboard_totalAvailable (env : Env) (user : User.t)
    (query : Dashboard.Query) (db : Collections) (data : Dashboard.Data) :
  Dashboard.dashboard env user query db = Dashboard.Send data →
  (magnitude Asset.available (Dashboard.matchedAssets user query db) ≤ 2 ^ 53)%Z →
  Summary.totalAvailable (Dashboard.summary data)
  = total Asset.available (Dashboard.matchedAssets user query db).
Proof.
  intros H Hb. apply dashboard_Send in H as (_ & -> & _).
  by apply summarise_totals.
Qed.

(** C4, as stated, at a concrete request: with startDate 2024-01-01 (time
    100) the asset Vehicle, created at time 50, lies outside the range and
    is still counted: the summary is that of both assets, not that of the
    assets the full filter matches. *)
Lemma dashboard_summary_counts_assets_outside_range :
  ∃ data,
    Dashboard.dashboard Sample.env Sample.bob Sample.since_2024 Sample.db
    = Dashboard.Send data
    ∧ Filter.in_range (Dashboard.dateMatch Sample.env Sample.since_2024)
                      (Asset.createdAt Sample.vehicle) = false
    ∧ matchedInRange Sample.env Sample.bob Sample.since_2024 Sample.db = [Sample.weapon]
    ∧ Dashboard.summary data = Dashboard.summarise [Sample.vehicle; Sample.weapon]
    ∧ Dashboard.summary data
      ≠ Dashboard.summarise
          (matchedInRange Sample.env Sample.bob Sample.since_2024 Sample.db)
    ∧ In "Vehicle" (Group.type <$> Dashboard.assetsByType data).
Proof.
  eexists. split; [vm_compute; reflexivity |].
  vm_compute. repeat split; [discriminate | tauto].
Qed.

(** ** The recent lists *)

Section Recent.

Context {A : Type} (key : A → Z).

#[local] Instance desc_transitive : Transitive (desc key).
Proof. intros x y z. unfold desc. lia. Qed.

#[local] Instance desc_total : Total (desc key).
Proof. intros x y. unfold desc. lia. Qed.

Lemma limit_length (n : nat) (l : list A) : length (limit n l) ≤ n.
Proof. unfold limit. rewrite length_take. lia. Qed.

Lemma sort_desc_sorted (l : list A) : StronglySorted (desc key) (sort_desc key l).
Proof. apply StronglySorted_merge_sort; apply _. Qed.

Lemma limit_sorted (n : nat) (l : list A) :
  StronglySorted (desc key) l → StronglySorted (desc key) (limit n l).
Proof.
  intros Hs. rewrite <- (take_drop n l) in Hs.
  by apply StronglySorted_app_1_l in Hs.
Qed.

(** A record of a recent list is one of the collection that passes the
    filter. *)
Lemma recent_elem (n : nat) (p : A → bool) (l : list A) (x : A) :
  x ∈ limit n (sort_desc key (select p l)) → x ∈ l ∧ p x = true.
Proof.
  intros Hx. apply subseteq_take in Hx.
  unfold sort_desc in Hx. rewrite merge_sort_Permutation in Hx.
  apply list_elem_of_In, List.filter_In in Hx as [Hin Hp].
  split; [by apply list_elem_of_In | done].
Qed.

Lemma recent_Forall (n : nat) (p : A → bool) (l : list A) (P : A → Prop) :
  (∀ x, p x = true → P x) →
  Forall P (limit n (sort_desc key (select p l))).
Proof.
  intros HP. apply Forall_forall. intros x Hx.
  apply recent_elem in Hx as [_ Hp]. by apply HP.
Qed.

(** The records left out by the limit are no more recent than those kept. *)
Lemma limit_most_recent (n : nat) (l : list A) (x y : A) :
  x ∈ limit n (sort_desc key l) → y ∈ drop n (sort_desc key l) →
  (key y ≤ key x)%Z.
Proof.
  intros Hx Hy. pose proof (sort_desc_sorted l) as Hs.
  rewrite <- (take_drop n (sort_desc key l)) in Hs.
  by apply (StronglySorted_app_1_elem_of _ _ _ x y) in Hs.
Qed.

End Recent.

(** C4, amended. The summary and the groups are computed from the assets
    matched by base and asset type alone: two requests that differ only in
    their dates get the same summary and the same groups.  The date range
    restricts the four recent lists: each of their records was created
    within it. *)
Theorem dashboard_summary_ignores_dates
    (env : Env) (user : User.t) (q q' : Dashboard.Query) (db : Collections)
    (data data' : Dashboard.Data) :
  Dashboard.dashboard env user q db = Dashboard.Send data →
  Dashboard.dashboard env user q' db = Dashboard.Send data' →
  Dashboard.base q = Dashboard.base q' →
  Dashboard.assetType q = Dashboard.assetType q' →
  Dashboard.summary data = Dashboard.summarise (Dashboard.matchedAssets user q db)
  ∧ Dashboard.summary data' = Dashboard.summary data
  ∧ Dashboard.assetsByType data' = Dashboard.assetsByType data
  ∧ Forall (λ d, Filter.in_range (Dashboard.dateMatch env q) (Transfer.createdAt d) = true)
           (Dashboard.recentTransfers data)
  ∧ Forall (λ d, Filter.in_range (Dashboard.dateMatch env q) (Purchase.createdAt d) = true)
           (Dashboard.recentPurchases data)
  ∧ Forall (λ d, Filter.in_range (Dashboard.dateMatch env q) (Assignment.createdAt d) = true)
           (Dashboard.recentAssignments data)
  ∧ Forall (λ d, Filter.in_range (Dashboard.dateMatch env q) (Expenditure.createdAt d) = true)
           (Dashboard.recentExpenditures data).
Proof.
  intros H H' Hb Ht.
  pose proof (dashboard_Send _ _ _ _ _ H) as (_ & Hs & Hg).
  pose proof (dashboard_Send _ _ _ _ _ H') as (_ & Hs' & Hg').
  unfold Dashboard.matchedAssets in Hs', Hg'.
  rewrite <- (assetMatch_dates user q q' Hb Ht) in Hs', Hg'.
  fold (Dashboard.matchedAssets user q db) in Hs', Hg'.
  split; [done | split; [congruence | split; [congruence |]]].
  apply dashboard_Send_recent in H as (-> & -> & -> & ->).
  repeat split; apply recent_Forall; intros x Hx;
    unfold Filter.transfer_matches, Filter.matches in Hx;
    cbn [Filter.t_dates Filter.b_dates Dashboard.transferMatch
         Dashboard.baseTypeMatch] in Hx;
    repeat (apply andb_true_iff in Hx as [Hx ?]); done.
Qed.

Lemma dashboard_summary_ignores_dates_witness :
  ∃ data data',
    Dashboard.dashboard Sample.env Sample.bob Sample.since_2024 Sample.db
    = Dashboard.Send data
    ∧ Dashboard.dashboard Sample.env Sample.bob Sample.no_filter Sample.db
      = Dashboard.Send data'
    ∧ Dashboard.summary data' = Dashboard.summary data
    ∧ Dashboard.assetsByType data' = Dashboard.assetsByType data.
Proof.
  eexists; eexists.
  split; [vm_compute; reflexivity |]. split; [vm_compute; reflexivity |].
  refine (let H := dashboard_summary_ignores_dates Sample.env Sample.bob
                     Sample.since_2024 Sample.no_filter Sample.db _ _
                     eq_refl eq_refl eq_refl eq_refl in _).
  destruct H as (_ & H2 & H3 & _). exact (conj H2 H3).
Defined.

(** The records of the recent lists are of the base the handler restricts
    them to. *)
Lemma dashboard_recent_base
    (env : Env) (user : User.t) (query : Dashboard.Query) (db : Collections)
    (data : Dashboard.Data) (B : option string) :
  Dashboard.dashboard env user query db = Dashboard.Send data →
  Dashboard.recentBase user query = Some B →
  Forall (λ d, Transfer.fromBase d = B ∨ Transfer.toBase d = B)
         (Dashboard.recentTransfers data)
  ∧ Forall (λ d, Purchase.base d = B) (Dashboard.recentPurchases data)
  ∧ Forall (λ d, Assignment.base d = B) (Dashboard.recentAssignments data)
  ∧ Forall (λ d, Expenditure.base d = B) (Dashboard.recentExpenditures data).
Proof.
  intros H HB.
  apply dashboard_Send_recent in H as (-> & -> & -> & ->).
  repeat split;
    apply recent_Forall; intros x Hx;
    unfold Filter.transfer_matches, Filter.matches in Hx;
    cbn [Filter.t_or Filter.b_base Dashboard.transferMatch
         Dashboard.baseTypeMatch] in Hx;
    rewrite HB in Hx;
    repeat (apply andb_true_iff in Hx as [Hx ?]);
    match goal with
    | H : _ || _ = true |- _ =>
        apply orb_true_iff in H as [H|H]; apply bool_decide_eq_true in H; tauto
    | H : Filter.eq_opt (Some B) _ = true |- _ => by apply bool_decide_eq_true in H
    end.
Qed.

(** C7. For a request whose recent lists are restricted to a base B (the
    requested base, or the assigned base of a BaseCommander who requested
    none), recentTransfers holds at most 5 transfers, each with
    fromBase = B or toBase = B, newest first by createdAt; the other three
    lists hold at most 5 records of B each, in descending order of
    purchaseDate, startDate and expenditureDate. *)
Theorem dashboard_recent_lists
    (env : Env) (user : User.t) (query : Dashboard.Query) (db : Collections)
    (data : Dashboard.Data) (B : option string) :
  Dashboard.dashboard env user query db = Dashboard.Send data →
  Dashboard.recentBase user query = Some B →
  (length (Dashboard.recentTransfers data) ≤ 5
   ∧ Forall (λ d, Transfer.fromBase d = B ∨ Transfer.toBase d = B)
            (Dashboard.recentTransfers data)
   ∧ StronglySorted (desc Transfer.createdAt) (Dashboard.recentTransfers data))
  ∧ (length (Dashboard.recentPurchases data) ≤ 5
     ∧ Forall (λ d, Purchase.base d = B) (Dashboard.recentPurchases data)
     ∧ StronglySorted (desc Purchase.purchaseDate) (Dashboard.recentPurchases data))
  ∧ (length (Dashboard.recentAssignments data) ≤ 5
     ∧ Forall (λ d, Assignment.base d = B) (Dashboard.recentAssignments data)
     ∧ StronglySorted (desc Assignment.startDate) (Dashboard.recentAssignments data))
  ∧ (length (Dashboard.recentExpenditures data) ≤ 5
     ∧ Forall (λ d, Expenditure.base d = B) (Dashboard.recentExpenditures data)
     ∧ StronglySorted (desc Expenditure.expenditureDate)
                      (Dashboard.recentExpenditures data)).
Proof.
  intros H HB.
  destruct (dashboard_recent_base env user query db data B H HB)
    as (Ht & Hp & Ha & He).
  apply dashboard_Send_recent in H as (Et & Ep & Ea & Ee).
  repeat split; try done.
  all: rewrite ?Et, ?Ep, ?Ea, ?Ee;
    first [ apply limit_length | apply limit_sorted, sort_desc_sorted ].
Qed.

Lemma dashboard_recent_lists_witness :
  ∃ data,
    Dashboard.dashboard Sample.env Sample.bob (Sample.for_base "Base-A") Sample.db
    = Dashboard.Send data
    ∧ length (Dashboard.recentTransfers data) ≤ 5
    ∧ Forall (λ d, Transfer.fromBase d = Some "Base-A" ∨ Transfer.toBase d = Some "Base-A")
             (Dashboard.recentTransfers data)
    ∧ StronglySorted (desc Transfer.createdAt) (Dashboard.recentTransfers data).
Proof.
  eexists. split; [vm_compute; reflexivity |].
  refine (let H := dashboard_recent_lists Sample.env Sample.bob
                     (Sample.for_base "Base-A") Sample.db _ (Some "Base-A")
                     eq_refl eq_refl in _).
  destruct H as (H1 & _). exact H1.
Defined.

Example recent_transfers_base_A :
  ∃ data,
    Dashboard.dashboard Sample.env Sample.bob (Sample.for_base "Base-A") Sample.db
    = Dashboard.Send data
    ∧ Transfer.createdAt <$> Dashboard.recentTransfers data = [70; 60; 50; 40; 30]%Z.
Proof. eexists. split; [vm_compute; reflexivity |]. vm_compute. done. Qed.

(** ** Base scoping for a BaseCommander *)

Section Scoping.

Import Dashboard.

Context (env : Env) (user : User.t) (db : Collections).
Hypothesis commander : User.role user = User.BaseCommander.

(** The asset query of a BaseCommander is on the assigned base, whatever
    base was requested. *)
Lemma commander_assetMatch (query : Query) :
  Filter.a_base (assetMatch user query) = Some (User.assignedBase user).
Proof. unfold assetMatch. simpl. by rewrite bool_decide_eq_true_2. Qed.

(** The queries for the recent lists take the requested base first. *)
Lemma commander_recentBase (query : Query) :
  recentBase user query =
    if truthy (base query) then Some (base query)
    else Some (User.assignedBase user).
Proof. unfold recentBase. by rewrite bool_decide_eq_true_2. Qed.

Lemma commander_assets_scoped (query : Query) :
  matchedAssets user query db ⊆ assets db
  ∧ Forall (λ a, Asset.base a = User.assignedBase user) (matchedAssets user query db).
Proof.
  unfold matchedAssets, select. split.
  - intros a Ha. apply list_elem_of_In, List.filter_In in Ha as [Ha _].
    by apply list_elem_of_In.
  - apply Forall_forall. intros a Ha.
    apply list_elem_of_In, List.filter_In in Ha as [_ Ha].
    unfold Filter.asset_matches in Ha. rewrite commander_assetMatch in Ha.
    apply andb_true_iff in Ha as [Ha _]. by apply bool_decide_eq_true in Ha.
Qed.

(** A request that names no base, or the assigned base, is answered with
    data of the assigned base only. *)
Lemma commander_own_base_scoped (query : Query) (data : Data) :
  base query = None ∨ base query = User.assignedBase user →
  dashboard env user query db = Send data →
  scoped_to (User.assignedBase user) db data.
Proof.
  intros Hbase H.
  assert (HB : recentBase user query = Some (User.assignedBase user)).
  { rewrite commander_recentBase.
    destruct Hbase as [Hb|Hb]; rewrite Hb; [done |].
    by destruct (truthy (User.assignedBase user)). }
  destruct (commander_assets_scoped query) as [Hsub Hall].
  destruct (dashboard_Send env user query db data H) as (_ & Hs & Hg).
  split; [by exists (matchedAssets user query db) |].
  by apply (dashboard_recent_base env user query db).
Qed.

(** The base check refuses a BaseCommander who names another base, and lets the
    other requests of a BaseCommander through. *)
Lemma commander_base_check (query : Query) :
  guarded env user query db =
    match base query with
    | Some X =>
        if bool_decide (Some X = User.assignedBase user)
        then dashboard env user query db
        else StatusSend 403 (Error "Forbidden")
    | None => dashboard env user query db
    end.
Proof.
  unfold guarded, Middleware.scopeToBase. rewrite commander.
  destruct (base query) as [X|]; [| done]. by case_bool_decide.
Qed.

(** Whatever a BaseCommander requests, the route answers 403, or 500 for a
    date that is not a date, or data of the assigned base only. *)
Lemma commander_guarded (query : Query) :
  guarded env user query db = StatusSend 403 (Error "Forbidden")
  ∨ guarded env user query db = StatusSend 500 CastError
  ∨ ∃ data, guarded env user query db = Send data
            ∧ scoped_to (User.assignedBase user) db data.
Proof.
  rewrite commander_base_check.
  assert (Hpass : base query = None ∨ base query = User.assignedBase user →
    dashboard env user query db = StatusSend 500 CastError
    ∨ ∃ data, dashboard env user query db = Send data
              ∧ scoped_to (User.assignedBase user) db data).
  { intros Hb. destruct (dashboard env user query db) as [data|n e] eqn:Hd.
    - right. exists data. split; [done |]. by apply (commander_own_base_scoped query).
    - left. rewrite dashboard_cases in Hd.
      by destruct (Filter.castable (dateMatch env query)). }
  destruct (base query) as [X|] eqn:HX; [case_bool_decide as HXa |].
  - right. apply Hpass. by right.
  - by left.
  - right. apply Hpass. by left.
Qed.

(** Without the base check, the handler restricts the recent lists of a
    BaseCommander to the requested base, not to the assigned one. *)
Lemma commander_handler_recent_requested_base (query : Query) (X : string) :
  base query = Some X → X ≠ "" →
  recentBase user query = Some (Some X)
  ∧ Filter.a_base (assetMatch user query) = Some (User.assignedBase user).
Proof.
  intros HX Hne. rewrite commander_recentBase, commander_assetMatch, HX.
  by rewrite truthy_Some.
Qed.

End Scoping.

(** C1. A BaseCommander who requests the dashboard with base=X, X not the
    assigned base, is refused by the base check with 403 Forbidden; no reply
    of the route to a BaseCommander carries data of another base: it is
    Forbidden, or every part of it is scoped to the assigned base. *)
Theorem commander_other_base_forbidden_or_scoped
    (env : Env) (user : User.t) (query : Dashboard.Query) (db : Collections)
    (X : string) :
  User.role user = User.BaseCommander →
  Dashboard.base query = Some X →
  Some X ≠ User.assignedBase user →
  Dashboard.guarded env user query db = Dashboard.StatusSend 403 (Error "Forbidden")
  ∨ ∃ data, Dashboard.guarded env user query db = Dashboard.Send data
            ∧ scoped_to (User.assignedBase user) db data
            ∧ Forall (λ d, Purchase.base d ≠ Some X) (Dashboard.recentPurchases data).
Proof.
  intros Hrole HX Hne. left.
  rewrite (commander_base_check env user db Hrole), HX.
  by rewrite bool_decide_eq_false_2.
Qed.

Lemma commander_other_base_forbidden_or_scoped_witness :
  Dashboard.guarded Sample.env Sample.alice (Sample.for_base "Base-B") Sample.db
  = Dashboard.StatusSend 403 (Error "Forbidden")
  ∨ ∃ data,
      Dashboard.guarded Sample.env Sample.alice (Sample.for_base "Base-B") Sample.db
      = Dashboard.Send data
      ∧ scoped_to (User.assignedBase Sample.alice) Sample.db data
      ∧ Forall (λ d, Purchase.base d ≠ Some "Base-B") (Dashboard.recentPurchases data).
Proof.
  apply (commander_other_base_forbidden_or_scoped Sample.env Sample.alice
           (Sample.for_base "Base-B") Sample.db "Base-B");
    [reflexivity | reflexivity | discriminate].
Defined.

Example commander_other_base_refused :
  Dashboard.guarded Sample.env Sample.alice (Sample.for_base "Base-B") Sample.db
  = Dashboard.StatusSend 403 (Error "Forbidden").
Proof. reflexivity. Qed.

(** The handler on its own, for the same request: the summary is that of
    Base-A, the recent purchases are those of Base-B. *)
Example commander_other_base_handler :
  ∃ data,
    Dashboard.dashboard Sample.env Sample.alice (Sample.for_base "Base-B") Sample.db
    = Dashboard.Send data
    ∧ Summary.totalAssets (Dashboard.summary data) = 2%Z
    ∧ Purchase.base <$> Dashboard.recentPurchases data = [Some "Base-B"].
Proof. eexists. split; [vm_compute; reflexivity |]. vm_compute. done. Qed.

(** ** Grouping by type *)

Section Grouping.

Import Dashboard.

Lemma addToGroups_inherited (m : gmap string Group.t) (a : Asset.t) :
  inherited (Asset.type a) = true → addToGroups m a = m.
Proof. intros H. unfold addToGroups. by rewrite H. Qed.

Lemma addToGroups_listed (m : gmap string Group.t) (a : Asset.t) :
  inherited (Asset.type a) = false →
  addToGroups m a
  = alter (addToGroup a) (Asset.type a)
      match m !! Asset.type a with
      | None => <[Asset.type a := newGroup (Asset.type a)]> m
      | Some _ => m
      end.
Proof. intros H. unfold addToGroups. by rewrite H. Qed.

(** The object built from a list is the one built from its listed assets. *)
Lemma fold_addToGroups_listed (l : list Asset.t) (m : gmap string Group.t) :
  fold_left addToGroups l m = fold_left addToGroups (listed l) m.
Proof.
  revert m. induction l as [|a l IH]; intros m; [done |].
  simpl fold_left. unfold listed. rewrite filter_cons.
  destruct (inherited (Asset.type a)) eqn:Ha.
  - rewrite addToGroups_inherited by done. rewrite decide_False by done. apply IH.
  - rewrite decide_True by done. simpl fold_left. apply IH.
Qed.

Lemma groupByType_listed (S : list Asset.t) : groupByType S = groupByType (listed S).
Proof. apply fold_addToGroups_listed. Qed.

(** The group [g] after the assets of [l] were added to it. *)
Lemma fold_addToGroup (l : list Asset.t) (g : Group.t) :
  fold_left (λ g a, addToGroup a g) l g =
    {| Group.type := Group.type g;
       Group.count := fold_left (λ acc _, number_add acc 1) l (Group.count g);
       Group.openingBalance :=
         fold_left (λ acc a, number_add acc (Asset.openingBalance a)) l
                   (Group.openingBalance g);
       Group.closingBalance :=
         fold_left (λ acc a, number_add acc (Asset.closingBalance a)) l
                   (Group.closingBalance g);
       Group.assigned :=
         fold_left (λ acc a, number_add acc (Asset.assigned a)) l (Group.assigned g);
       Group.available :=
         fold_left (λ acc a, number_add acc (Asset.available a)) l
                   (Group.available g) |}.
Proof.
  revert g. induction l as [|a l IH]; intros g.
  - by destruct g.
  - simpl fold_left. by rewrite IH.
Qed.

(** One step of the pass, seen from a key [t]. *)
Lemma addToGroups_lookup (m : gmap string Group.t) (a : Asset.t) (t : string) :
  addToGroups m a !! t =
    if bool_decide (Asset.type a = t) && negb (inherited t)
    then Some (addToGroup a (default (newGroup t) (m !! t)))
    else m !! t.
Proof.
  destruct (inherited (Asset.type a)) eqn:Ha.
  - rewrite addToGroups_inherited by done.
    case_bool_decide as Ht; [| done]. subst t. by rewrite Ha.
  - rewrite addToGroups_listed by done. case_bool_decide as Ht.
    + subst t. rewrite Ha. simpl. destruct (m !! Asset.type a) as [g|] eqn:Hm.
      * by rewrite lookup_alter_eq, Hm.
      * by rewrite lookup_alter_eq, lookup_insert_eq.
    + simpl. destruct (m !! Asset.type a) as [g|] eqn:Hm.
      * by rewrite lookup_alter_ne.
      * by rewrite lookup_alter_ne, lookup_insert_ne.
Qed.

(** The whole pass, seen from a key [t], from any object [m]. *)
Lemma fold_addToGroups_lookup (l : list Asset.t) (m : gmap string Group.t)
    (t : string) :
  fold_left addToGroups l m !! t =
    if inherited t then m !! t
    else
      match filter (λ a, Asset.type a = t) l with
      | [] => m !! t
      | St => Some (fold_left (λ g a, addToGroup a g) St (default (newGroup t) (m !! t)))
      end.
Proof.
  revert m. induction l as [|a l IH]; intros m.
  - simpl. by destruct (inherited t).
  - simpl fold_left. rewrite IH, addToGroups_lookup.
    destruct (inherited t) eqn:Ht.
    + by rewrite andb_false_r.
    + rewrite andb_true_r, filter_cons. case_decide as Hty.
      * rewrite bool_decide_eq_true_2 by done. simpl.
        by destruct (filter _ l).
      * by rewrite bool_decide_eq_false_2.
Qed.

(** No key of the object names an inherited property, and the value of a
    key carries the key as its type. *)
Lemma groupByType_key (S : list Asset.t) (t : string) (g : Group.t) :
  groupByType S !! t = Some g → inherited t = false ∧ Group.type g = t.
Proof.
  unfold groupByType. rewrite fold_addToGroups_lookup.
  destruct (inherited t); [by rewrite lookup_empty |].
  destruct (filter _ S) as [|a St]; [by rewrite lookup_empty |].
  rewrite fold_addToGroup. by intros [= <-].
Qed.

Lemma Object_values_elem {A} (m : gmap string A) (x : A) :
  x ∈ Object_values m ↔ ∃ k, m !! k = Some x.
Proof.
  unfold Object_values. rewrite list_elem_of_fmap. split.
  - intros ([k y] & -> & H). exists k. by apply elem_of_map_to_list in H.
  - intros [k H]. exists (k, x). split; [done |]. by apply elem_of_map_to_list.
Qed.

Lemma Object_values_insert {A} (m : gmap string A) (k : string) (x : A) :
  m !! k = None → Object_values (<[k:=x]> m) ≡ₚ x :: Object_values m.
Proof. intros Hk. unfold Object_values. by rewrite map_to_list_insert. Qed.

(** The values of the object carry pairwise different types. *)
Lemma groupByType_types_NoDup (S : list Asset.t) :
  NoDup (Group.type <$> Object_values (groupByType S)).
Proof.
  unfold Object_values.
  assert (Heq : Group.type <$> (map_to_list (groupByType S)).*2
                = (map_to_list (groupByType S)).*1).
  { rewrite <- list_fmap_compose. apply list_fmap_ext.
    intros i [k g] Hi. simpl.
    apply list_elem_of_lookup_2, elem_of_map_to_list in Hi.
    by apply groupByType_key in Hi as [_ Hi]. }
  rewrite Heq. apply NoDup_fst_map_to_list.
Qed.

(** An asset whose type names an inherited property has no group, and the
    object is the one built without it. *)
Lemma groupByType_without (S1 S2 : list Asset.t) (a : Asset.t) :
  inherited (Asset.type a) = true →
  groupByType (S1 ++ a :: S2) = groupByType (S1 ++ S2).
Proof.
  intros Ha. unfold groupByType. rewrite !fold_left_app. simpl fold_left.
  by rewrite addToGroups_inherited.
Qed.

End Grouping.

Section GroupSums.

Import Dashboard.

(** A quantity [gf] of a group that starts at zero and grows by the
    quantity [af] of each asset added to the group. *)
Context (gf : Group.t → Z) (af : Asset.t → Z).
Hypothesis gf_new : ∀ t, gf (newGroup t) = 0%Z.
Hypothesis gf_add : ∀ a g, gf (addToGroup a g) = number_add (gf g) (af a).

Lemma summed_insert (m : gmap string Group.t) (k : string) (g : Group.t) :
  m !! k = None →
  total gf (Object_values (<[k:=g]> m)) = (gf g + total gf (Object_values m))%Z
  ∧ magnitude gf (Object_values (<[k:=g]> m))
    = (Z.abs (gf g) + magnitude gf (Object_values m))%Z.
Proof.
  intros Hk. pose proof (Object_values_insert m k g Hk) as Hp.
  by rewrite (total_perm _ _ _ Hp), (magnitude_perm _ _ _ Hp).
Qed.

(** One step of the pass on a listed asset, while the magnitudes in the
    object and that of the asset stay within 2^53. *)
Lemma summed_addToGroups (m : gmap string Group.t) (a : Asset.t) :
  inherited (Asset.type a) = false →
  (magnitude gf (Object_values m) + Z.abs (af a) ≤ 2 ^ 53)%Z →
  total gf (Object_values (addToGroups m a)) = (total gf (Object_values m) + af a)%Z
  ∧ (magnitude gf (Object_values (addToGroups m a))
     ≤ magnitude gf (Object_values m) + Z.abs (af a))%Z.
Proof.
  intros Ha Hb. rewrite addToGroups_listed by done.
  destruct (m !! Asset.type a) as [g|] eqn:Hm.
  - pose proof (insert_delete_id m (Asset.type a) g Hm) as Hm'.
    assert (H0 : delete (Asset.type a) m !! Asset.type a = None)
      by apply lookup_delete_eq.
    revert Hb. rewrite <- Hm'. rewrite alter_insert_eq.
    destruct (summed_insert _ _ g H0) as [-> ->].
    destruct (summed_insert _ _ (addToGroup a g) H0) as [-> ->].
    pose proof (magnitude_nonneg gf (Object_values (delete (Asset.type a) m))).
    intros Hb. rewrite gf_add, number_add_exact by lia. lia.
  - rewrite alter_insert_eq.
    destruct (summed_insert _ _ (addToGroup a (newGroup (Asset.type a))) Hm) as [-> ->].
    pose proof (magnitude_nonneg gf (Object_values m)).
    rewrite gf_add, gf_new, number_add_exact by lia. lia.
Qed.

Lemma summed_fold (l : list Asset.t) (m : gmap string Group.t) :
  Forall (λ a, inherited (Asset.type a) = false) l →
  (magnitude gf (Object_values m) + magnitude af l ≤ 2 ^ 53)%Z →
  total gf (Object_values (fold_left addToGroups l m))
  = (total gf (Object_values m) + total af l)%Z.
Proof.
  intros Hl. revert m. induction Hl as [|a l Ha _ IH]; intros m Hb; simpl fold_left.
  - simpl. lia.
  - rewrite magnitude_cons in Hb. pose proof (magnitude_nonneg af l).
    destruct (summed_addToGroups m a Ha) as [Ht Hm]; [lia |].
    rewrite IH by lia. rewrite Ht, total_cons. lia.
Qed.

(** The groups hold the quantities of the listed assets. *)
Lemma summed_groupByType (S : list Asset.t) :
  (magnitude af S ≤ 2 ^ 53)%Z →
  total gf (Object_values (groupByType S)) = total af (listed S).
Proof.
  intros Hb. rewrite groupByType_listed. unfold groupByType.
  rewrite summed_fold.
  - unfold Object_values. rewrite map_to_list_empty. simpl. lia.
  - apply Forall_forall. intros a Ha. by apply list_elem_of_filter in Ha as [Ha _].
  - pose proof (magnitude_filter af (λ a, inherited (Asset.type a) = false) S).
    unfold Object_values. rewrite map_to_list_empty. unfold listed. simpl. lia.
Qed.

End GroupSums.

(** The counts of the groups add up to the number of listed assets. *)
Lemma groupByType_counts (S : list Asset.t) :
  (Z.of_nat (length S) ≤ 2 ^ 53)%Z →
  total Group.count (Dashboard.Object_values (Dashboard.groupByType S))
  = Z.of_nat (length (listed S)).
Proof.
  intros Hb.
  rewrite (summed_groupByType Group.count (λ _, 1%Z)); [apply total_ones | done | done |].
  unfold magnitude. simpl. by rewrite total_ones.
Qed.

(** C6. The grouping is not a partition of the matched assets: an asset
    [a] whose type is the name of a property that the object
    [assetsByType] inherits ("constructor", "toString", "__proto__", ...)
    is one of the matched assets and is counted in totalAssets, but no
    group carries its type: the groups are those of the other assets, and
    their counts add up to fewer than the number of matched assets. *)
Theorem groups_omit_inherited_types (S1 S2 : list Asset.t) (a : Asset.t) :
  inherited (Asset.type a) = true →
  (Z.of_nat (length (S1 ++ a :: S2)) ≤ 2 ^ 53)%Z →
  let S := S1 ++ a :: S2 in
  let groups := Dashboard.Object_values (Dashboard.groupByType S) in
  a ∈ S
  ∧ (∀ g, g ∈ groups → Group.type g ≠ Asset.type a)
  ∧ groups = Dashboard.Object_values (Dashboard.groupByType (S1 ++ S2))
  ∧ Summary.totalAssets (Dashboard.summarise S) = Z.of_nat (length S)
  ∧ (total Group.count groups < Z.of_nat (length S))%Z.
Proof.
  intros Ha Hb S groups.
  assert (Hin : a ∈ S).
  { apply elem_of_app. right. apply elem_of_cons. by left. }
  split; [done |]. split; [| split; [| split]].
  - intros g Hg Hty. apply Object_values_elem in Hg as [k Hk].
    apply groupByType_key in Hk as [Hk <-]. congruence.
  - unfold groups, S. by rewrite groupByType_without.
  - by destruct (summarise_totals S) as [-> _].
  - unfold groups. rewrite groupByType_counts by done.
    apply inj_lt. apply length_filter_lt with a; [done | congruence].
Qed.

Lemma groups_omit_inherited_types_witness :
  let S := [Sample.vehicle; Sample.oddity] in
  Dashboard.Object_values (Dashboard.groupByType S)
  = Dashboard.Object_values (Dashboard.groupByType [Sample.vehicle])
  ∧ Summary.totalAssets (Dashboard.summarise S) = 2%Z
  ∧ (total Group.count (Dashboard.Object_values (Dashboard.groupByType S)) < 2)%Z.
Proof.
  destruct (groups_omit_inherited_types [Sample.vehicle] [] Sample.oddity)
    as (_ & _ & H3 & H4 & H5); [reflexivity | vm_compute; discriminate |].
  exact (conj H3 (conj H4 H5)).
Defined.

Example groups_of_constructor :
  let S := [Sample.vehicle; Sample.oddity] in
  Group.type <$> Dashboard.Object_values (Dashboard.groupByType S) = ["Vehicle"]
  ∧ Group.count <$> Dashboard.Object_values (Dashboard.groupByType S) = [1%Z]
  ∧ Summary.totalAssets (Dashboard.summarise S) = 2%Z
  ∧ Summary.totalOpeningBalance (Dashboard.summarise S) = 11%Z
  ∧ total Group.openingBalance (Dashboard.Object_values (Dashboard.groupByType S))
    = 10%Z.
Proof. vm_compute. done. Qed.

Section Partition.

Import Dashboard.

(** Within 2^53, each key that does not name an inherited property holds
    the group the specification describes for it. *)
Lemma groupByType_lookup (S : list Asset.t) (t : string) :
  exact_sums S → inherited t = false → groupByType S !! t = groupOf t S.
Proof.
  intros (Hn & Ho & Hc & Has & Hav) Ht.
  unfold groupByType, groupOf. rewrite fold_addToGroups_lookup, Ht.
  set (P := λ a : Asset.t, Asset.type a = t).
  pose proof (length_filter P S) as Hlen.
  pose proof (magnitude_filter Asset.openingBalance P S).
  pose proof (magnitude_filter Asset.closingBalance P S).
  pose proof (magnitude_filter Asset.assigned P S).
  pose proof (magnitude_filter Asset.available P S).
  assert (Hones : magnitude (λ _ : Asset.t, 1%Z) (filter P S)
                  = Z.of_nat (length (filter P S))) by apply total_ones.
  destruct (filter P S) as [|a St] eqn:HS; [done |].
  rewrite lookup_empty. simpl default. rewrite fold_addToGroup.
  unfold newGroup. cbn [Group.type Group.count Group.openingBalance
                        Group.closingBalance Group.assigned Group.available].
  rewrite (fold_number_add (λ _, 1%Z)), total_ones by lia.
  rewrite !fold_number_add by lia.
  f_equal.
Qed.

Lemma groupOf_type (S : list Asset.t) (t : string) (g : Group.t) :
  groupOf t S = Some g → Group.type g = t.
Proof.
  unfold groupOf. destruct (filter _ S); [done |]. by intros [= <-].
Qed.

(** The groups of the listed assets.  Within 2^53, the groups sent as
    assetsByType partition the listed assets of S by type: the groups are exactly the groups
    [groupOf t S] of the types that occur and do not name an inherited
    property, no two of them have the same type, each listed asset of S
    has exactly one group of its type and that group counts the assets of
    S of that type, and the counts add up to the number of listed assets
    of S. *)
Lemma groups_partition_listed_assets (S : list Asset.t) :
  exact_sums S →
  let groups := Object_values (groupByType S) in
  (∀ g, g ∈ groups ↔
        inherited (Group.type g) = false ∧ groupOf (Group.type g) S = Some g)
  ∧ NoDup (Group.type <$> groups)
  ∧ (∀ a, a ∈ S → inherited (Asset.type a) = false →
       ∃ g, g ∈ groups
            ∧ Group.type g = Asset.type a
            ∧ Group.count g
              = Z.of_nat (length (filter (λ b, Asset.type b = Asset.type a) S))
            ∧ ∀ g', g' ∈ groups → Group.type g' = Asset.type a → g' = g)
  ∧ total Group.count groups = Z.of_nat (length (listed S)).
Proof.
  intros Hex groups.
  assert (Hiff : ∀ g, g ∈ groups ↔
            inherited (Group.type g) = false ∧ groupOf (Group.type g) S = Some g).
  { intros g. unfold groups. rewrite Object_values_elem. split.
    - intros [k Hk]. destruct (groupByType_key S k g Hk) as [Hown ->].
      split; [done |]. by rewrite <- groupByType_lookup.
    - intros [Hown Hg]. exists (Group.type g). by rewrite groupByType_lookup. }
  split; [done |]. split; [apply groupByType_types_NoDup |]. split.
  - intros a Ha Hown.
    assert (Hin : a ∈ filter (λ b, Asset.type b = Asset.type a) S)
      by by apply list_elem_of_filter.
    destruct (groupOf (Asset.type a) S) as [g|] eqn:Hg.
    + pose proof (groupOf_type S _ g Hg) as Hty.
      exists g. split; [apply Hiff; by rewrite Hty |]. split; [done |]. split.
      * unfold groupOf in Hg.
        destruct (filter (λ b, Asset.type b = Asset.type a) S); [done |].
        by injection Hg as <-.
      * intros g' Hg' Hty'. apply Hiff in Hg' as [_ Hg'].
        rewrite Hty' in Hg'. congruence.
    + exfalso. unfold groupOf in Hg.
      destruct (filter (λ b, Asset.type b = Asset.type a) S); [| done].
      by apply elem_of_nil in Hin.
  - apply groupByType_counts. by destruct Hex.
Qed.

End Partition.

(** The same for what the route sends. *)
Lemma dashboard_groups_counts (env : Env) (user : User.t)
    (query : Dashboard.Query) (db : Collections) (data : Dashboard.Data) :
  Dashboard.dashboard env user query db = Dashboard.Send data →
  (Z.of_nat (length (Dashboard.matchedAssets user query db)) ≤ 2 ^ 53)%Z →
  total Group.count (Dashboard.assetsByType data)
  = Z.of_nat (length (listed (Dashboard.matchedAssets user query db)))
  ∧ Summary.totalAssets (Dashboard.summary data)
    = Z.of_nat (length (Dashboard.matchedAssets user query db)).
Proof.
  intros H Hb. apply dashboard_Send in H as (_ & -> & ->).
  split; [by apply groupByType_counts | by apply summarise_totals].
Qed.

Example no_assets_match :
  ∃ data,
    Dashboard.dashboard Sample.env Sample.bob (Sample.for_base "Base-Z") Sample.db
    = Dashboard.Send data
    ∧ Dashboard.summary data = Dashboard.summary0 0
    ∧ Dashboard.assetsByType data = [].
Proof. eexists. split; [vm_compute; reflexivity |]. vm_compute. done. Qed.

(** * Further properties of the authentication code *)

Section Credentials.

Context (env : Env).

Lemma findOne_Some (name : string) (db : list User.t) (u : User.t) :
  User.findOne name db = Some u → u ∈ db ∧ User.username u = name.
Proof.
  intros H. apply find_elem_of in H as [Hin Hn].
  split; [done |]. by apply bool_decide_eq_true in Hn.
Qed.

Lemma findByCredentials_inv (name pw : string) (db : list User.t) (u : User.t) :
  User.findByCredentials env name pw db = Ok u →
  User.findOne name db = Some u
  ∧ User.active u = true
  ∧ (bcrypt_compare env pw (User.password u) = Some true
     ∨ (bcrypt_compare env pw (User.password u) = None ∧ pw = User.password u)).
Proof.
  unfold User.findByCredentials.
  destruct (User.findOne name db) as [v|]; [| done].
  destruct (User.active v) eqn:Hact; [| done]. simpl.
  destruct (bcrypt_compare env pw (User.password v)) as [[]|] eqn:Hcmp; simpl.
  - intros [= ->]. auto.
  - done.
  - case_bool_decide; [| done]. intros [= ->]. auto.
Qed.

Lemma findByCredentials_throws_unknown (name pw : string) (db : list User.t) :
  User.findOne name db = None →
  User.findByCredentials env name pw db = Throw (Error "Invalid username or password").
Proof. intros H. unfold User.findByCredentials. by rewrite H. Qed.

(** With distinct identifiers, saving a changed version of a stored user
    replaces that user and nothing else. *)
Lemma save_replaces (u0 u : User.t) (db : list User.t) :
  NoDup (User._id <$> db) → u0 ∈ db → User._id u = User._id u0 →
  User.save env u db = (User.persist env u0 u, replaced u0 (User.persist env u0 u) db).
Proof.
  intros Hnd Hin Hid.
  pose proof (find_by_id db u0 Hnd Hin) as Hfind. rewrite <- Hid in Hfind.
  rewrite (save_stored env u db u0 Hfind). unfold replaced. by rewrite Hid.
Qed.

Lemma generateAuthToken_stored (u : User.t) (db : list User.t) :
  NoDup (User._id <$> db) → u ∈ db →
  User.generateAuthToken env u db
  = (jwt_sign env (User._id u), logged_in env u, replaced u (logged_in env u) db).
Proof.
  intros Hnd Hin. unfold User.generateAuthToken.
  rewrite (save_replaces u _ db Hnd Hin) by done.
  rewrite persist_set_tokens.
  rewrite bool_decide_eq_false_2; [done |].
  intros Heq. apply (f_equal length) in Heq. rewrite length_app in Heq.
  simpl in Heq. lia.
Qed.

Lemma replaced_ids (u u' : User.t) (db : list User.t) :
  User._id u' = User._id u →
  User._id <$> replaced u u' db = User._id <$> db.
Proof.
  intros Hid. unfold replaced. rewrite <- list_fmap_compose.
  apply list_fmap_ext. intros i v _. simpl. by case_bool_decide; [congruence |].
Qed.

Lemma replaced_elem (u u' : User.t) (db : list User.t) :
  u ∈ db → u' ∈ replaced u u' db.
Proof.
  intros Hin. apply list_elem_of_fmap. exists u. split; [| done].
  by rewrite bool_decide_eq_true_2.
Qed.

(** Replacing a user by a version with the same identifier and username
    does not change who a username finds. *)
Lemma findOne_replaced (name : string) (u u' : User.t) (db : list User.t) :
  NoDup (User._id <$> db) →
  User.findOne name db = Some u →
  User._id u' = User._id u → User.username u' = User.username u →
  User.findOne name (replaced u u' db) = Some u'.
Proof.
  unfold User.findOne, replaced.
  induction db as [|w db IH]; intros Hnd Hfind Hid Hname; [done |].
  rewrite fmap_cons in Hnd. apply NoDup_cons in Hnd as [Hw Hnd].
  simpl in Hfind. rewrite fmap_cons. simpl.
  case_bool_decide as Hwn.
  - injection Hfind as ->.
    rewrite (bool_decide_eq_true_2 (User._id u = User._id u)) by done.
    by rewrite bool_decide_eq_true_2 by congruence.
  - destruct (decide (User._id w = User._id u)) as [Hwid|Hwid].
    + exfalso. apply Hw. rewrite Hwid.
      apply find_elem_of in Hfind as [Hin _]. by apply list_elem_of_fmap_2.
    + rewrite (bool_decide_eq_false_2 (User._id w = User._id u)) by done.
      rewrite bool_decide_eq_false_2 by done. by apply IH.
Qed.

End Credentials.

(** X1. [findByCredentials] only ever returns a stored user who has the
    given username, is active, and whose password the comparison accepted
    (or, when the comparison threw, equals the given one as a string): an
    inactive account is never authenticated, whatever the password. *)
Theorem findByCredentials_sound
    (env : Env) (name pw : string) (db : list User.t) (u : User.t) :
  User.findByCredentials env name pw db = Ok u →
  u ∈ db
  ∧ User.username u = name
  ∧ User.active u = true
  ∧ (bcrypt_compare env pw (User.password u) = Some true
     ∨ (bcrypt_compare env pw (User.password u) = None ∧ pw = User.password u)).
Proof.
  intros H. apply findByCredentials_inv in H as (Hfind & Hact & Hcmp).
  apply findOne_Some in Hfind as [Hin Hname]. done.
Qed.

Lemma findByCredentials_sound_witness :
  Sample.alice ∈ users Sample.store
  ∧ User.username Sample.alice = "alice"
  ∧ User.active Sample.alice = true.
Proof.
  destruct (findByCredentials_sound Sample.env "alice" "s3cret"
              (users Sample.store) Sample.alice eq_refl) as (H1 & H2 & H3 & _).
  exact (conj H1 (conj H2 H3)).
Defined.

Section LoginMore.

Context (env : Env) (req : Client).

(** What the route does once both credentials are present, in terms of
    the outcome of [findByCredentials]. *)
Lemma login_present (creds : Auth.Credentials) (st : Store) :
  truthy (Auth.username creds) = true →
  truthy (Auth.password creds) = true →
  Auth.login env req creds st =
    match User.findByCredentials env (str (Auth.username creds))
                                 (str (Auth.password creds)) (users st) with
    | Ok u =>
        let '(token, user, users') := User.generateAuthToken env u (users st) in
        let entry :=
          {| ActivityLog.user := Some (User._id user);
             ActivityLog.username := Some (User.username user);
             ActivityLog.action := "Login";
             ActivityLog.resourceType := "User";
             ActivityLog.resourceId := Some (User._id user);
             ActivityLog.details :=
               ActivityLog.RoleBase (User.Role_to_string (User.role user))
                                    (User.assignedBase user);
             ActivityLog.ipAddress := ip req;
             ActivityLog.userAgent := user_agent req |} in
        (send (SendLogin (User.toJSON user) token "Login successful"),
         {| users := users';
            activityLogs :=
              match ActivityLog_write env entry (activityLogs st) with
              | Ok logs' => logs'
              | Throw _ => activityLogs st
              end |})
    | Throw e =>
        (status_send 401 (SendError "Authentication failed" "Invalid username or password"),
         {| users := users st;
            activityLogs :=
              match ActivityLog_write env
                      (failed_login_entry req (Auth.username creds) e)
                      (activityLogs st) with
              | Ok logs' => logs'
              | Throw _ => activityLogs st
              end |})
    end.
Proof.
  intros Hu Hp. unfold Auth.login. rewrite Hu, Hp. simpl.
  destruct (User.findOne (str (Auth.username creds)) (users st)) as [v|] eqn:Hfind.
  - simpl.
    destruct (User.findByCredentials env _ _ (users st)) as [u|e]; simpl.
    + by destruct (User.generateAuthToken env u (users st)) as [[token user] users'].
    + done.
  - simpl. by rewrite (findByCredentials_throws_unknown env _ _ _ Hfind).
Qed.

End LoginMore.


(** X3. The reply of the login route and the users it stores do not
    depend on whether the audit entries can be written. *)
Theorem login_independent_of_audit_log
    (env : Env) (save : ActivityLog.t → option Exn) (req : Client)
    (creds : Auth.Credentials) (st : Store) :
  (Auth.login (with_ActivityLog_save env save) req creds st).1
  = (Auth.login env req creds st).1
  ∧ users (Auth.login (with_ActivityLog_save env save) req creds st).2
    = users (Auth.login env req creds st).2.
Proof.
  destruct (truthy (Auth.username creds)) eqn:Hu.
  - destruct (truthy (Auth.password creds)) eqn:Hp.
    + rewrite !login_present by done.
      change (User.findByCredentials (with_ActivityLog_save env save))
        with (User.findByCredentials env).
      destruct (User.findByCredentials env _ _ (users st)) as [u|e]; [| done].
      change (User.generateAuthToken (with_ActivityLog_save env save))
        with (User.generateAuthToken env).
      by destruct (User.generateAuthToken env u (users st)) as [[token user] users'].
    + unfold Auth.login. by rewrite Hu, Hp.
  - unfold Auth.login. by rewrite Hu.
Qed.

(** X4. In a store with distinct identifiers, a successful login stores
    for the user the record [logged_in env u]: the signed token is added
    after the tokens already there, which all stay, the password is not
    hashed again, [updatedAt] is the time of the save; the other users are
    untouched, and the token sent is a live session token of the user. *)
Theorem login_success_effect
    (env : Env) (req : Client) (creds : Auth.Credentials) (st : Store)
    (name pw : string) (u : User.t) :
  Auth.username creds = Some name → Auth.password creds = Some pw →
  name ≠ "" → pw ≠ "" →
  NoDup (User._id <$> users st) →
  User.findByCredentials env name pw (users st) = Ok u →
  let out := Auth.login env req creds st in
  let token := jwt_sign env (User._id u) in
  out.1 = send (SendLogin (User.toJSON (logged_in env u)) token "Login successful")
  ∧ users out.2 = replaced u (logged_in env u) (users st)
  ∧ User.tokens (logged_in env u) = User.tokens u ++ [User.Build_Token token]
  ∧ User.password (logged_in env u) = User.password u
  ∧ live_token token (User._id u) (users out.2).
Proof.
  intros Hn Hp Hne Hpe Hnd Hok out token. subst out token.
  pose proof (findByCredentials_inv env name pw _ u Hok) as (Hfind & _).
  apply findOne_Some in Hfind as [Hin _].
  rewrite (login_present env req creds st) by (rewrite ?Hn, ?Hp; by apply truthy_Some).
  rewrite Hn, Hp. simpl str. rewrite Hok.
  rewrite (generateAuthToken_stored env u (users st) Hnd Hin). simpl.
  split; [done |]. split; [done |]. split; [done |]. split; [done |].
  exists (logged_in env u). split; [by apply replaced_elem |]. split; [done |].
  simpl. apply elem_of_app. right. by apply list_elem_of_singleton.
Qed.

Lemma login_success_effect_witness :
  users (Auth.login Sample.env Sample.client (Sample.creds "alice" "s3cret") Sample.store).2
  = replaced Sample.alice (logged_in Sample.env Sample.alice) (users Sample.store)
  ∧ User.tokens (logged_in Sample.env Sample.alice)
    = User.tokens Sample.alice ++ [User.Build_Token "jwt.u1"].
Proof.
  assert (Hnd : NoDup (User._id <$> users Sample.store)).
  { vm_compute. apply NoDup_cons. split.
    - intros H. apply list_elem_of_singleton in H. discriminate.
    - apply NoDup_singleton. }
  destruct (login_success_effect Sample.env Sample.client
              (Sample.creds "alice" "s3cret") Sample.store "alice" "s3cret"
              Sample.alice eq_refl eq_refl) as (_ & H2 & H3 & _);
    [discriminate | discriminate | exact Hnd | reflexivity |].
  exact (conj H2 H3).
Defined.

Section RoundTrips.

Context (env : Env) (req : Client).

Lemma filter_fresh_token (t : string) (ts : list User.Token) :
  User.Build_Token t ∉ ts →
  filter (λ x, User.token x ≠ t) (ts ++ [User.Build_Token t]) = ts.
Proof.
  intros Hfresh. rewrite filter_app.
  rewrite (filter_cons_False _ (User.Build_Token t)) by (simpl; tauto).
  rewrite filter_nil, app_nil_r. induction ts as [|x ts IH]; [done |].
  apply not_elem_of_cons in Hfresh as [Hx Hts].
  rewrite filter_cons_True; [by rewrite IH |].
  intros Heq. apply Hx. destruct x; simpl in *. by subst.
Qed.

Lemma replaced_replaced (u u1 u2 : User.t) (db : list User.t) :
  User._id u1 = User._id u →
  replaced u1 u2 (replaced u u1 db) = replaced u u2 db.
Proof.
  intros Hid. unfold replaced. rewrite <- list_fmap_compose.
  apply list_fmap_ext. intros i v _. simpl. rewrite Hid.
  destruct (decide (User._id v = User._id u)) as [Hv|Hv].
  - rewrite !(bool_decide_eq_true_2 (User._id v = User._id u)) by done.
    by rewrite ?bool_decide_eq_true_2.
  - rewrite !(bool_decide_eq_false_2 (User._id v = User._id u)) by done.
    by rewrite ?bool_decide_eq_false_2.
Qed.

Lemma persist_set_password (u : User.t) (p : string) :
  p ≠ User.password u →
  User.persist env u (User.set_password u p) = password_changed env u p.
Proof.
  intros Hp. unfold User.persist, password_changed. simpl.
  rewrite (bool_decide_eq_false_2 (p = User.password u)) by done.
  rewrite (bool_decide_eq_true_2 (User.tokens u = User.tokens u)) by done.
  rewrite bool_decide_eq_false_2; [by destruct u |].
  intros Heq. apply (f_equal User.password) in Heq. by destruct u.
Qed.

End RoundTrips.

(** X5. Login followed by logout with the token just issued gives the
    user back the token set held before the login, provided the token was
    not in it already; nothing else of the user has changed but
    [updatedAt], which is the time of the last save, and the version key
    [__v], which is two higher, once for each save that replaced the tokens
    array; the other users are untouched. *)
Theorem login_then_logout_restores_tokens
    (env : Env) (req : Client) (creds : Auth.Credentials) (st : Store)
    (name pw : string) (u : User.t) :
  Auth.username creds = Some name → Auth.password creds = Some pw →
  name ≠ "" → pw ≠ "" →
  NoDup (User._id <$> users st) →
  User.findByCredentials env name pw (users st) = Ok u →
  User.Build_Token (jwt_sign env (User._id u)) ∉ User.tokens u →
  let st1 := (Auth.login env req creds st).2 in
  let st2 := (Auth.logout env req (logged_in env u) (jwt_sign env (User._id u)) st1).2 in
  users st2
  = replaced u (User.set_updatedAt (User.set_version u (User.__v u + 2)) (Date_now env))
      (users st)
  ∧ ∀ v, v ∈ users st2 → User._id v = User._id u →
         User.tokens v = User.tokens u ∧ User.__v v = (User.__v u + 2)%Z.
Proof.
  intros Hn Hp Hne Hpe Hnd Hok Hfresh st1 st2. subst st1 st2.
  pose proof (findByCredentials_inv env name pw _ u Hok) as (Hfind & _).
  apply findOne_Some in Hfind as [Hin _].
  assert (Hst1 : users (Auth.login env req creds st).2
                 = replaced u (logged_in env u) (users st)).
  { rewrite (login_present env req creds st) by (rewrite ?Hn, ?Hp; by apply truthy_Some).
    rewrite Hn, Hp. simpl str. rewrite Hok.
    by rewrite (generateAuthToken_stored env u (users st) Hnd Hin). }
  assert (Hout : logged_out env (logged_in env u) (jwt_sign env (User._id u))
                 = User.set_updatedAt (User.set_version u (User.__v u + 2))
                     (Date_now env)).
  { unfold logged_out, logged_in. simpl.
    rewrite (filter_fresh_token _ _ Hfresh).
    replace (User.__v u + 1 + 1)%Z with (User.__v u + 2)%Z by lia.
    by destruct u. }
  assert (Husers :
    users (Auth.logout env req (logged_in env u) (jwt_sign env (User._id u))
             (Auth.login env req creds st).2).2
    = replaced u (User.set_updatedAt (User.set_version u (User.__v u + 2))
                    (Date_now env)) (users st)).
  { rewrite (logout_store env req (logged_in env u) (jwt_sign env (User._id u))).
    - rewrite Hst1, Hout.
      exact (replaced_replaced u (logged_in env u)
               (User.set_updatedAt (User.set_version u (User.__v u + 2))
                  (Date_now env)) (users st) eq_refl).
    - rewrite Hst1, replaced_ids; done.
    - rewrite Hst1. by apply replaced_elem.
    - simpl. apply elem_of_app. right. by apply list_elem_of_singleton. }
  split; [done |].
  intros v Hv Hid. rewrite Husers in Hv.
  apply list_elem_of_fmap in Hv as (w & -> & Hw).
  case_bool_decide; [done | congruence].
Qed.

Lemma login_then_logout_restores_tokens_witness :
  let st1 := (Auth.login Sample.env Sample.client (Sample.creds "alice" "s3cret")
                         Sample.store).2 in
  users (Auth.logout Sample.env Sample.client (logged_in Sample.env Sample.alice)
                     "jwt.u1" st1).2
  = replaced Sample.alice
      (User.set_updatedAt (User.set_version Sample.alice 2) 1000)
      (users Sample.store).
Proof.
  assert (Hnd : NoDup (User._id <$> users Sample.store)).
  { vm_compute. apply NoDup_cons. split.
    - intros H. apply list_elem_of_singleton in H. discriminate.
    - apply NoDup_singleton. }
  assert (Hfresh : User.Build_Token (jwt_sign Sample.env (User._id Sample.alice))
                   ∉ User.tokens Sample.alice).
  { vm_compute. intros H.
    apply elem_of_cons in H as [H|H]; [discriminate |].
    apply list_elem_of_singleton in H. discriminate. }
  destruct (login_then_logout_restores_tokens Sample.env Sample.client
              (Sample.creds "alice" "s3cret") Sample.store "alice" "s3cret"
              Sample.alice eq_refl eq_refl) as (H1 & _);
    [discriminate | discriminate | exact Hnd | reflexivity | exact Hfresh |].
  exact H1.
Defined.

Section PasswordChange.

Context (env : Env) (req : Client).

(** The users after a verified change of password, whether or not the
    audit entry could be written. *)
Lemma changePassword_users (reqUser : User.t) (change : Auth.PasswordChange)
    (st : Store) (user : User.t) :
  NoDup (User._id <$> users st) →
  User.findByCredentials env (User.username reqUser)
    (Auth.currentPassword change) (users st) = Ok user →
  Auth.newPassword change ≠ "" →
  Auth.newPassword change ≠ User.password user →
  users (Auth.changePassword env req reqUser change st).2
  = replaced user (password_changed env user (Auth.newPassword change)) (users st).
Proof.
  intros Hnd Hok Hne Hnew.
  pose proof (findByCredentials_inv env _ _ _ user Hok) as (Hfind & _).
  apply findOne_Some in Hfind as [Hin _].
  unfold Auth.changePassword. rewrite Hok. simpl.
  rewrite bool_decide_eq_false_2 by done.
  rewrite (save_replaces env user _ (users st) Hnd Hin) by done.
  rewrite persist_set_password by done.
  by destruct (ActivityLog_write env _ (activityLogs st)).
Qed.

End PasswordChange.

(** X6. In a store with distinct identifiers, a change of password whose
    current password is verified, with a new password that is not empty
    and not the stored value, stores the hash of the new password and a
    fresh [updatedAt] for that user and touches nothing else: the tokens of
    the user stay, so the sessions that were open remain open.  This holds
    whether or not the audit entry could be written. *)
Theorem changePassword_effect
    (env : Env) (req : Client) (reqUser : User.t) (change : Auth.PasswordChange)
    (st : Store) (user : User.t) :
  NoDup (User._id <$> users st) →
  User.findByCredentials env (User.username reqUser)
    (Auth.currentPassword change) (users st) = Ok user →
  Auth.newPassword change ≠ "" →
  Auth.newPassword change ≠ User.password user →
  let st' := (Auth.changePassword env req reqUser change st).2 in
  let user' := password_changed env user (Auth.newPassword change) in
  users st' = replaced user user' (users st)
  ∧ user' ∈ users st'
  ∧ User.password user' = bcrypt_hash env (Auth.newPassword change)
  ∧ User.tokens user' = User.tokens user
  ∧ (∀ t, live_token t (User._id user) (users st) →
          live_token t (User._id user) (users st')).
Proof.
  intros Hnd Hok Hne Hnew st' user'. subst st' user'.
  rewrite (changePassword_users env req reqUser change st user) by done.
  pose proof (findByCredentials_inv env _ _ _ user Hok) as (Hfind & _).
  apply findOne_Some in Hfind as [Hin _].
  split; [done |]. split; [by apply replaced_elem |].
  split; [done |]. split; [done |].
  intros t (v & Hv & Hid & Ht).
  pose proof (find_by_id (users st) v Hnd Hv) as Hfv.
  pose proof (find_by_id (users st) user Hnd Hin) as Hfu.
  rewrite Hid in Hfv. rewrite Hfu in Hfv. injection Hfv as ->.
  exists (password_changed env v (Auth.newPassword change)).
  split; [by apply replaced_elem |]. done.
Qed.

Lemma changePassword_effect_witness :
  let change := {| Auth.currentPassword := "s3cret"; Auth.newPassword := "n3w" |} in
  let st' := (Auth.changePassword Sample.env Sample.client Sample.alice change
                                  Sample.store).2 in
  users st' = replaced Sample.alice (password_changed Sample.env Sample.alice "n3w")
                (users Sample.store)
  ∧ User.password (password_changed Sample.env Sample.alice "n3w") = "$2a$n3w"
  ∧ User.tokens (password_changed Sample.env Sample.alice "n3w")
    = User.tokens Sample.alice.
Proof.
  assert (Hnd : NoDup (User._id <$> users Sample.store)).
  { vm_compute. apply NoDup_cons. split.
    - intros H. apply list_elem_of_singleton in H. discriminate.
    - apply NoDup_singleton. }
  destruct (changePassword_effect Sample.env Sample.client Sample.alice
              {| Auth.currentPassword := "s3cret"; Auth.newPassword := "n3w" |}
              Sample.store Sample.alice Hnd eq_refl) as (H1 & _ & H3 & H4 & _);
    [discriminate | discriminate |].
  exact (conj H1 (conj H3 H4)).
Defined.

(** X7. After such a change of password, and with a hash function whose
    hashes the comparison accepts, [findByCredentials] with the new
    password returns the user as stored. *)
Theorem changePassword_then_new_password_accepted
    (env : Env) (req : Client) (reqUser : User.t) (change : Auth.PasswordChange)
    (st : Store) (user : User.t) :
  NoDup (User._id <$> users st) →
  User.findByCredentials env (User.username reqUser)
    (Auth.currentPassword change) (users st) = Ok user →
  Auth.newPassword change ≠ "" →
  Auth.newPassword change ≠ User.password user →
  bcrypt_compare env (Auth.newPassword change)
                 (bcrypt_hash env (Auth.newPassword change)) = Some true →
  User.findByCredentials env (User.username reqUser) (Auth.newPassword change)
    (users (Auth.changePassword env req reqUser change st).2)
  = Ok (password_changed env user (Auth.newPassword change)).
Proof.
  intros Hnd Hok Hne Hnew Hcmp.
  rewrite (changePassword_users env req reqUser change st user) by done.
  pose proof (findByCredentials_inv env _ _ _ user Hok) as (Hfind & Hact & _).
  rewrite (findByCredentials_found env _ _ _
             (password_changed env user (Auth.newPassword change))).
  - simpl. by rewrite Hcmp.
  - by apply findOne_replaced.
  - done.
Qed.

Lemma changePassword_then_new_password_accepted_witness :
  let change := {| Auth.currentPassword := "s3cret"; Auth.newPassword := "n3w" |} in
  User.findByCredentials Sample.env "alice" "n3w"
    (users (Auth.changePassword Sample.env Sample.client Sample.alice change
                                Sample.store).2)
  = Ok (password_changed Sample.env Sample.alice "n3w").
Proof.
  assert (Hnd : NoDup (User._id <$> users Sample.store)).
  { vm_compute. apply NoDup_cons. split.
    - intros H. apply list_elem_of_singleton in H. discriminate.
    - apply NoDup_singleton. }
  apply (changePassword_then_new_password_accepted Sample.env Sample.client
           Sample.alice
           {| Auth.currentPassword := "s3cret"; Auth.newPassword := "n3w" |}
           Sample.store Sample.alice Hnd eq_refl);
    [discriminate | discriminate | reflexivity].
Defined.

(** A change of password whose current password is not verified is
    answered 400 'Password change failed' with the message of the error,
    and leaves the whole store as it was: no user is changed and no audit
    entry is written. *)
Theorem changePassword_unverified_changes_nothing
    (env : Env) (req : Client) (reqUser : User.t) (change : Auth.PasswordChange)
    (st : Store) (e : Exn) :
  User.findByCredentials env (User.username reqUser)
    (Auth.currentPassword change) (users st) = Throw e →
  Auth.changePassword env req reqUser change st
  = (status_send 400 (SendErrorMessageOf "Password change failed" e), st).
Proof. intros H. unfold Auth.changePassword. by rewrite H. Qed.

Lemma changePassword_unverified_changes_nothing_witness :
  Auth.changePassword Sample.env Sample.client Sample.alice
    {| Auth.currentPassword := "guess"; Auth.newPassword := "n3w" |} Sample.store
  = (status_send 400
       (SendErrorMessageOf "Password change failed"
          (Error "Invalid username or password")),
     Sample.store).
Proof.
  apply (changePassword_unverified_changes_nothing Sample.env Sample.client
           Sample.alice
           {| Auth.currentPassword := "guess"; Auth.newPassword := "n3w" |}
           Sample.store (Error "Invalid username or password")).
  reflexivity.
Defined.

Section Registration.

Context (env : Env) (req : Client).

(** What a successful creation has checked and built. *)
Lemma create_inv (f : User.Fields) (db : list User.t) (user : User.t)
    (db' : list User.t) :
  User.create env f db = Ok (user, db') →
  ∃ un pw em fn r,
    User.new_username f = Some un ∧ User.new_password f = Some pw
    ∧ User.new_email f = Some em ∧ User.new_fullName f = Some fn
    ∧ (User.new_role f ≫= User.Role_of_string) = Some r
    ∧ un ≠ "" ∧ pw ≠ "" ∧ em ≠ "" ∧ fn ≠ ""
    ∧ Forall (λ v, User._id v ≠ default (new_ObjectId env) (User.new__id f)
                   ∧ User.username v ≠ un ∧ User.email v ≠ em) db
    ∧ db' = db ++ [user]
    ∧ user = {| User._id := default (new_ObjectId env) (User.new__id f);
                User.username := un;
                User.password := bcrypt_hash env pw; User.email := em;
                User.fullName := fn; User.role := r;
                User.assignedBase := User.new_assignedBase f;
                User.active := default true (User.new_active f);
                User.tokens := default [] (User.new_tokens f);
                User.lastLogin := User.new_lastLogin f;
                User.createdAt := default (Date_now env) (User.new_createdAt f);
                User.updatedAt := default (Date_now env) (User.new_createdAt f);
                User.__v := 0 |}.
Proof.
  unfold User.create.
  destruct (User.new_username f) as [un|]; [| done].
  destruct (User.new_password f) as [pw|]; [| done].
  destruct (User.new_email f) as [em|]; [| done].
  destruct (User.new_fullName f) as [fn|]; [| done].
  destruct (User.new_role f ≫= User.Role_of_string) as [r|]; [| done].
  destruct (bool_decide (un = "")) eqn:H1; [done |].
  destruct (bool_decide (pw = "")) eqn:H2; [done |].
  destruct (bool_decide (em = "")) eqn:H3; [done |].
  destruct (bool_decide (fn = "")) eqn:H4; [done |].
  simpl.
  destruct (bool_decide (Exists _ db)) eqn:Hex; [done |].
  intros Heq. injection Heq as <- <-.
  apply bool_decide_eq_false in H1, H2, H3, H4, Hex.
  exists un, pw, em, fn, r. repeat split; try done.
  apply Forall_forall. intros v Hv.
  repeat split; intros Heq; apply Hex; apply Exists_exists; exists v; auto.
Qed.

(** The users after a registration: those after the creation, whether
    or not the audit entry could be written; unchanged when the creation
    is rejected. *)
Lemma register_users (reqUser : User.t) (f : User.Fields) (st : Store) :
  users (Auth.register env req reqUser f st).2
  = match User.create env f (users st) with
    | Ok (_, users') => users'
    | Throw _ => users st
    end.
Proof.
  unfold Auth.register.
  destruct (User.create env f (users st)) as [[user users']|e]; [| done].
  by destruct (ActivityLog_write env _ (activityLogs st)).
Qed.

Lemma findOne_snoc (name : string) (db : list User.t) (u : User.t) :
  Forall (λ v, User.username v ≠ name) db → User.username u = name →
  User.findOne name (db ++ [u]) = Some u.
Proof.
  intros Hall Hu. unfold User.findOne.
  induction Hall as [|v db Hv _ IH]; simpl.
  - by rewrite bool_decide_eq_true_2.
  - by rewrite bool_decide_eq_false_2.
Qed.

End Registration.

(** X8. Registration keeps usernames and e-mail addresses unique: if no
    two stored users share a username or an e-mail address before the
    request, none do after it, whatever the request and whether or not the
    audit entry could be written.  The stored users are those stored
    before, followed by at most one new user. *)
Theorem register_keeps_users_unique
    (env : Env) (req : Client) (reqUser : User.t) (f : User.Fields) (st : Store) :
  NoDup (User.username <$> users st) →
  NoDup (User.email <$> users st) →
  let st' := (Auth.register env req reqUser f st).2 in
  NoDup (User.username <$> users st')
  ∧ NoDup (User.email <$> users st')
  ∧ (users st' = users st ∨ ∃ user, users st' = users st ++ [user]).
Proof.
  intros Hun Hem st'. subst st'. rewrite register_users.
  destruct (User.create env f (users st)) as [[user users']|e] eqn:Hc; [| auto].
  apply create_inv in Hc as (un & pw & em & fn & r & _ & _ & _ & _ & _
                             & _ & _ & _ & _ & Hall & -> & ->).
  rewrite !fmap_app. simpl.
  split; [| split; [| eauto]].
  - apply NoDup_app. split; [done |]. split; [| apply NoDup_singleton].
    intros x Hx Hx'. apply list_elem_of_singleton in Hx' as ->.
    apply list_elem_of_fmap in Hx as (v & Hv & Hin).
    rewrite Forall_forall in Hall. destruct (Hall v Hin) as (_ & Hne & _). by apply Hne.
  - apply NoDup_app. split; [done |]. split; [| apply NoDup_singleton].
    intros x Hx Hx'. apply list_elem_of_singleton in Hx' as ->.
    apply list_elem_of_fmap in Hx as (v & Hv & Hin).
    rewrite Forall_forall in Hall. destruct (Hall v Hin) as (_ & _ & Hne). by apply Hne.
Qed.

(** X9. A user who has just been registered can present the registered
    password: when the creation succeeds, the account is not created
    inactive, and the comparison accepts the hashes of the hash function,
    [findByCredentials] with the registered username and password returns
    the new user, who is stored at version 0 with the hash of the
    password, and with the tokens and the last login that the body of the
    request carried: no tokens and no last login when the body has none,
    but the body's own otherwise, so that a registration can create an
    account with a session token already in place.  This holds whether or
    not the audit entry could be written. *)
Theorem register_then_credentials_accepted
    (env : Env) (req : Client) (reqUser : User.t) (f : User.Fields) (st : Store)
    (user : User.t) (users' : list User.t) (pw : string) :
  User.create env f (users st) = Ok (user, users') →
  User.new_password f = Some pw →
  User.new_active f ≠ Some false →
  bcrypt_compare env pw (bcrypt_hash env pw) = Some true →
  let st' := (Auth.register env req reqUser f st).2 in
  users st' = users st ++ [user]
  ∧ User.password user = bcrypt_hash env pw
  ∧ User.tokens user = default [] (User.new_tokens f)
  ∧ User.lastLogin user = User.new_lastLogin f
  ∧ User.__v user = 0%Z
  ∧ (∀ t, User.Build_Token t ∈ default [] (User.new_tokens f) →
          live_token t (User._id user) (users st'))
  ∧ User.findByCredentials env (User.username user) pw (users st') = Ok user.
Proof.
  intros Hc Hpw Hact Hcmp st'. subst st'. rewrite register_users, Hc.
  apply create_inv in Hc as (un & pw' & em & fn & r & _ & Hpw' & _ & _ & _
                             & _ & _ & _ & _ & Hall & -> & ->).
  rewrite Hpw in Hpw'. injection Hpw' as <-.
  set (user := {| User._id := default (new_ObjectId env) (User.new__id f);
                  User.username := un;
                  User.password := bcrypt_hash env pw; User.email := em;
                  User.fullName := fn; User.role := r;
                  User.assignedBase := User.new_assignedBase f;
                  User.active := default true (User.new_active f);
                  User.tokens := default [] (User.new_tokens f);
                  User.lastLogin := User.new_lastLogin f;
                  User.createdAt := default (Date_now env) (User.new_createdAt f);
                  User.updatedAt := default (Date_now env) (User.new_createdAt f);
                  User.__v := 0 |}).
  split; [done |]. split; [done |]. split; [done |]. split; [done |].
  split; [done |]. split.
  - intros t Ht. exists user. split; [| done].
    apply elem_of_app. right. by apply list_elem_of_singleton.
  - rewrite (findByCredentials_found env un pw _ user).
    + simpl. by rewrite Hcmp.
    + apply findOne_snoc; [| done].
      eapply Forall_impl; [exact Hall |]. by intros v (_ & Hv & _).
    + simpl. destruct (User.new_active f) as [[]|]; done.
Qed.

Lemma register_keeps_users_unique_witness :
  NoDup (User.username <$>
           users (Auth.register Sample.env Sample.client Sample.bob
                                SampleDetail.dave Sample.store).2)
  ∧ NoDup (User.email <$>
             users (Auth.register Sample.env Sample.client Sample.bob
                                  SampleDetail.dave Sample.store).2).
Proof.
  assert (H2 : ∀ a b : string, a ≠ b → NoDup [a; b]).
  { intros a b Hab. apply NoDup_cons. split; [| apply NoDup_singleton].
    intros H. by apply list_elem_of_singleton in H. }
  destruct (register_keeps_users_unique Sample.env Sample.client Sample.bob
              SampleDetail.dave Sample.store) as (Hu & He & _).
  - apply H2. discriminate.
  - apply H2. discriminate.
  - exact (conj Hu He).
Defined.

Lemma register_then_credentials_accepted_witness :
  let st' := (Auth.register Sample.env Sample.client Sample.bob
                            SampleDetail.erin Sample.store).2 in
  users st' = users Sample.store ++ [SampleDetail.erin_stored]
  ∧ User.tokens SampleDetail.erin_stored = [User.Build_Token "t9"]
  ∧ live_token "t9" "u7" (users st')
  ∧ User.findByCredentials Sample.env "erin" "pa55" (users st')
    = Ok SampleDetail.erin_stored.
Proof.
  destruct (register_then_credentials_accepted Sample.env Sample.client Sample.bob
              SampleDetail.erin Sample.store SampleDetail.erin_stored
              (users Sample.store ++ [SampleDetail.erin_stored]) "pa55"
              eq_refl eq_refl) as (H1 & _ & H3 & _ & _ & H6 & H7);
    [discriminate | reflexivity |].
  split; [exact H1 |]. split; [exact H3 |]. split; [| exact H7].
  apply (H6 "t9"). apply list_elem_of_singleton. reflexivity.
Defined.

Example register_duplicate_username :
  Auth.register Sample.env Sample.client Sample.bob
    {| User.new__id := None;
       User.new_username := Some "alice"; User.new_password := Some "x";
       User.new_email := Some "other@mms.mil"; User.new_fullName := Some "A";
       User.new_role := Some "Admin"; User.new_assignedBase := None;
       User.new_active := None; User.new_tokens := None;
       User.new_lastLogin := None; User.new_createdAt := None |} Sample.store
  = (status_send 400 (SendErrorOf DuplicateKey), Sample.store).
Proof. reflexivity. Qed.

(** * Further properties of the dashboard *)

(** The sums over a list are those over its listed and its unlisted assets. *)
Lemma total_listed (f : Asset.t → Z) (S : list Asset.t) :
  total f S = (total f (listed S) + total f (unlisted S))%Z.
Proof. apply (total_filter f (λ a, inherited (Asset.type a))). Qed.

(** X10. The groups add up to the summary less the assets that have no
    group: for every list S of matched assets whose opening balances,
    closing balances, assigned and available quantities each have
    magnitudes that sum to at most 2^53, the openingBalance, closingBalance,
    assigned and available of the groups sent as assetsByType, together
    with those of the assets of S whose type names an inherited property,
    sum to totalOpeningBalance, totalClosingBalance, totalAssigned and
    totalAvailable of the summary.  When S has no such asset, the groups
    alone sum to the totals of the summary. *)
Theorem groups_add_up_to_summary (S : list Asset.t) :
  (magnitude Asset.openingBalance S ≤ 2 ^ 53)%Z →
  (magnitude Asset.closingBalance S ≤ 2 ^ 53)%Z →
  (magnitude Asset.assigned S ≤ 2 ^ 53)%Z →
  (magnitude Asset.available S ≤ 2 ^ 53)%Z →
  let groups := Dashboard.Object_values (Dashboard.groupByType S) in
  let summary := Dashboard.summarise S in
  (total Group.openingBalance groups + total Asset.openingBalance (unlisted S))%Z
  = Summary.totalOpeningBalance summary
  ∧ (total Group.closingBalance groups + total Asset.closingBalance (unlisted S))%Z
    = Summary.totalClosingBalance summary
  ∧ (total Group.assigned groups + total Asset.assigned (unlisted S))%Z
    = Summary.totalAssigned summary
  ∧ (total Group.available groups + total Asset.available (unlisted S))%Z
    = Summary.totalAvailable summary
  ∧ (unlisted S = [] →
     total Group.openingBalance groups = Summary.totalOpeningBalance summary
     ∧ total Group.closingBalance groups = Summary.totalClosingBalance summary
     ∧ total Group.assigned groups = Summary.totalAssigned summary
     ∧ total Group.available groups = Summary.totalAvailable summary).
Proof.
  intros Ho Hc Has Hav groups summary. subst groups summary.
  destruct (summarise_totals S) as (_ & Hso & Hsc & Hsas & Hsav).
  rewrite (Hso Ho), (Hsc Hc), (Hsas Has), (Hsav Hav).
  rewrite (summed_groupByType Group.openingBalance Asset.openingBalance) by done.
  rewrite (summed_groupByType Group.closingBalance Asset.closingBalance) by done.
  rewrite (summed_groupByType Group.assigned Asset.assigned) by done.
  rewrite (summed_groupByType Group.available Asset.available) by done.
  pose proof (total_listed Asset.openingBalance S) as H1.
  pose proof (total_listed Asset.closingBalance S) as H2.
  pose proof (total_listed Asset.assigned S) as H3.
  pose proof (total_listed Asset.available S) as H4.
  split; [lia |]. split; [lia |]. split; [lia |]. split; [lia |].
  intros Hnone. rewrite Hnone in H1, H2, H3, H4.
  change (total _ []) with 0%Z in H1, H2, H3, H4.
  repeat split; lia.
Qed.

Lemma groups_add_up_to_summary_witness :
  let S := [Sample.vehicle; Sample.oddity; Sample.weapon] in
  let groups := Dashboard.Object_values (Dashboard.groupByType S) in
  (total Group.openingBalance groups + 1)%Z
  = Summary.totalOpeningBalance (Dashboard.summarise S)
  ∧ (total Group.available groups + 1)%Z
    = Summary.totalAvailable (Dashboard.summarise S).
Proof.
  destruct (groups_add_up_to_summary [Sample.vehicle; Sample.oddity; Sample.weapon])
    as (H1 & _ & _ & H4 & _);
    [vm_compute; discriminate | vm_compute; discriminate
    | vm_compute; discriminate | vm_compute; discriminate |].
  exact (conj H1 H4).
Defined.

Section TopRecords.

Context {A : Type} (key : A → Z).

Lemma limit_sort_most_recent (n : nat) (l : list A) :
  most_recent key n (limit n (sort_desc key l)) l.
Proof.
  split.
  - unfold limit, sort_desc. rewrite length_take.
    by rewrite (Permutation_length (merge_sort_Permutation (desc key) l)).
  - exists (drop n (sort_desc key l)). split.
    + unfold limit. rewrite take_drop. unfold sort_desc.
      by rewrite merge_sort_Permutation.
    + intros x y Hx Hy. by apply (limit_most_recent key n l).
Qed.

End TopRecords.

(** X11. Each recent list of the dashboard is made of the five most
    recent records its filter matches: it holds all the matching records
    when there are fewer than five, exactly five otherwise, and no
    matching record left out is more recent (by createdAt for transfers,
    purchaseDate, startDate and expenditureDate for the others) than one
    that is listed. *)
Theorem dashboard_lists_most_recent
    (env : Env) (user : User.t) (query : Dashboard.Query) (db : Collections)
    (data : Dashboard.Data) :
  Dashboard.dashboard env user query db = Dashboard.Send data →
  let bm := Dashboard.baseTypeMatch env user query in
  let tm := Dashboard.transferMatch env user query in
  most_recent Transfer.createdAt 5 (Dashboard.recentTransfers data)
    (select (Filter.transfer_matches tm) (transfers db))
  ∧ most_recent Purchase.purchaseDate 5 (Dashboard.recentPurchases data)
      (select (λ d, Filter.matches bm (Purchase.createdAt d) (Purchase.base d)
                      (Purchase.assetType d)) (purchases db))
  ∧ most_recent Assignment.startDate 5 (Dashboard.recentAssignments data)
      (select (λ d, Filter.matches bm (Assignment.createdAt d) (Assignment.base d)
                      (Assignment.assetType d)) (assignments db))
  ∧ most_recent Expenditure.expenditureDate 5 (Dashboard.recentExpenditures data)
      (select (λ d, Filter.matches bm (Expenditure.createdAt d) (Expenditure.base d)
                      (Expenditure.assetType d)) (expenditures db)).
Proof.
  intros H bm tm.
  apply dashboard_Send_recent in H as (-> & -> & -> & ->).
  repeat split; apply limit_sort_most_recent.
Qed.

Lemma dashboard_lists_most_recent_witness :
  ∃ data,
    Dashboard.dashboard Sample.env Sample.bob Sample.no_filter Sample.db
    = Dashboard.Send data
    ∧ most_recent Transfer.createdAt 5 (Dashboard.recentTransfers data)
        (select (Filter.transfer_matches
                   (Dashboard.transferMatch Sample.env Sample.bob Sample.no_filter))
                (transfers Sample.db)).
Proof.
  eexists. split; [vm_compute; reflexivity |].
  refine (let H := dashboard_lists_most_recent Sample.env Sample.bob
                     Sample.no_filter Sample.db _ eq_refl in _).
  destruct H as (H1 & _). exact H1.
Defined.

(** X12. The assetType of a request filters the assets, the purchases,
    the assignments and the expenditures, but not the transfers: every
    asset counted and every recent purchase, assignment and expenditure is
    of the requested type, while two requests that differ only in their
    assetType get the same recent transfers. *)
Theorem assetType_does_not_filter_transfers
    (env : Env) (user : User.t) (q q' : Dashboard.Query) (db : Collections)
    (data data' : Dashboard.Data) (t : string) :
  Dashboard.dashboard env user q db = Dashboard.Send data →
  Dashboard.dashboard env user q' db = Dashboard.Send data' →
  Dashboard.assetType q = Some t → t ≠ "" →
  Dashboard.base q' = Dashboard.base q →
  Dashboard.startDate q' = Dashboard.startDate q →
  Dashboard.endDate q' = Dashboard.endDate q →
  Forall (λ a, Asset.type a = t) (Dashboard.matchedAssets user q db)
  ∧ Forall (λ d, Purchase.assetType d = t) (Dashboard.recentPurchases data)
  ∧ Forall (λ d, Assignment.assetType d = t) (Dashboard.recentAssignments data)
  ∧ Forall (λ d, Expenditure.assetType d = t) (Dashboard.recentExpenditures data)
  ∧ Dashboard.recentTransfers data' = Dashboard.recentTransfers data.
Proof.
  intros H H' Ht Hne Hb Hs He.
  apply dashboard_Send_recent in H as (Et & -> & -> & ->).
  apply dashboard_Send_recent in H' as (Et' & _).
  assert (Htm : Dashboard.transferMatch env user q' = Dashboard.transferMatch env user q).
  { unfold Dashboard.transferMatch, Dashboard.dateMatch, Dashboard.recentBase.
    by rewrite Hb, Hs, He. }
  split; [| split; [| split; [| split; [| by rewrite Et, Et', Htm]]]].
  - apply Forall_forall. intros a Ha.
    apply list_elem_of_In, List.filter_In in Ha as [_ Ha].
    unfold Filter.asset_matches, Dashboard.assetMatch in Ha. simpl in Ha.
    rewrite Ht, truthy_Some in Ha by done.
    apply andb_true_iff in Ha as [_ Ha]. by apply bool_decide_eq_true in Ha.
  - apply recent_Forall. intros x Hx. unfold Filter.matches in Hx.
    simpl in Hx. rewrite Ht, truthy_Some in Hx by done.
    apply andb_true_iff in Hx as [_ Hx]. by apply bool_decide_eq_true in Hx.
  - apply recent_Forall. intros x Hx. unfold Filter.matches in Hx.
    simpl in Hx. rewrite Ht, truthy_Some in Hx by done.
    apply andb_true_iff in Hx as [_ Hx]. by apply bool_decide_eq_true in Hx.
  - apply recent_Forall. intros x Hx. unfold Filter.matches in Hx.
    simpl in Hx. rewrite Ht, truthy_Some in Hx by done.
    apply andb_true_iff in Hx as [_ Hx]. by apply bool_decide_eq_true in Hx.
Qed.

Lemma assetType_does_not_filter_transfers_witness :
  let q := {| Dashboard.base := None; Dashboard.assetType := Some "Weapon";
              Dashboard.startDate := None; Dashboard.endDate := None |} in
  ∃ data data',
    Dashboard.dashboard Sample.env Sample.bob q Sample.db = Dashboard.Send data
    ∧ Dashboard.dashboard Sample.env Sample.bob Sample.no_filter Sample.db
      = Dashboard.Send data'
    ∧ Forall (λ d, Purchase.assetType d = "Weapon") (Dashboard.recentPurchases data)
    ∧ Dashboard.recentTransfers data' = Dashboard.recentTransfers data.
Proof.
  eexists; eexists.
  split; [vm_compute; reflexivity |]. split; [vm_compute; reflexivity |].
  refine (let H := assetType_does_not_filter_transfers Sample.env Sample.bob
                     {| Dashboard.base := None; Dashboard.assetType := Some "Weapon";
                        Dashboard.startDate := None; Dashboard.endDate := None |}
                     Sample.no_filter Sample.db _ _ "Weapon"
                     eq_refl eq_refl eq_refl _ eq_refl eq_refl eq_refl in _).
  destruct H as (_ & H2 & _ & _ & H5). exact (conj H2 H5).
  Unshelve. discriminate.
Defined.

Section BaseRoute.

Import Dashboard.

Lemma select_ext {A} (p p' : A → bool) (l : list A) :
  (∀ x, p x = p' x) → select p l = select p' l.
Proof. intros H. unfold select. by apply List.filter_ext. Qed.

Lemma select_elem {A} (p : A → bool) (l : list A) (x : A) :
  x ∈ select p l ↔ x ∈ l ∧ p x = true.
Proof. unfold select. by rewrite !list_elem_of_In, List.filter_In. Qed.

(** What the route sends when it does not refuse. *)
Lemma dashboardBase_allowed (user : User.t) (B : string) (db : Collections) :
  User.role user ≠ User.BaseCommander ∨ User.assignedBase user = Some B →
  ∃ data, dashboardBase user B db = SendBase B data
          ∧ scoped_to (Some B) db data.
Proof.
  intros Hallowed. unfold dashboardBase.
  assert (Hgo : bool_decide (User.role user = User.BaseCommander)
                && negb (bool_decide (User.assignedBase user = Some B)) = false).
  { destruct Hallowed as [Hr|Ha].
    - by rewrite (bool_decide_eq_false_2 _ Hr).
    - rewrite (bool_decide_eq_true_2 _ Ha). apply andb_false_r. }
  rewrite Hgo. eexists. split; [done |].
  split; [| repeat split].
  - exists (select (λ a, bool_decide (Asset.base a = Some B)) (assets db)).
    split; [| split; [| done]].
    + intros a Ha. by apply select_elem in Ha as [Ha _].
    + apply Forall_forall. intros a Ha. apply select_elem in Ha as [_ Ha].
      by apply bool_decide_eq_true in Ha.
  - apply recent_Forall. intros x Hx.
    apply orb_true_iff in Hx as [Hx|Hx]; apply bool_decide_eq_true in Hx; tauto.
  - apply recent_Forall. intros x Hx. by apply bool_decide_eq_true in Hx.
  - apply recent_Forall. intros x Hx. by apply bool_decide_eq_true in Hx.
  - apply recent_Forall. intros x Hx. by apply bool_decide_eq_true in Hx.
Qed.

End BaseRoute.

(** X13. GET /api/dashboard/base/:base answers in one of two ways: 403
    'Not authorized to access this base' exactly when a BaseCommander asks
    for a base other than the assigned one, and otherwise the base with
    data scoped to it.  A BaseCommander therefore only ever receives data
    of the assigned base from this route. *)
Theorem dashboardBase_outcomes (user : User.t) (B : string) (db : Collections) :
  (User.role user = User.BaseCommander
   ∧ User.assignedBase user ≠ Some B
   ∧ Dashboard.dashboardBase user B db
     = Dashboard.BaseStatusSend 403 (Error "Not authorized to access this base"))
  ∨ ((User.role user = User.BaseCommander → User.assignedBase user = Some B)
     ∧ ∃ data, Dashboard.dashboardBase user B db = Dashboard.SendBase B data
               ∧ scoped_to (Some B) db data).
Proof.
  destruct (decide (User.role user = User.BaseCommander)) as [Hr|Hr].
  - destruct (decide (User.assignedBase user = Some B)) as [Ha|Ha].
    + right. split; [done |]. apply dashboardBase_allowed. by right.
    + left. split; [done |]. split; [done |].
      unfold Dashboard.dashboardBase.
      by rewrite (bool_decide_eq_true_2 _ Hr), (bool_decide_eq_false_2 _ Ha).
  - right. split; [done |]. apply dashboardBase_allowed. by left.
Qed.

(** X14. For a base B that is not the empty string and a user who is not
    a BaseCommander of another base, the per-base route and the main route
    asked for [?base=B] alone compute the same summary and groups and pick
    the same recent records. *)
Theorem dashboardBase_agrees_with_dashboard
    (env : Env) (user : User.t) (B : string) (db : Collections) :
  B ≠ "" →
  User.role user ≠ User.BaseCommander ∨ User.assignedBase user = Some B →
  ∃ data, Dashboard.dashboardBase user B db = Dashboard.SendBase B data
          ∧ Dashboard.dashboard env user (only_base B) db = Dashboard.Send data.
Proof.
  intros HB Hallowed.
  assert (Hgo : bool_decide (User.role user = User.BaseCommander)
                && negb (bool_decide (User.assignedBase user = Some B)) = false).
  { destruct Hallowed as [Hr|Ha].
    - by rewrite (bool_decide_eq_false_2 _ Hr).
    - rewrite (bool_decide_eq_true_2 _ Ha). apply andb_false_r. }
  assert (Hrecent : Dashboard.recentBase user (only_base B) = Some (Some B)).
  { unfold Dashboard.recentBase. simpl.
    by rewrite (bool_decide_eq_false_2 (B = "")). }
  assert (Hmatch : Filter.a_base (Dashboard.assetMatch user (only_base B))
                   = Some (Some B)).
  { unfold Dashboard.assetMatch. simpl.
    rewrite (bool_decide_eq_false_2 (B = "")) by done. simpl.
    destruct Hallowed as [Hr|Ha].
    - by rewrite (bool_decide_eq_false_2 _ Hr).
    - destruct (bool_decide (User.role user = User.BaseCommander));
        [by rewrite Ha | done]. }
  unfold Dashboard.dashboardBase. rewrite Hgo.
  eexists. split; [reflexivity |].
  rewrite dashboard_cases. simpl Filter.castable. cbv iota.
  unfold Dashboard.matchedAssets.
  rewrite (select_ext (Filter.asset_matches (Dashboard.assetMatch user (only_base B)))
             (λ a, bool_decide (Asset.base a = Some B))).
  2: { intros a. unfold Filter.asset_matches. rewrite Hmatch. simpl.
       apply andb_true_r. }
  rewrite (select_ext (Filter.transfer_matches
                         (Dashboard.transferMatch env user (only_base B)))
             (λ d, bool_decide (Transfer.fromBase d = Some B)
                   || bool_decide (Transfer.toBase d = Some B))).
  2: { intros d. unfold Filter.transfer_matches. simpl. by rewrite Hrecent. }
  rewrite (select_ext
             (λ d, Filter.matches (Dashboard.baseTypeMatch env user (only_base B))
                     (Purchase.createdAt d) (Purchase.base d) (Purchase.assetType d))
             (λ d, bool_decide (Purchase.base d = Some B))).
  2: { intros d. unfold Filter.matches. simpl. rewrite Hrecent. simpl.
       apply andb_true_r. }
  rewrite (select_ext
             (λ d, Filter.matches (Dashboard.baseTypeMatch env user (only_base B))
                     (Assignment.createdAt d) (Assignment.base d)
                     (Assignment.assetType d))
             (λ d, bool_decide (Assignment.base d = Some B))).
  2: { intros d. unfold Filter.matches. simpl. rewrite Hrecent. simpl.
       apply andb_true_r. }
  rewrite (select_ext
             (λ d, Filter.matches (Dashboard.baseTypeMatch env user (only_base B))
                     (Expenditure.createdAt d) (Expenditure.base d)
                     (Expenditure.assetType d))
             (λ d, bool_decide (Expenditure.base d = Some B))).
  2: { intros d. unfold Filter.matches. simpl. rewrite Hrecent. simpl.
       apply andb_true_r. }
  done.
Qed.

Lemma dashboardBase_agrees_with_dashboard_witness :
  ∃ data,
    Dashboard.dashboardBase Sample.alice "Base-A" Sample.db
    = Dashboard.SendBase "Base-A" data
    ∧ Dashboard.dashboard Sample.env Sample.alice (only_base "Base-A") Sample.db
      = Dashboard.Send data.
Proof.
  apply (dashboardBase_agrees_with_dashboard Sample.env Sample.alice "Base-A" Sample.db).
  - discriminate.
  - right. reflexivity.
Defined.

Example dashboardBase_other_base :
  Dashboard.dashboardBase Sample.alice "Base-B" Sample.db
  = Dashboard.BaseStatusSend 403 (Error "Not authorized to access this base").
Proof. reflexivity. Qed.

Section AssetDetail.

Import Detail.

Context (isObjectId : string → bool).

(** The replies of the route, case by case. *)
Lemma dashboardAsset_cases (user : User.t) (id : string) (db : Collections) :
  dashboardAsset isObjectId user id db =
    if negb (isObjectId id) then StatusSend 500 CastError
    else match assets db !! id with
         | None => StatusSend 404 (Error "Asset not found")
         | Some asset =>
             if bool_decide (User.role user = User.BaseCommander)
                && negb (bool_decide (User.assignedBase user = Asset.base asset))
             then StatusSend 403 (Error "Not authorized to access this asset")
             else
               Send {| the_asset := asset;
                       its_transfers := last10 Transfer.createdAt id (transfers db);
                       its_purchases := last10 Purchase.purchaseDate id (purchases db);
                       its_assignments :=
                         last10 Assignment.startDate id (assignments db);
                       its_expenditures :=
                         last10 Expenditure.expenditureDate id (expenditures db) |}
         end.
Proof. reflexivity. Qed.

(** A list of the detail holds the ten most recent records of the asset,
    newest first. *)
Lemma last10_spec {A} (key : A → Z) (id : string) (docs : list (Of A)) :
  Forall (λ r, asset r = id ∧ r ∈ docs) (last10 key id docs)
  ∧ StronglySorted (desc (key ∘ doc)) (last10 key id docs)
  ∧ most_recent (key ∘ doc) 10 (last10 key id docs)
      (select (λ r, bool_decide (asset r = id)) docs).
Proof.
  unfold last10. split; [| split].
  - apply Forall_forall. intros r Hr.
    apply recent_elem in Hr as [Hin Hr]. by apply bool_decide_eq_true in Hr.
  - apply limit_sorted, sort_desc_sorted.
  - apply limit_sort_most_recent.
Qed.

End AssetDetail.

(** X15. When GET /api/dashboard/asset/:id sends data, the asset sent is
    the stored asset with that identifier; if the user is a BaseCommander
    it is an asset of the assigned base; and each of the four lists holds
    the ten most recent records that reference this asset, newest first,
    and no record of another asset. *)
Theorem dashboardAsset_sends_own_asset
    (isObjectId : string → bool) (user : User.t) (id : string)
    (db : Detail.Collections) (data : Detail.Data) :
  Detail.dashboardAsset isObjectId user id db = Detail.Send data →
  isObjectId id = true
  ∧ Detail.assets db !! id = Some (Detail.the_asset data)
  ∧ (User.role user = User.BaseCommander →
     User.assignedBase user = Asset.base (Detail.the_asset data))
  ∧ (Forall (λ r, Detail.asset r = id ∧ r ∈ Detail.transfers db)
            (Detail.its_transfers data)
     ∧ StronglySorted (desc (Transfer.createdAt ∘ Detail.doc))
                      (Detail.its_transfers data)
     ∧ most_recent (Transfer.createdAt ∘ Detail.doc) 10 (Detail.its_transfers data)
         (select (λ r, bool_decide (Detail.asset r = id)) (Detail.transfers db)))
  ∧ (Forall (λ r, Detail.asset r = id ∧ r ∈ Detail.purchases db)
            (Detail.its_purchases data)
     ∧ StronglySorted (desc (Purchase.purchaseDate ∘ Detail.doc))
                      (Detail.its_purchases data)
     ∧ most_recent (Purchase.purchaseDate ∘ Detail.doc) 10 (Detail.its_purchases data)
         (select (λ r, bool_decide (Detail.asset r = id)) (Detail.purchases db)))
  ∧ (Forall (λ r, Detail.asset r = id ∧ r ∈ Detail.assignments db)
            (Detail.its_assignments data)
     ∧ StronglySorted (desc (Assignment.startDate ∘ Detail.doc))
                      (Detail.its_assignments data)
     ∧ most_recent (Assignment.startDate ∘ Detail.doc) 10
         (Detail.its_assignments data)
         (select (λ r, bool_decide (Detail.asset r = id)) (Detail.assignments db)))
  ∧ (Forall (λ r, Detail.asset r = id ∧ r ∈ Detail.expenditures db)
            (Detail.its_expenditures data)
     ∧ StronglySorted (desc (Expenditure.expenditureDate ∘ Detail.doc))
                      (Detail.its_expenditures data)
     ∧ most_recent (Expenditure.expenditureDate ∘ Detail.doc) 10
         (Detail.its_expenditures data)
         (select (λ r, bool_decide (Detail.asset r = id)) (Detail.expenditures db))).
Proof.
  rewrite dashboardAsset_cases.
  destruct (isObjectId id); [| done]. simpl negb. cbv iota.
  destruct (Detail.assets db !! id) as [a|]; [| done].
  destruct (bool_decide (User.role user = User.BaseCommander)) eqn:Hr;
    destruct (bool_decide (User.assignedBase user = Asset.base a)) eqn:Ha;
    simpl; try done; intros [= <-]; simpl;
    (split; [done |]); (split; [done |]);
    (split; [first [ by intros _; apply bool_decide_eq_true in Ha
                   | by intros Hrole; apply bool_decide_eq_false in Hr ] |]);
    repeat split; apply last10_spec.
Qed.

Lemma dashboardAsset_sends_own_asset_witness :
  ∃ data,
    Detail.dashboardAsset SampleDetail.isObjectId Sample.alice "a1" SampleDetail.db
    = Detail.Send data
    ∧ Detail.assets SampleDetail.db !! "a1" = Some (Detail.the_asset data)
    ∧ (User.role Sample.alice = User.BaseCommander →
       User.assignedBase Sample.alice = Asset.base (Detail.the_asset data)).
Proof.
  eexists. split; [vm_compute; reflexivity |].
  refine (let H := dashboardAsset_sends_own_asset SampleDetail.isObjectId
                     Sample.alice "a1" SampleDetail.db _ eq_refl in _).
  destruct H as (_ & H2 & H3 & _). exact (conj H2 H3).
Defined.

(** X16. GET /api/dashboard/asset/:id sends no data in three cases: 500
    when the identifier cannot be cast, 404 'Asset not found' when no asset
    has it, and 403 'Not authorized to access this asset' when a
    BaseCommander asks for an asset of a base other than the assigned one;
    in every other case it sends data. *)
Theorem dashboardAsset_refusals
    (isObjectId : string → bool) (user : User.t) (id : string)
    (db : Detail.Collections) :
  let reply := Detail.dashboardAsset isObjectId user id db in
  (isObjectId id = false ∧ reply = Detail.StatusSend 500 CastError)
  ∨ (isObjectId id = true ∧ Detail.assets db !! id = None
     ∧ reply = Detail.StatusSend 404 (Error "Asset not found"))
  ∨ (∃ a, isObjectId id = true ∧ Detail.assets db !! id = Some a
          ∧ User.role user = User.BaseCommander
          ∧ User.assignedBase user ≠ Asset.base a
          ∧ reply = Detail.StatusSend 403 (Error "Not authorized to access this asset"))
  ∨ (∃ a data, isObjectId id = true ∧ Detail.assets db !! id = Some a
               ∧ (User.role user = User.BaseCommander →
                  User.assignedBase user = Asset.base a)
               ∧ reply = Detail.Send data).
Proof.
  intros reply. subst reply. rewrite dashboardAsset_cases.
  destruct (isObjectId id); [| by left]. right. simpl negb. cbv iota.
  destruct (Detail.assets db !! id) as [a|]; [| by left]. right.
  destruct (decide (User.role user = User.BaseCommander)) as [Hr|Hr];
    [destruct (decide (User.assignedBase user = Asset.base a)) as [Ha|Ha] |].
  - right. rewrite (bool_decide_eq_true_2 _ Hr), (bool_decide_eq_true_2 _ Ha).
    simpl. eauto 10.
  - left. rewrite (bool_decide_eq_true_2 _ Hr), (bool_decide_eq_false_2 _ Ha).
    simpl. eauto 10.
  - right. rewrite (bool_decide_eq_false_2 _ Hr). simpl.
    eexists a, _. repeat split; done.
Qed.

Example dashboardAsset_other_base :
  Detail.dashboardAsset SampleDetail.isObjectId SampleDetail.carol "a1" SampleDetail.db
  = Detail.StatusSend 403 (Error "Not authorized to access this asset").
Proof. reflexivity. Qed.

Example dashboardAsset_unknown :
  Detail.dashboardAsset SampleDetail.isObjectId Sample.bob "a7" SampleDetail.db
  = Detail.StatusSend 404 (Error "Asset not found").
Proof. reflexivity. Qed.

Example dashboardAsset_transfers :
  ∃ data,
    Detail.dashboardAsset SampleDetail.isObjectId Sample.bob "a1" SampleDetail.db
    = Detail.Send data
    ∧ (Transfer.createdAt ∘ Detail.doc) <$> Detail.its_transfers data = [30; 10]%Z.
Proof. eexists. split; [vm_compute; reflexivity |]. vm_compute. done. Qed.

(** * The sidebar *)

(** X17. The sidebar shows an item exactly when the user has a role that
    the item lists, in the order of [navigation].  Without a user or a
    role, or with a role other than the three of the application, it shows
    nothing; an Admin sees every item; what a LogisticsOfficer sees a
    BaseCommander sees as well. *)
Theorem filteredNavigation_by_role :
  (∀ role item,
     item ∈ Sidebar.filteredNavigation role
     ↔ item ∈ Sidebar.navigation
       ∧ ∃ r, role = Some r ∧ r ≠ "" ∧ r ∈ Sidebar.roles item)
  ∧ (∀ role, Sidebar.filteredNavigation role `sublist_of` Sidebar.navigation)
  ∧ Sidebar.filteredNavigation None = []
  ∧ Sidebar.filteredNavigation (Some "") = []
  ∧ (∀ r, r ∉ ["Admin"; "BaseCommander"; "LogisticsOfficer"] →
          Sidebar.filteredNavigation (Some r) = [])
  ∧ Sidebar.filteredNavigation (Some "Admin") = Sidebar.navigation
  ∧ Sidebar.filteredNavigation (Some "LogisticsOfficer")
    `sublist_of` Sidebar.filteredNavigation (Some "BaseCommander").
Proof.
  split; [| split; [| split; [done | split; [done | split; [| split; [done |]]]]]].
  - intros role item. unfold Sidebar.filteredNavigation.
    rewrite list_elem_of_In, List.filter_In, <- list_elem_of_In.
    rewrite andb_true_iff, bool_decide_eq_true. split.
    + intros (Hin & Htr & Hr). split; [done |].
      destruct role as [r|]; [| done]. exists r. simpl in *.
      split; [done |]. split; [| done].
      intros ->. done.
    + intros (Hin & r & -> & Hne & Hr). split; [done |].
      split; [by apply truthy_Some | done].
  - intros role. unfold Sidebar.filteredNavigation.
    induction Sidebar.navigation as [|item l IH]; simpl; [done |].
    destruct (truthy role && bool_decide (str role ∈ Sidebar.roles item)).
    + by apply sublist_skip.
    + by apply sublist_cons.
  - intros r Hr.
    assert (Hroles : Forall (λ item, Sidebar.roles item
                                     ⊆ ["Admin"; "BaseCommander"; "LogisticsOfficer"])
                            Sidebar.navigation).
    { apply (bool_decide_unpack _). by vm_compute. }
    unfold Sidebar.filteredNavigation.
    induction Hroles as [|item l Hitem _ IH]; [done |].
    simpl. rewrite (bool_decide_eq_false_2 (r ∈ Sidebar.roles item)).
    + by rewrite andb_false_r.
    + intros Hin. apply Hr. by apply Hitem.
  - vm_compute. repeat constructor.
Qed.

(** * The handler and a BaseCommander who names no base *)

(** X18. By the handler alone, whatever stands in front of it: when a
    BaseCommander requests the dashboard without a base (none, or the
    empty string), every part of the data sent is scoped to the assigned
    base: the summary and groups count assets of that base only, and the
    four recent lists hold records of that base only. *)
Theorem commander_without_base_scoped
    (env : Env) (user : User.t) (query : Dashboard.Query) (db : Collections)
    (data : Dashboard.Data) :
  User.role user = User.BaseCommander →
  truthy (Dashboard.base query) = false →
  Dashboard.dashboard env user query db = Dashboard.Send data →
  scoped_to (User.assignedBase user) db data.
Proof.
  intros Hrole Hbase H.
  assert (HB : Dashboard.recentBase user query = Some (User.assignedBase user)).
  { rewrite (commander_recentBase user Hrole). by rewrite Hbase. }
  destruct (commander_assets_scoped user db Hrole query) as [Hsub Hall].
  destruct (dashboard_Send env user query db data H) as (_ & Hs & Hg).
  split; [by exists (Dashboard.matchedAssets user query db) |].
  by apply (dashboard_recent_base env user query db).
Qed.

Lemma commander_without_base_scoped_witness :
  ∃ data,
    Dashboard.dashboard Sample.env Sample.alice Sample.no_filter Sample.db
    = Dashboard.Send data
    ∧ scoped_to (Some "Base-A") Sample.db data.
Proof.
  eexists. split; [vm_compute; reflexivity |].
  apply (commander_without_base_scoped Sample.env Sample.alice Sample.no_filter
           Sample.db _ eq_refl eq_refl eq_refl).
Defined.
